(** * research-agent-system: planner, researcher, validator and orchestrator

    A shallow embedding of the Python sources

      - [src/agents/base_agent.py]   ([Agent.call_llm]),
      - [src/agents/planner.py]      ([PlannerAgent]),
      - [src/agents/researcher.py]   ([ResearcherAgent]),
      - [src/agents/validator.py]    ([ValidatorAgent]),
      - [src/orchestrator/orchestrator.py] ([ResearchOrchestrator]),

    followed by the properties of the specification that concern them.

    Conventions.  Python values decoded from the model's JSON answers are
    dynamically typed, so they are kept as [pyval]; a method that may raise
    returns a [pyres]; a method of an object with mutable attributes is a
    state-passing function [M S A] on a record of these attributes.  Text is
    [string], one [ascii] per character, so the model covers ASCII text.
    Python floats are exact rationals [Q]: the constants read here
    (0.1 .. 0.6) are only compared and passed on; rounding, the infinities
    and the not-a-number value are not modelled.  Log calls have no effect on
    results and are left out, except the warning of [research_parallel].
    The language-model service is a function of the request it receives. *)

From Stdlib Require Import String Ascii List ZArith QArith Bool Lia.
From Stdlib Require Import DecimalString.
Import ListNotations.
Set Warnings "-register-all".
Close Scope Q_scope.
Open Scope string_scope.

(* ================================================================= *)
(** ** Python values, exceptions *)

Inductive pyval : Type :=
| PNone
| PBool (b : bool)
| PInt (z : Z)
| PFloat (q : Q)
| PStr (s : string)
| PList (l : list pyval)
| PDict (d : list (string * pyval)).

(** The exception classes that occur in the modelled code.
    [json.JSONDecodeError] is a subclass of [ValueError];
    [ClientError] stands for [aiohttp.ClientError]. *)
Inductive exn : Type :=
| JSONDecodeError
| ValueError
| KeyError
| IndexError
| AttributeError
| TypeError
| ClientError.

Inductive pyres (A : Type) : Type :=
| Ok (a : A)
| Raise (e : exn).
Arguments Ok {A} a.
Arguments Raise {A} e.

Definition pbind {A B} (r : pyres A) (k : A -> pyres B) : pyres B :=
  match r with
  | Ok a => k a
  | Raise e => Raise e
  end.

Notation "x <-? r ;; k" := (pbind r (fun x => k))
  (at level 61, r at next level, right associativity).

(** [except JSONDecodeError] and [except (JSONDecodeError, ValueError)]. *)
Definition is_JSONDecodeError (e : exn) : bool :=
  match e with JSONDecodeError => true | _ => false end.

Definition is_ValueError (e : exn) : bool :=
  match e with JSONDecodeError | ValueError => true | _ => false end.

(** [try: body  except <classes>: handler]. *)
Definition try_except {A} (body : pyres A) (caught : exn -> bool)
    (handler : pyres A) : pyres A :=
  match body with
  | Ok a => Ok a
  | Raise e => if caught e then handler else Raise e
  end.

Fixpoint pmap {A B} (f : A -> pyres B) (l : list A) : pyres (list B) :=
  match l with
  | [] => Ok []
  | x :: l' => y <-? f x ;; ys <-? pmap f l' ;; Ok (y :: ys)
  end.

(* ================================================================= *)
(** ** Python string methods *)

Module PyStr.

Definition nl : string := String (ascii_of_nat 10) "".
Definition dquote : ascii := ascii_of_nat 34.
Definition dq : string := String dquote "".
(** [quoted s] is [s] between double quotes. *)
Definition quoted (s : string) : string := dq ++ s ++ dq.

(** [str.isspace] on one ASCII character: TAB, LF, VT, FF, CR, the
    separators FS GS RS US, and the space. *)
Definition isspace (c : ascii) : bool :=
  let n := nat_of_ascii c in
  ((9 <=? n) && (n <=? 13) || (28 <=? n) && (n <=? 32))%nat.

Fixpoint lstrip (s : string) : string :=
  match s with
  | String c s' => if isspace c then lstrip s' else s
  | EmptyString => EmptyString
  end.

Fixpoint rstrip (s : string) : string :=
  match s with
  | EmptyString => EmptyString
  | String c s' =>
      match rstrip s' with
      | EmptyString => if isspace c then EmptyString else String c EmptyString
      | r => String c r
      end
  end.

(** [s.strip()] *)
Definition strip (s : string) : string := lstrip (rstrip s).

(** [s.startswith(p)] *)
Fixpoint startswith (s p : string) {struct p} : bool :=
  match p with
  | EmptyString => true
  | String a p' =>
      match s with
      | EmptyString => false
      | String b s' => Ascii.eqb a b && startswith s' p'
      end
  end.

(** [s.find(sub)]: index of the first occurrence, [-1] when there is none. *)
Fixpoint find (s sub : string) : Z :=
  if startswith s sub then 0%Z
  else match s with
       | EmptyString => (-1)%Z
       | String _ s' =>
           let i := find s' sub in
           if (i =? -1)%Z then (-1)%Z else (i + 1)%Z
       end.

(** [s.rfind(sub)]: index of the last occurrence, [-1] when there is none. *)
Fixpoint rfind (s sub : string) : Z :=
  match s with
  | EmptyString => if startswith EmptyString sub then 0%Z else (-1)%Z
  | String _ s' =>
      let i := rfind s' sub in
      if (i =? -1)%Z then (if startswith s sub then 0%Z else (-1)%Z)
      else (i + 1)%Z
  end.

(** [s[start:stop]] for [0 <= start]; a negative [stop] does not occur at
    the call sites (they guard [stop > start] with [start <> -1]). *)
Definition slice (s : string) (start stop : Z) : string :=
  substring (Z.to_nat start) (Z.to_nat (stop - start)) s.

(** [s.split(sep)] for a non-empty [sep]: the pieces between the
    non-overlapping occurrences of [sep], scanning from the left.  [skip]
    counts the characters of a separator still to be passed over, [cur]
    holds the current piece reversed. *)
Fixpoint rev_to_string (cur : list ascii) (acc : string) : string :=
  match cur with
  | [] => acc
  | c :: cur' => rev_to_string cur' (String c acc)
  end.

Fixpoint split_go (sep : string) (skip : nat) (cur : list ascii)
    (s : string) : list string :=
  match s with
  | EmptyString => [rev_to_string cur EmptyString]
  | String c s' =>
      match skip with
      | S k => split_go sep k cur s'
      | O =>
          if startswith s sep
          then rev_to_string cur EmptyString
               :: split_go sep (String.length sep - 1) [] s'
          else split_go sep 0 (c :: cur) s'
      end
  end.

Definition split (s sep : string) : list string := split_go sep 0 [] s.

(** [l[i]] on a list of strings; [IndexError] out of range. *)
Definition item (l : list string) (i : nat) : pyres string :=
  match nth_error l i with
  | Some x => Ok x
  | None => Raise IndexError
  end.

(** [sep.join(l)] *)
Fixpoint join (sep : string) (l : list string) : string :=
  match l with
  | [] => EmptyString
  | [x] => x
  | x :: l' => x ++ sep ++ join sep l'
  end.

(** [x in s] for strings. *)
Definition contains (s sub : string) : bool := negb (find s sub =? -1)%Z.

(** [str(n)] for a natural number. *)
Definition str_of_nat (n : nat) : string :=
  NilEmpty.string_of_uint (Nat.to_uint n).

End PyStr.

(* ================================================================= *)
(** ** Operations on dynamically typed values *)

Module Py.

Fixpoint dict_lookup (key : string) (d : list (string * pyval))
    : option pyval :=
  match d with
  | [] => None
  | (k, v) :: d' => if String.eqb k key then Some v else dict_lookup key d'
  end.

(** [d[key] = v] on an insertion-ordered dict. *)
Fixpoint dict_set (key : string) (v : pyval) (d : list (string * pyval))
    : list (string * pyval) :=
  match d with
  | [] => [(key, v)]
  | (k, w) :: d' =>
      if String.eqb k key then (k, v) :: d' else (k, w) :: dict_set key v d'
  end.

(** [data.get(key, default)]: only a dict has the method. *)
Definition get (data : pyval) (key : string) (default : pyval)
    : pyres pyval :=
  match data with
  | PDict d =>
      Ok (match dict_lookup key d with Some v => v | None => default end)
  | _ => Raise AttributeError
  end.

(** The values a [for] loop runs over: the items of a list, the characters
    of a string, the keys of a dict; anything else is not iterable. *)
Definition iter (v : pyval) : pyres (list pyval) :=
  match v with
  | PList l => Ok l
  | PStr s => Ok (map (fun c => PStr (String c EmptyString))
                      (list_ascii_of_string s))
  | PDict d => Ok (map (fun kv => PStr (fst kv)) d)
  | _ => Raise TypeError
  end.

(** Numeric value of [bool], [int] and [float], which compare (and hash)
    across these types. *)
Definition num_of (v : pyval) : option Q :=
  match v with
  | PBool b => Some (if b then 1 else 0)%Q
  | PInt z => Some (inject_Z z)
  | PFloat q => Some q
  | _ => None
  end.

Definition hashable (v : pyval) : bool :=
  match v with
  | PList _ | PDict _ => false
  | _ => true
  end.

(** [a == b] between hashable values. *)
Definition eqb (a b : pyval) : bool :=
  match num_of a, num_of b with
  | Some x, Some y => Qeq_bool x y
  | _, _ =>
      match a, b with
      | PNone, PNone => true
      | PStr s, PStr t => String.eqb s t
      | _, _ => false
      end
  end.

(** [v == "literal"] *)
Definition eq_str (v : pyval) (s : string) : bool :=
  match v with
  | PStr t => String.eqb t s
  | _ => false
  end.

(** [list(set(xs))]: [TypeError] on an unhashable item; duplicates are
    removed.  Python leaves the order of a set unspecified; this model keeps
    first occurrences in order, and nothing below depends on the order. *)
Fixpoint dedup (xs : list pyval) (seen : list pyval) : list pyval :=
  match xs with
  | [] => []
  | x :: xs' =>
      if existsb (eqb x) seen then dedup xs' seen
      else x :: dedup xs' (x :: seen)
  end.

Definition list_of_set (xs : list pyval) : pyres (list pyval) :=
  if forallb hashable xs then Ok (dedup xs []) else Raise TypeError.

(** [l[:n]] on a list: a negative [n] counts from the end. *)
Definition list_slice_to {A} (l : list A) (n : Z) : list A :=
  if (n <? 0)%Z then firstn (length l - Z.to_nat (- n)) l
  else firstn (Z.to_nat n) l.

(** [v[:n]]: lists and strings can be sliced.  Any other value raises
    (a dict raises [KeyError] instead of [TypeError] from Python 3.12 on;
    no handler in this code catches either). *)
Definition slice_to (v : pyval) (n : Z) : pyres pyval :=
  match v with
  | PList l => Ok (PList (list_slice_to l n))
  | PStr s =>
      Ok (PStr (string_of_list_ascii
                  (list_slice_to (list_ascii_of_string s) n)))
  | _ => Raise TypeError
  end.

(** [len(v)] *)
Definition len (v : pyval) : pyres nat :=
  match v with
  | PList l => Ok (length l)
  | PStr s => Ok (String.length s)
  | PDict d => Ok (length d)
  | _ => Raise TypeError
  end.

(** [key in v] for a string [key]: a key of a dict, an item of a list, a
    substring of a string. *)
Definition contains_str (v : pyval) (key : string) : pyres bool :=
  match v with
  | PDict d => Ok (match dict_lookup key d with Some _ => true | None => false end)
  | PList l => Ok (existsb (fun x => eq_str x key) l)
  | PStr s => Ok (PyStr.contains s key)
  | _ => Raise TypeError
  end.

(** [sep.join(v)]: [v] must be an iterable of strings. *)
Definition join_strs (sep : string) (v : pyval) : pyres string :=
  items <-? iter v ;;
  strs <-? pmap (fun x => match x with
                          | PStr s => Ok s
                          | _ => Raise TypeError
                          end) items ;;
  Ok (PyStr.join sep strs).

End Py.

(** The built-in functions the code calls and the repository does not
    define: [json.loads] ([None] is [JSONDecodeError]), [json.dumps] with
    [indent=2], [str()] as used by f-strings, and [float()] on a string
    ([None] is [ValueError]). *)
Class Builtins : Type := {
  json_loads : string -> option pyval;
  json_dumps : pyval -> string;
  py_str : pyval -> string;
  float_of_str : string -> option Q
}.

(** [json.loads(s)] *)
Definition loads `{Builtins} (s : string) : pyres pyval :=
  match json_loads s with
  | Some v => Ok v
  | None => Raise JSONDecodeError
  end.

(** [float(v)] *)
Definition float `{Builtins} (v : pyval) : pyres Q :=
  match v with
  | PFloat q => Ok q
  | PInt z => Ok (inject_Z z)
  | PBool b => Ok (if b then 1 else 0)%Q
  | PStr s =>
      match float_of_str s with
      | Some q => Ok q
      | None => Raise ValueError
      end
  | _ => Raise TypeError
  end.

(* ================================================================= *)
(** ** The response clean-up repeated at every call site *)

Module Cleanup.
Import PyStr.

(** <<
    if response.startswith("```json"):
        response = response.split("```json")[1].split("```")[0].strip()
    elif response.startswith("```"):
        response = response.split("```")[1].split("```")[0].strip()
    >> *)
Definition strip_fence (response : string) : pyres string :=
  if startswith response "```json" then
    a <-? item (split response "```json") 1 ;;
    b <-? item (split a "```") 0 ;;
    Ok (strip b)
  else if startswith response "```" then
    a <-? item (split response "```") 1 ;;
    b <-? item (split a "```") 0 ;;
    Ok (strip b)
  else Ok response.

(** <<
    if not response.startswith("{"):
        start = response.find("{")
        end = response.rfind("}") + 1
        if start != -1 and end > start:
            response = response[start:end]
    >> *)
Definition slice_braces (response : string) : string :=
  if negb (startswith response "{") then
    let start := find response "{" in
    let stop := (rfind response "}" + 1)%Z in
    if negb (start =? -1)%Z && (stop >? start)%Z
    then slice response start stop
    else response
  else response.

(** The clean-up of [_assess_complexity], [_generate_tasks],
    [_extract_findings], [_evaluate_source] and [_validate_content]:
    strip, remove a code fence, slice between the outer braces. *)
Definition clean (response : string) : pyres string :=
  r <-? strip_fence (strip response) ;;
  Ok (slice_braces r).

(** The clean-up of [_plan_searches] (and [decide_tool_use]): strip and
    remove a code fence; there is no brace slicing at these two sites. *)
Definition clean_fence_only (response : string) : pyres string :=
  strip_fence (strip response).

End Cleanup.

(* ================================================================= *)
(** ** A decoder for the JSON texts used in the examples

    [Json.decode] follows [json.loads] on ASCII texts whose strings use
    the one-letter escapes only and whose numbers have no exponent; it is
    the instance of [json_loads] at which the concrete runs below are
    evaluated.  The general statements hold for every [Builtins]. *)

Module Json.
Import PyStr.

Definition is_ws (c : ascii) : bool :=
  let n := nat_of_ascii c in
  ((n =? 32) || (n =? 9) || (n =? 10) || (n =? 13))%nat.

Fixpoint skip_ws (s : string) : string :=
  match s with
  | String c s' => if is_ws c then skip_ws s' else s
  | EmptyString => EmptyString
  end.

Definition is_digit (c : ascii) : bool :=
  let n := nat_of_ascii c in ((48 <=? n) && (n <=? 57))%nat.

Definition digit_val (c : ascii) : Z := Z.of_nat (nat_of_ascii c - 48).

Definition unescape (c : ascii) : option ascii :=
  if Ascii.eqb c dquote then Some dquote
  else if Ascii.eqb c "\" then Some "\"%char
  else if Ascii.eqb c "/" then Some "/"%char
  else if Ascii.eqb c "n" then Some (ascii_of_nat 10)
  else if Ascii.eqb c "t" then Some (ascii_of_nat 9)
  else if Ascii.eqb c "r" then Some (ascii_of_nat 13)
  else if Ascii.eqb c "b" then Some (ascii_of_nat 8)
  else if Ascii.eqb c "f" then Some (ascii_of_nat 12)
  else None.

(** The text of a string literal after its opening quote, and the rest. *)
Fixpoint scan_string (s : string) (acc : list ascii)
    : option (string * string) :=
  match s with
  | EmptyString => None
  | String c r =>
      if Ascii.eqb c dquote then Some (rev_to_string acc EmptyString, r)
      else if Ascii.eqb c "\" then
        match r with
        | String e r' =>
            match unescape e with
            | Some x => scan_string r' (x :: acc)
            | None => None
            end
        | EmptyString => None
        end
      else if (nat_of_ascii c <? 32)%nat then None
      else scan_string r (c :: acc)
  end.

(** A run of digits: its value, its length, and the rest. *)
Fixpoint scan_digits (s : string) (acc : Z) (n : nat) : Z * nat * string :=
  match s with
  | String c r =>
      if is_digit c then scan_digits r (acc * 10 + digit_val c)%Z (S n)
      else (acc, n, s)
  | EmptyString => (acc, n, s)
  end.

Definition starts_exponent (s : string) : bool :=
  match s with
  | String c _ => Ascii.eqb c "e" || Ascii.eqb c "E"
  | EmptyString => false
  end.

Definition scan_number (s : string) : option (pyval * string) :=
  let (neg, s1) :=
    match s with
    | String c r => if Ascii.eqb c "-" then (true, r) else (false, s)
    | EmptyString => (false, s)
    end in
  let sign (z : Z) := if neg then (- z)%Z else z in
  match s1 with
  | String c r =>
      if is_digit c then
        let (ip, s2) :=
          if Ascii.eqb c "0" then (0%Z, r)
          else let '(v, _, rest) := scan_digits s1 0 0 in (v, rest) in
        match s2 with
        | String d s3 =>
            if Ascii.eqb d "." then
              let '(fv, k, s4) := scan_digits s3 0 0 in
              if (k =? 0)%nat || starts_exponent s4 then None
              else Some (PFloat (sign (ip * 10 ^ Z.of_nat k + fv)%Z
                                 # Pos.of_nat (10 ^ k)), s4)
            else if starts_exponent s2 then None
            else Some (PInt (sign ip), s2)
        | EmptyString => Some (PInt (sign ip), s2)
        end
      else None
  | EmptyString => None
  end.

Fixpoint drop (n : nat) (s : string) : string :=
  match n, s with
  | S k, String _ s' => drop k s'
  | _, _ => s
  end.

Definition scan_literal (s : string) : option (pyval * string) :=
  if startswith s "true" then Some (PBool true, drop 4 s)
  else if startswith s "false" then Some (PBool false, drop 5 s)
  else if startswith s "null" then Some (PNone, drop 4 s)
  else scan_number s.

Definition head_is (s : string) (c : ascii) : option string :=
  match s with
  | String x r => if Ascii.eqb x c then Some r else None
  | EmptyString => None
  end.

(** Recursive descent; every call consumes a character, so a fuel above
    the length of the text is never exhausted. *)
Fixpoint parse_value (fuel : nat) (s : string) : option (pyval * string) :=
  match fuel with
  | O => None
  | S fuel' =>
      match s with
      | EmptyString => None
      | String c r =>
          if Ascii.eqb c "{" then
            match head_is (skip_ws r) "}" with
            | Some r' => Some (PDict [], r')
            | None => parse_members fuel' (skip_ws r) []
            end
          else if Ascii.eqb c "[" then
            match head_is (skip_ws r) "]" with
            | Some r' => Some (PList [], r')
            | None => parse_elements fuel' (skip_ws r) []
            end
          else if Ascii.eqb c dquote then
            match scan_string r [] with
            | Some (str, r') => Some (PStr str, r')
            | None => None
            end
          else scan_literal s
      end
  end
with parse_members (fuel : nat) (s : string) (acc : list (string * pyval))
    : option (pyval * string) :=
  match fuel with
  | O => None
  | S fuel' =>
      match head_is s dquote with
      | None => None
      | Some r =>
          match scan_string r [] with
          | None => None
          | Some (k, r1) =>
              match head_is (skip_ws r1) ":" with
              | None => None
              | Some r2 =>
                  match parse_value fuel' (skip_ws r2) with
                  | None => None
                  | Some (v, r3) =>
                      let acc' := Py.dict_set k v acc in
                      match skip_ws r3 with
                      | String x r4 =>
                          if Ascii.eqb x "," then
                            parse_members fuel' (skip_ws r4) acc'
                          else if Ascii.eqb x "}" then Some (PDict acc', r4)
                          else None
                      | EmptyString => None
                      end
                  end
              end
          end
      end
  end
with parse_elements (fuel : nat) (s : string) (acc : list pyval)
    : option (pyval * string) :=
  match fuel with
  | O => None
  | S fuel' =>
      match parse_value fuel' s with
      | None => None
      | Some (v, r) =>
          match skip_ws r with
          | String x r' =>
              if Ascii.eqb x "," then
                parse_elements fuel' (skip_ws r') (acc ++ [v])
              else if Ascii.eqb x "]" then Some (PList (acc ++ [v]), r')
              else None
          | EmptyString => None
          end
      end
  end.

Definition decode (s : string) : option pyval :=
  match parse_value (S (String.length s)) (skip_ws s) with
  | Some (v, rest) =>
      match skip_ws rest with
      | EmptyString => Some v
      | _ => None
      end
  | None => None
  end.

End Json.

(** [str()] on text, the only values the concrete runs format. *)
Definition str_of_text (v : pyval) : string :=
  match v with
  | PStr s => s
  | _ => EmptyString
  end.

(** The built-ins at which the concrete runs are evaluated: these runs
    serialise the empty context only and never convert a string to a
    float. *)
Definition example_builtins : Builtins := {|
  json_loads := Json.decode;
  json_dumps := fun _ => "{}";
  py_str := str_of_text;
  float_of_str := fun _ => None
|}.

(* ================================================================= *)
(** ** State-passing methods *)

(** A method of an object whose attributes are the record [S]: it returns
    a value or raises, and leaves the attributes updated either way. *)
Definition M (S A : Type) : Type := S -> pyres A * S.

Definition ret {S A} (a : A) : M S A := fun s => (Ok a, s).

Definition bind {S A B} (m : M S A) (k : A -> M S B) : M S B :=
  fun s =>
    match m s with
    | (Ok a, s') => k a s'
    | (Raise e, s') => (Raise e, s')
    end.

Definition lift {S A} (r : pyres A) : M S A := fun s => (r, s).

(** Run a method of the attribute [get s] (an object held by [s]). *)
Definition zoom {S T A} (get : S -> T) (set : T -> S -> S) (m : M T A)
    : M S A :=
  fun s => let (r, t') := m (get s) in (r, set t' s).

Notation "x <- m ;; k" := (bind m (fun x => k))
  (at level 61, m at next level, right associativity).

(* ================================================================= *)
(** ** base_agent.py *)

Module BaseAgent.

Record Message : Type := {
  msg_role : string;
  msg_content : string
}.

Record Agent : Type := {
  name : string;
  role : string;
  model : string;
  temperature : Q;
  max_tokens : Z;
  api_key : option string;
  conversation_history : list Message;
  tools : list string
}.

(** The JSON body and the key header posted to the messages endpoint. *)
Record Request : Type := {
  req_api_key : string;
  req_model : string;
  req_max_tokens : Z;
  req_temperature : Q;
  req_system : string;
  req_messages : list Message
}.

(** The language-model service: the text of the first content block of its
    answer, or the exception the HTTP client or the answer's decoding
    raises ([aiohttp.ClientError], [KeyError]). *)
Class Service : Type := {
  llm_service : Request -> pyres string
}.

(** [temperature or self.temperature], [max_tokens or self.max_tokens]:
    [None] and zero are both false. *)
Definition or_Q (x : option Q) (d : Q) : Q :=
  match x with
  | Some q => if Qeq_bool q 0 then d else q
  | None => d
  end.

Definition or_Z (x : option Z) (d : Z) : Z :=
  match x with
  | Some z => if (z =? 0)%Z then d else z
  | None => d
  end.

(** [l[-10:]] *)
Definition last10 {A} (l : list A) : list A := skipn (length l - 10) l.

Definition append_history (self : Agent) (ms : list Message) : Agent :=
  {| name := name self; role := role self; model := model self;
     temperature := temperature self; max_tokens := max_tokens self;
     api_key := api_key self;
     conversation_history := (conversation_history self ++ ms)%list;
     tools := tools self |}.

(** [Agent.call_llm(prompt, system_prompt, temperature, max_tokens)] *)
Definition call_llm `{Service} (prompt : string)
    (system_prompt : option string) (temperature_arg : option Q)
    (max_tokens_arg : option Z) : M Agent string :=
  fun self =>
    match api_key self with
    | None => (Raise ValueError, self)
    | Some EmptyString => (Raise ValueError, self)
    | Some key =>
        let system_prompt :=
          match system_prompt with Some sp => sp | None => role self end in
        let messages := [ {| msg_role := "user"; msg_content := prompt |} ] in
        let messages :=
          match conversation_history self with
          | [] => messages
          | h => (last10 h ++ messages)%list
          end in
        let payload :=
          {| req_api_key := key;
             req_model := model self;
             req_max_tokens := or_Z max_tokens_arg (max_tokens self);
             req_temperature := or_Q temperature_arg (temperature self);
             req_system := system_prompt;
             req_messages := messages |} in
        match llm_service payload with
        | Ok content =>
            (Ok content,
             append_history self
               [ {| msg_role := "user"; msg_content := prompt |};
                 {| msg_role := "assistant"; msg_content := content |} ])
        | Raise e => (Raise e, self)
        end
    end.

End BaseAgent.

(* ================================================================= *)
(** ** planner.py *)

Module Planner.
Import PyStr BaseAgent.

Record ResearchTask : Type := {
  id : pyval;
  description : pyval;
  agent : pyval;
  tools : pyval;
  dependencies : pyval;
  priority : pyval
}.

Record ResearchPlan : Type := {
  query : string;
  complexity : pyval;
  tasks : list ResearchTask;
  estimated_duration : string;
  agents_needed : list pyval;
  tools_needed : list pyval
}.

Definition role_text : string :=
  "You are an expert research planner. Your job is to:
1. Analyze research queries for complexity and requirements
2. Break complex queries into manageable sub-tasks
3. Identify which agents and tools are needed for each task
4. Determine task dependencies and optimal execution order
5. Estimate time and resources required

Consider:
- Query scope (narrow vs broad)
- Information types needed (facts, analysis, comparisons)
- Data sources required (web, academic, code execution)
- Logical dependencies between tasks".

(** [PlannerAgent()], with the key read from the environment. *)
Definition PlannerAgent (key : option string) : Agent :=
  {| name := "Planner"; role := role_text;
     model := "claude-sonnet-4-20250514"; temperature := 0.3;
     max_tokens := 2000; api_key := key;
     conversation_history := []; BaseAgent.tools := [] |}.

Definition assess_complexity_prompt (query : string) : string :=
  "
Analyze this research query for complexity:

Query: " ++ query ++ "

Assess complexity based on:
- Scope (narrow topic vs broad field)
- Depth (surface facts vs deep analysis)
- Multiple sub-questions vs single question
- Requires comparison/synthesis vs simple lookup

Respond in JSON:
{
    " ++ dq ++ "complexity" ++ dq ++ ": " ++ dq ++ "simple|moderate|complex" ++ dq ++ ",
    " ++ dq ++ "reasoning" ++ dq ++ ": " ++ dq ++ "brief explanation" ++ dq ++ "
}

Examples:
- " ++ dq ++ "What is Python?" ++ dq ++ " = simple
- " ++ dq ++ "Compare Python vs Java for web development" ++ dq ++ " = moderate
- " ++ dq ++ "Analyze the evolution of programming languages and predict future trends" ++ dq ++ " = complex
".

(** The [try] block of [_assess_complexity]. *)
Definition read_complexity `{Builtins} (response : string) : pyres pyval :=
  response <-? Cleanup.clean response ;;
  data <-? loads response ;;
  Py.get data "complexity" (PStr "moderate").

(** The block with its handler [except json.JSONDecodeError]. *)
Definition parse_complexity `{Builtins} (response : string) : pyres pyval :=
  try_except (read_complexity response) is_JSONDecodeError
    (Ok (PStr "moderate")).

Definition _assess_complexity `{Builtins} `{Service} (query : string)
    : M Agent pyval :=
  response <- call_llm (assess_complexity_prompt query) None
                (Some 0.2%Q) (Some 300%Z) ;;
  lift (parse_complexity response).

(** [{"simple": 2, "moderate": 4, "complex": 6}[complexity]] *)
Definition max_tasks_of (complexity : pyval) : pyres nat :=
  if negb (Py.hashable complexity) then Raise TypeError
  else if Py.eq_str complexity "simple" then Ok 2
  else if Py.eq_str complexity "moderate" then Ok 4
  else if Py.eq_str complexity "complex" then Ok 6
  else Raise KeyError.

Definition generate_tasks_prompt `{Builtins} (query : string) (complexity : pyval)
    (max_tasks : nat) : string :=
  "
Create a research plan for this query:

Query: " ++ query ++ "
Complexity: " ++ py_str complexity ++ "

Break this into " ++ str_of_nat max_tasks ++ " or fewer concrete research tasks.

Available agents:
- researcher: Web search, information gathering
- validator: Source credibility, fact checking
- synthesizer: Combining findings, report generation
- code_executor: Python code execution, calculations
- api_agent: External API calls

Available tools:
- web_search: Search the web
- wikipedia: Wikipedia lookup
- arxiv: Academic papers
- calculator: Math calculations
- code_executor: Run Python code
- api_call: Call external APIs

For each task specify:
- description (clear, specific)
- agent (which agent handles this)
- tools (which tools needed)
- dependencies (which task IDs must complete first, empty array if none)
- priority (high/medium/low)

Respond in JSON:
{
    " ++ dq ++ "tasks" ++ dq ++ ": [
        {
            " ++ dq ++ "id" ++ dq ++ ": 1,
            " ++ dq ++ "description" ++ dq ++ ": " ++ dq ++ "Search for basic information about X" ++ dq ++ ",
            " ++ dq ++ "agent" ++ dq ++ ": " ++ dq ++ "researcher" ++ dq ++ ",
            " ++ dq ++ "tools" ++ dq ++ ": [" ++ dq ++ "web_search" ++ dq ++ "],
            " ++ dq ++ "dependencies" ++ dq ++ ": [],
            " ++ dq ++ "priority" ++ dq ++ ": " ++ dq ++ "high" ++ dq ++ "
        },
        {
            " ++ dq ++ "id" ++ dq ++ ": 2,
            " ++ dq ++ "description" ++ dq ++ ": " ++ dq ++ "Validate sources from task 1" ++ dq ++ ",
            " ++ dq ++ "agent" ++ dq ++ ": " ++ dq ++ "validator" ++ dq ++ ",
            " ++ dq ++ "tools" ++ dq ++ ": [],
            " ++ dq ++ "dependencies" ++ dq ++ ": [1],
            " ++ dq ++ "priority" ++ dq ++ ": " ++ dq ++ "medium" ++ dq ++ "
        }
    ]
}
".

(** One pass of the loop [for t in data.get("tasks", []): ...]. *)
Definition make_task (t : pyval) (tasks : list ResearchTask)
    : pyres ResearchTask :=
  t_id <-? Py.get t "id" (PInt (Z.of_nat (length tasks) + 1)) ;;
  t_description <-? Py.get t "description" (PStr "") ;;
  t_agent <-? Py.get t "agent" (PStr "researcher") ;;
  t_tools <-? Py.get t "tools" (PList []) ;;
  t_dependencies <-? Py.get t "dependencies" (PList []) ;;
  t_priority <-? Py.get t "priority" (PStr "medium") ;;
  Ok {| id := t_id; description := t_description; agent := t_agent;
        tools := t_tools; dependencies := t_dependencies;
        priority := t_priority |}.

Fixpoint collect_tasks (entries : list pyval) (tasks : list ResearchTask)
    : pyres (list ResearchTask) :=
  match entries with
  | [] => Ok tasks
  | t :: entries' =>
      task <-? make_task t tasks ;;
      collect_tasks entries' (tasks ++ [task])%list
  end.

Definition fallback_task (query : string) : ResearchTask :=
  {| id := PInt 1;
     description := PStr ("Research: " ++ query);
     agent := PStr "researcher";
     tools := PList [PStr "web_search"];
     dependencies := PList [];
     priority := PStr "high" |}.

(** The [try] block of [_generate_tasks]. *)
Definition read_tasks `{Builtins} (response : string)
    : pyres (list ResearchTask) :=
  response <-? Cleanup.clean response ;;
  data <-? loads response ;;
  listed <-? Py.get data "tasks" (PList []) ;;
  entries <-? Py.iter listed ;;
  collect_tasks entries [].

(** The block with its handler [except json.JSONDecodeError]. *)
Definition parse_tasks `{Builtins} (query response : string)
    : pyres (list ResearchTask) :=
  try_except (read_tasks response) is_JSONDecodeError
    (Ok [fallback_task query]).

Definition _generate_tasks `{Builtins} `{Service} (query : string)
    (complexity : pyval) : M Agent (list ResearchTask) :=
  max_tasks <- lift (max_tasks_of complexity) ;;
  response <- call_llm (generate_tasks_prompt query complexity max_tasks)
                None (Some 0.3%Q) (Some 1000%Z) ;;
  lift (parse_tasks query response).

(** [base_times.get(complexity, 30)] *)
Definition base_time (complexity : pyval) : pyres nat :=
  if negb (Py.hashable complexity) then Raise TypeError
  else if Py.eq_str complexity "simple" then Ok 15
  else if Py.eq_str complexity "moderate" then Ok 30
  else if Py.eq_str complexity "complex" then Ok 60
  else Ok 30.

Definition _estimate_duration (tasks : list ResearchTask)
    (complexity : pyval) : pyres string :=
  base <-? base_time complexity ;;
  let task_time := length tasks * 10 in
  let total := base + task_time in
  if (total <? 30)%nat then Ok "15-30 seconds"
  else if (total <? 60)%nat then Ok "30-60 seconds"
  else if (total <? 120)%nat then Ok "1-2 minutes"
  else Ok "2-5 minutes".

(** [PlannerAgent.plan(query)] *)
Definition plan `{Builtins} `{Service} (query : string)
    : M Agent ResearchPlan :=
  complexity <- _assess_complexity query ;;
  tasks <- _generate_tasks query complexity ;;
  agents_needed <- lift (Py.list_of_set (map agent tasks)) ;;
  tools_needed <- lift (per_task <-? pmap (fun t => Py.iter (tools t)) tasks ;;
                        Py.list_of_set (concat per_task)) ;;
  duration <- lift (_estimate_duration tasks complexity) ;;
  ret {| query := query; complexity := complexity; tasks := tasks;
         estimated_duration := duration; agents_needed := agents_needed;
         tools_needed := tools_needed |}.

End Planner.

(* ================================================================= *)
(** ** The search tool, as the researcher uses it *)

Module WebSearch.

Record SearchResult : Type := {
  title : string;
  url : string;
  snippet : string;
  source : string
}.

(** [WebSearchTool.search(query=q, num_results=n)]: the provider's results
    or the exception it raises. *)
Class Tool : Type := {
  search : pyval -> nat -> pyres (list SearchResult)
}.

End WebSearch.

(* ================================================================= *)
(** ** researcher.py *)

Module Researcher.
Import PyStr BaseAgent.

Record ResearchFinding : Type := {
  title : pyval;
  content : pyval;
  source : pyval;
  url : pyval;
  relevance : pyval;
  key_points : pyval
}.

Record Metadata : Type := {
  num_searches : nat;
  num_results : nat;
  num_findings : nat
}.

Record ResearchResult : Type := {
  query : string;
  findings : list ResearchFinding;
  summary : string;
  sources : list pyval;
  confidence : string;
  metadata : Metadata
}.

(** The attributes of a [ResearcherAgent]: those of [Agent] and
    [max_searches]. *)
Record ResearcherAgent : Type := {
  base : Agent;
  max_searches : Z
}.

Definition set_base (a : Agent) (self : ResearcherAgent) : ResearcherAgent :=
  {| base := a; max_searches := max_searches self |}.

Definition set_max_searches (n : Z) (self : ResearcherAgent)
    : ResearcherAgent :=
  {| base := base self; max_searches := n |}.

Definition role_text : string :=
  "You are an expert research agent. Your job is to:
1. Understand research queries and break them down if needed
2. Search for relevant, high-quality information
3. Extract key facts and insights
4. Cite sources properly
5. Assess the quality and relevance of information

Always prioritize:
- Accuracy over speed
- Quality sources (academic, official, reputable)
- Recent information when relevant
- Multiple perspectives when appropriate".

(** [ResearcherAgent(max_searches=n)], before any tool is registered. *)
Definition new (key : option string) (n : Z) : ResearcherAgent :=
  {| base := {| name := "Researcher"; role := role_text;
                model := "claude-sonnet-4-20250514"; temperature := 0.3;
                max_tokens := 2000; api_key := key;
                conversation_history := []; tools := [] |};
     max_searches := n |}.

(** [self.register_tool(name, tool)] *)
Definition register_tool (tool_name : string) (self : ResearcherAgent)
    : ResearcherAgent :=
  let a := base self in
  set_base {| name := name a; role := role a; model := model a;
              temperature := temperature a; max_tokens := max_tokens a;
              api_key := api_key a;
              conversation_history := conversation_history a;
              tools := if existsb (String.eqb tool_name) (tools a)
                       then tools a else (tools a ++ [tool_name])%list |}
           self.

Definition plan_searches_prompt `{Builtins} (query : string) (context : pyval)
    : string :=
  "
Research query: " ++ query ++ "

Context: " ++ json_dumps context ++ "

Generate 1-3 specific search queries that will help answer this research question.
Make queries:
- Specific and targeted
- Diverse to cover different angles
- Optimized for web search (2-6 words each)

Respond in JSON format:
{
    " ++ dq ++ "queries" ++ dq ++ ": [" ++ dq ++ "query1" ++ dq ++ ", " ++ dq ++ "query2" ++ dq ++ ", " ++ dq ++ "query3" ++ dq ++ "],
    " ++ dq ++ "reasoning" ++ dq ++ ": " ++ dq ++ "why these queries will be effective" ++ dq ++ "
}
".

(** The [try] block of [_plan_searches]. *)
Definition read_searches `{Builtins} (query response : string)
    (max_searches : Z) : pyres pyval :=
  response <-? Cleanup.clean_fence_only response ;;
  data <-? loads response ;;
  queries <-? Py.get data "queries" (PList [PStr query]) ;;
  Py.slice_to queries max_searches.

(** The block with its handler [except json.JSONDecodeError]. *)
Definition parse_searches `{Builtins} (query response : string)
    (max_searches : Z) : pyres pyval :=
  try_except (read_searches query response max_searches) is_JSONDecodeError
    (Ok (PList [PStr query])).

Definition _plan_searches `{Builtins} `{Service} (query : string)
    (context : pyval) : M ResearcherAgent pyval :=
  response <- zoom base set_base
                (call_llm (plan_searches_prompt query context) None
                   (Some 0.3%Q) (Some 500%Z)) ;;
  fun self => (parse_searches query response (max_searches self), self).

Definition extract_findings_prompt (query results_text : string) : string :=
  "
Research query: " ++ query ++ "

Search results:
" ++ results_text ++ "

Extract the most relevant and important findings from these search results.
For each finding:
1. Summarize the key information
2. Extract 2-4 key points
3. Assess relevance (High/Medium/Low)
4. Cite the source

Focus on:
- Direct answers to the query
- Important context and background
- Different perspectives if available
- Recent developments

You MUST respond with ONLY valid JSON in this exact format (no other text):
{
    " ++ dq ++ "findings" ++ dq ++ ": [
        {
            " ++ dq ++ "title" ++ dq ++ ": " ++ dq ++ "Finding title" ++ dq ++ ",
            " ++ dq ++ "content" ++ dq ++ ": " ++ dq ++ "2-3 sentence summary" ++ dq ++ ",
            " ++ dq ++ "source" ++ dq ++ ": " ++ dq ++ "source name" ++ dq ++ ",
            " ++ dq ++ "url" ++ dq ++ ": " ++ dq ++ "source url" ++ dq ++ ",
            " ++ dq ++ "relevance" ++ dq ++ ": " ++ dq ++ "High" ++ dq ++ ",
            " ++ dq ++ "key_points" ++ dq ++ ": [" ++ dq ++ "point 1" ++ dq ++ ", " ++ dq ++ "point 2" ++ dq ++ ", " ++ dq ++ "point 3" ++ dq ++ "]
        }
    ]
}

Include 3-5 most relevant findings.
".

(** [formatted_results], numbered from [i]. *)
Fixpoint format_results (i : nat) (search_results : list WebSearch.SearchResult)
    : list string :=
  match search_results with
  | [] => []
  | result :: rest =>
      ("[" ++ str_of_nat i ++ "] " ++ WebSearch.title result ++ nl
       ++ "Source: " ++ WebSearch.source result ++ nl
       ++ "URL: " ++ WebSearch.url result ++ nl
       ++ "Content: " ++ WebSearch.snippet result ++ nl)
      :: format_results (S i) rest
  end.

Definition make_finding (f : pyval) : pyres ResearchFinding :=
  f_title <-? Py.get f "title" (PStr "Untitled") ;;
  f_content <-? Py.get f "content" (PStr "") ;;
  f_source <-? Py.get f "source" (PStr "Unknown") ;;
  f_url <-? Py.get f "url" (PStr "") ;;
  f_relevance <-? Py.get f "relevance" (PStr "Medium") ;;
  f_key_points <-? Py.get f "key_points" (PList []) ;;
  Ok {| title := f_title; content := f_content; source := f_source;
        url := f_url; relevance := f_relevance;
        key_points := f_key_points |}.

(** Every exception class of this model derives from [Exception]. *)
Definition is_Exception (e : exn) : bool := true.

(** The [try] block of [_extract_findings]. *)
Definition read_findings `{Builtins} (response : string)
    : pyres (list ResearchFinding) :=
  response <-? Cleanup.clean response ;;
  data <-? loads response ;;
  present <-? Py.contains_str data "findings" ;;
  if negb present then Ok []
  else
    listed <-? Py.get data "findings" (PList []) ;;
    entries <-? Py.iter listed ;;
    pmap make_finding entries.

(** The block with its two handlers, [except json.JSONDecodeError] and
    [except Exception], which both return the empty list. *)
Definition parse_findings `{Builtins} (response : string)
    : pyres (list ResearchFinding) :=
  try_except
    (try_except (read_findings response) is_JSONDecodeError (Ok []))
    is_Exception
    (Ok []).

Definition _extract_findings `{Builtins} `{Service} (query : string)
    (search_results : list WebSearch.SearchResult)
    : M ResearcherAgent (list ResearchFinding) :=
  match search_results with
  | [] => ret []
  | _ :: _ =>
      let formatted_results := format_results 1 search_results in
      let results_text := join nl formatted_results in
      response <- zoom base set_base
                    (call_llm (extract_findings_prompt query results_text)
                       None (Some 0.3%Q) (Some 2000%Z)) ;;
      lift (parse_findings response)
  end.

Definition generate_summary_prompt (query findings_text : string) : string :=
  "
Research query: " ++ query ++ "

Findings:
" ++ findings_text ++ "

Create a comprehensive 3-4 paragraph summary that:
1. Directly answers the research query
2. Synthesizes information from all findings
3. Highlights the most important points
4. Mentions any important caveats or limitations
5. Is clear and well-structured

Write in a professional, informative tone.
".

(** [findings_text], numbered from [i]. *)
Fixpoint format_findings `{Builtins} (i : nat)
    (findings : list ResearchFinding) : pyres (list string) :=
  match findings with
  | [] => Ok []
  | finding :: rest =>
      points <-? Py.join_strs ", " (key_points finding) ;;
      others <-? format_findings (S i) rest ;;
      Ok ((str_of_nat i ++ ". " ++ py_str (title finding) ++ nl
           ++ "   " ++ py_str (content finding) ++ nl
           ++ "   Key points: " ++ points ++ nl) :: others)
  end.

Definition _generate_summary `{Builtins} `{Service} (query : string)
    (findings : list ResearchFinding) : M ResearcherAgent string :=
  match findings with
  | [] => ret "No findings available to summarize."
  | _ :: _ =>
      findings_text <- lift (format_findings 1 findings) ;;
      summary <- zoom base set_base
                   (call_llm
                      (generate_summary_prompt query (join nl findings_text))
                      None (Some 0.5%Q) (Some 1000%Z)) ;;
      ret (strip summary)
  end.

(** [sum(1 for f in findings if f.relevance == "High")] *)
Definition high_relevance (findings : list ResearchFinding) : nat :=
  length (filter (fun f => Py.eq_str (relevance f) "High") findings).

Definition _assess_confidence (findings : list ResearchFinding) : string :=
  match findings with
  | [] => "Low"
  | _ :: _ =>
      if (3 <=? length findings)%nat && (2 <=? high_relevance findings)%nat
      then "High"
      else if (2 <=? length findings)%nat then "Medium"
      else "Low"
  end.

(** The loop of [research] over the planned queries: a search that raises
    is skipped, the others add their results. *)
Fixpoint run_searches `{WebSearch.Tool} (has_tool : bool)
    (search_queries : list pyval)
    (all_search_results : list WebSearch.SearchResult)
    : list WebSearch.SearchResult :=
  match search_queries with
  | [] => all_search_results
  | search_query :: rest =>
      if has_tool then
        match WebSearch.search search_query 5 with
        | Ok results =>
            run_searches has_tool rest (all_search_results ++ results)%list
        | Raise _ => run_searches has_tool rest all_search_results
        end
      else run_searches has_tool rest all_search_results
  end.

(** [ResearcherAgent.research(query, context)]; [context or {}] is the
    dict [context]. *)
Definition research `{Builtins} `{Service} `{WebSearch.Tool}
    (query : string) (context : list (string * pyval))
    : M ResearcherAgent ResearchResult :=
  search_queries <- _plan_searches query (PDict context) ;;
  planned <- lift (Py.len search_queries) ;;
  limit <- (fun self => (Ok (max_searches self), self)) ;;
  has_tool <- (fun self =>
                 (Ok (existsb (String.eqb "web_search") (tools (base self))),
                  self)) ;;
  selected <- lift (sl <-? Py.slice_to search_queries limit ;; Py.iter sl) ;;
  let all_search_results := run_searches has_tool selected [] in
  findings <- _extract_findings query all_search_results ;;
  summary <- _generate_summary query findings ;;
  let confidence := _assess_confidence findings in
  sources <- lift (Py.list_of_set (map source findings)) ;;
  ret {| query := query; findings := findings; summary := summary;
         sources := sources; confidence := confidence;
         metadata := {| num_searches := planned;
                        num_results := length all_search_results;
                        num_findings := length findings |} |}.

End Researcher.

(* ================================================================= *)
(** ** validator.py *)

Module Validator.
Import PyStr BaseAgent.

Record ValidationResult : Type := {
  is_valid : pyval;
  content_score : Q;
  issues : pyval;
  warnings : pyval;
  reasoning : pyval
}.

Record SourceEvaluation : Type := {
  source : pyval;
  credibility_score : Q;
  source_type : pyval;
  strengths : pyval;
  concerns : pyval
}.

(** The dict built for each finding by [validate_findings]. *)
Record ValidatedFinding : Type := {
  original_finding : Researcher.ResearchFinding;
  source_evaluation : SourceEvaluation;
  content_validation : ValidationResult;
  overall_credibility : Q
}.

Definition role_text : string :=
  "You are an expert fact-checker and source evaluator. Your job is to:
1. Assess the credibility of sources (academic > government > reputable news > commercial)
2. Identify potential biases or conflicts of interest
3. Cross-reference claims when possible
4. Flag inconsistencies or questionable information
5. Provide objective credibility scores

Be thorough but fair. Consider:
- Source reputation and expertise
- Potential biases or motivations
- Consistency with known facts
- Quality of evidence presented
- Recency and relevance".

(** [ValidatorAgent()] *)
Definition ValidatorAgent (key : option string) : Agent :=
  {| name := "Validator"; role := role_text;
     model := "claude-haiku-4-5-20251001"; temperature := 0.1;
     max_tokens := 2000; api_key := key;
     conversation_history := []; tools := [] |}.

Definition evaluate_source_prompt `{Builtins} (source url : pyval) : string :=
  "
Evaluate the credibility of this source:

Source: " ++ py_str source ++ "
URL: " ++ py_str url ++ "

Assess:
1. Source type (Academic, Government, News, Commercial, Blog, Social Media, Unknown)
2. Overall credibility (0.0 to 1.0 scale)
3. Strengths (2-3 points about why this source might be trustworthy)
4. Concerns (1-3 points about potential issues or biases)

Consider:
- Is this a peer-reviewed academic source? (very high credibility)
- Is this a government or official organization? (high credibility)
- Is this established, reputable news? (medium-high credibility)
- Is this commercial or promotional content? (lower credibility)
- Are there potential conflicts of interest?

Respond in JSON format only:
{
    " ++ dq ++ "source_type" ++ dq ++ ": " ++ dq ++ "Academic|Government|News|Commercial|Blog|Unknown" ++ dq ++ ",
    " ++ dq ++ "credibility_score" ++ dq ++ ": 0.85,
    " ++ dq ++ "strengths" ++ dq ++ ": [" ++ dq ++ "point 1" ++ dq ++ ", " ++ dq ++ "point 2" ++ dq ++ "],
    " ++ dq ++ "concerns" ++ dq ++ ": [" ++ dq ++ "concern 1" ++ dq ++ "]
}
".

(** The [try] block of [_evaluate_source]. *)
Definition read_source_evaluation `{Builtins} (src : pyval)
    (response : string) : pyres SourceEvaluation :=
  response <-? Cleanup.clean response ;;
  data <-? loads response ;;
  raw <-? Py.get data "credibility_score" (PFloat 0.5) ;;
  score <-? float raw ;;
  kind <-? Py.get data "source_type" (PStr "Unknown") ;;
  pros <-? Py.get data "strengths" (PList []) ;;
  cons <-? Py.get data "concerns" (PList []) ;;
  Ok {| source := src; credibility_score := score; source_type := kind;
        strengths := pros; concerns := cons |}.

(** The evaluation returned by the handler. *)
Definition default_source_evaluation (src : pyval) : SourceEvaluation :=
  {| source := src; credibility_score := 0.3;
     source_type := PStr "Unknown"; strengths := PList [];
     concerns := PList [PStr "Unable to verify source credibility"] |}.

(** The block with its handler
    [except (json.JSONDecodeError, ValueError)]. *)
Definition parse_source_evaluation `{Builtins} (src : pyval)
    (response : string) : pyres SourceEvaluation :=
  try_except (read_source_evaluation src response) is_ValueError
    (Ok (default_source_evaluation src)).

Definition _evaluate_source `{Builtins} `{Service} (src url : pyval)
    : M Agent SourceEvaluation :=
  response <- call_llm (evaluate_source_prompt src url) None
                (Some 0.1%Q) (Some 500%Z) ;;
  lift (parse_source_evaluation src response).

Definition validate_content_prompt `{Builtins} (content : pyval)
    (key_points_text : string) (source : pyval) : string :=
  "
Validate this content for accuracy and reliability:

Content: " ++ py_str content ++ "

Key Points:
" ++ key_points_text ++ "

Source: " ++ py_str source ++ "

Assess:
1. Are there any obvious factual errors or inconsistencies?
2. Does the content make exaggerated or unsupported claims?
3. Is the language objective or does it show clear bias?
4. Are the key points accurately extracted?
5. Overall content credibility (0.0 to 1.0)

Respond in JSON format only:
{
    " ++ dq ++ "is_valid" ++ dq ++ ": true,
    " ++ dq ++ "credibility_score" ++ dq ++ ": 0.8,
    " ++ dq ++ "issues" ++ dq ++ ": [" ++ dq ++ "any serious problems" ++ dq ++ "],
    " ++ dq ++ "warnings" ++ dq ++ ": [" ++ dq ++ "minor concerns" ++ dq ++ "],
    " ++ dq ++ "reasoning" ++ dq ++ ": " ++ dq ++ "brief explanation of assessment" ++ dq ++ "
}
".

(** The [try] block of [_validate_content]. *)
Definition read_content_validation `{Builtins} (response : string)
    : pyres ValidationResult :=
  response <-? Cleanup.clean response ;;
  data <-? loads response ;;
  valid <-? Py.get data "is_valid" (PBool true) ;;
  raw <-? Py.get data "credibility_score" (PFloat 0.5) ;;
  score <-? float raw ;;
  found <-? Py.get data "issues" (PList []) ;;
  warned <-? Py.get data "warnings" (PList []) ;;
  why <-? Py.get data "reasoning" (PStr "") ;;
  Ok {| is_valid := valid; content_score := score; issues := found;
        warnings := warned; reasoning := why |}.

(** The result returned by the handler. *)
Definition default_content_validation : ValidationResult :=
  {| is_valid := PBool true; content_score := 0.5;
     issues := PList [];
     warnings := PList [PStr "Unable to fully validate content"];
     reasoning := PStr "" |}.

(** The block with its handler
    [except (json.JSONDecodeError, ValueError)]. *)
Definition parse_content_validation `{Builtins} (response : string)
    : pyres ValidationResult :=
  try_except (read_content_validation response) is_ValueError
    (Ok default_content_validation).

(** [chr(10).join(f"- {point}" for point in key_points)] *)
Definition key_points_text `{Builtins} (key_points : pyval) : pyres string :=
  points <-? Py.iter key_points ;;
  Ok (join nl (map (fun point => "- " ++ py_str point) points)).

Definition _validate_content `{Builtins} `{Service}
    (content key_points src : pyval) : M Agent ValidationResult :=
  points <- lift (key_points_text key_points) ;;
  response <- call_llm (validate_content_prompt content points src) None
                (Some 0.1%Q) (Some 500%Z) ;;
  lift (parse_content_validation response).

(** One pass of the loop of [validate_findings]. *)
Definition validate_finding `{Builtins} `{Service}
    (finding : Researcher.ResearchFinding) : M Agent ValidatedFinding :=
  source_eval <- _evaluate_source (Researcher.source finding)
                   (Researcher.url finding) ;;
  content_validation <- _validate_content (Researcher.content finding)
                          (Researcher.key_points finding)
                          (Researcher.source finding) ;;
  ret {| original_finding := finding;
         source_evaluation := source_eval;
         content_validation := content_validation;
         overall_credibility :=
           (credibility_score source_eval * 0.6
            + content_score content_validation * 0.4)%Q |}.

Fixpoint validate_loop `{Builtins} `{Service}
    (findings : list Researcher.ResearchFinding)
    (validated_findings : list ValidatedFinding)
    : M Agent (list ValidatedFinding) :=
  match findings with
  | [] => ret validated_findings
  | finding :: rest =>
      validated_finding <- validate_finding finding ;;
      validate_loop rest (validated_findings ++ [validated_finding])%list
  end.

Definition validate_findings `{Builtins} `{Service}
    (findings : list Researcher.ResearchFinding)
    : M Agent (list ValidatedFinding) :=
  validate_loop findings [].

End Validator.

(* ================================================================= *)
(** ** orchestrator.py *)

Module Orchestrator.
Import PyStr BaseAgent.

(** The synthesizer is used through its one entry point,
    [SynthesizerAgent.synthesize(query, findings, validated_findings)], a
    method of the synthesizer agent that returns a report or raises. *)
Class Synthesizer : Type := {
  SynthesizedReport : Type;
  synthesize : string -> list Researcher.ResearchFinding ->
               option (list Validator.ValidatedFinding) ->
               M Agent SynthesizedReport
}.

(** The entries of [metadata] that do not read the clock. *)
Record RunMetadata : Type := {
  depth : string;
  validation_used : bool;
  num_findings : nat;
  num_sources : nat
}.

Record OrchestrationResult `{Synthesizer} : Type := {
  query : string;
  research_result : Researcher.ResearchResult;
  validated_findings : list Validator.ValidatedFinding;
  final_report : SynthesizedReport;
  metadata : RunMetadata
}.

Record ResearchOrchestrator : Type := {
  use_validation : bool;
  researcher : Researcher.ResearcherAgent;
  validator : option Agent;
  synthesizer : Agent
}.

Definition set_researcher (r : Researcher.ResearcherAgent)
    (self : ResearchOrchestrator) : ResearchOrchestrator :=
  {| use_validation := use_validation self; researcher := r;
     validator := validator self; synthesizer := synthesizer self |}.

Definition set_validator (v : Agent) (self : ResearchOrchestrator)
    : ResearchOrchestrator :=
  {| use_validation := use_validation self; researcher := researcher self;
     validator := Some v; synthesizer := synthesizer self |}.

Definition set_synthesizer (a : Agent) (self : ResearchOrchestrator)
    : ResearchOrchestrator :=
  {| use_validation := use_validation self; researcher := researcher self;
     validator := validator self; synthesizer := a |}.

Definition synthesizer_role_text : string :=
  "You are an expert research synthesizer. Your job is to:
1. Combine information from multiple sources into coherent narratives
2. Identify key patterns, themes, and insights across findings
3. Highlight agreements and disagreements between sources
4. Acknowledge limitations and uncertainties
5. Create clear, well-structured reports

Always:
- Synthesize rather than just summarize
- Draw connections between different findings
- Present multiple perspectives fairly
- Be clear about confidence levels
- Write in clear, professional prose".

(** [SynthesizerAgent()] *)
Definition SynthesizerAgent (key : option string) : Agent :=
  {| name := "Synthesizer"; role := synthesizer_role_text;
     model := "claude-sonnet-4-20250514"; temperature := 0.5;
     max_tokens := 2000; api_key := key;
     conversation_history := []; tools := [] |}.

(** [ResearchOrchestrator(search_provider, use_validation, max_searches)];
    [key] is the value of the environment's API key. *)
Definition __init__ (key : option string) (use_validation : bool)
    (max_searches : Z) : ResearchOrchestrator :=
  {| use_validation := use_validation;
     researcher :=
       Researcher.register_tool "web_search" (Researcher.new key max_searches);
     validator :=
       if use_validation then Some (Validator.ValidatorAgent key) else None;
     synthesizer := SynthesizerAgent key |}.

(** <<
    if depth == "quick":
        self.researcher.max_searches = 1
    else:
        self.researcher.max_searches = 3
    >> *)
Definition adjust_depth (depth : string) : M ResearchOrchestrator unit :=
  fun self =>
    (Ok tt,
     set_researcher
       (Researcher.set_max_searches
          (if String.eqb depth "quick" then 1%Z else 3%Z)
          (researcher self))
       self).

(** Step 2 of [research]: validation runs when it is enabled, a validator
    exists and there is at least one finding. *)
Definition validate_step `{Builtins} `{Service}
    (findings : list Researcher.ResearchFinding)
    : M ResearchOrchestrator (list Validator.ValidatedFinding) :=
  fun self =>
    match use_validation self, validator self, findings with
    | true, Some v, _ :: _ =>
        let (r, v') := Validator.validate_findings findings v in
        (r, set_validator v' self)
    | _, _, _ => (Ok [], self)
    end.

(** Steps 1 to 3 of [research] and the construction of its result, with
    [save_results=False]; the time stamps of [metadata] are left out. *)
Definition run_steps `{Builtins} `{Service} `{WebSearch.Tool} `{Synthesizer}
    (query depth : string) : M ResearchOrchestrator OrchestrationResult :=
  research_result <- zoom researcher set_researcher
                       (Researcher.research query []) ;;
  validated <- validate_step (Researcher.findings research_result) ;;
  final_report <- zoom synthesizer set_synthesizer
                    (synthesize query (Researcher.findings research_result)
                       (match validated with
                        | [] => None
                        | _ :: _ => Some validated
                        end)) ;;
  fun self =>
    (Ok {| query := query;
           research_result := research_result;
           validated_findings := validated;
           final_report := final_report;
           metadata :=
             {| depth := depth;
                validation_used := use_validation self;
                num_findings := length (Researcher.findings research_result);
                num_sources := length (Researcher.sources research_result) |}
        |},
     self).

(** [ResearchOrchestrator.research(query, depth)] *)
Definition research `{Builtins} `{Service} `{WebSearch.Tool} `{Synthesizer}
    (query depth : string) : M ResearchOrchestrator OrchestrationResult :=
  _ <- adjust_depth depth ;;
  run_steps query depth.

(** [asyncio.gather] with [return_exceptions=True]: the outcome of every
    run, in the order of [queries]; an exception is an outcome like any
    other.  The runs are taken one after the other on the shared
    orchestrator. *)
Fixpoint gather `{Builtins} `{Service} `{WebSearch.Tool} `{Synthesizer}
    (queries : list string) (depth : string) (self : ResearchOrchestrator)
    : list (pyres OrchestrationResult) * ResearchOrchestrator :=
  match queries with
  | [] => ([], self)
  | q :: rest =>
      let (r, self1) := research q depth self in
      let (rs, self2) := gather rest depth self1 in
      (r :: rs, self2)
  end.

(** [[r for r in results if isinstance(r, OrchestrationResult)]] *)
Fixpoint valid_results_of {A} (results : list (pyres A)) : list A :=
  match results with
  | [] => []
  | Ok r :: rest => r :: valid_results_of rest
  | Raise _ :: rest => valid_results_of rest
  end.

(** What one call of [research_parallel] hands back and logs: the list it
    returns, the local [failed_count], and the warning it logs when that
    count is positive. *)
Record ParallelOutcome `{Synthesizer} : Type := {
  valid_results : list OrchestrationResult;
  failed_count : nat;
  warning : option string
}.

Definition summarize `{Synthesizer}
    (results : list (pyres OrchestrationResult)) : ParallelOutcome :=
  let valid := valid_results_of results in
  let failed := length results - length valid in
  {| valid_results := valid;
     failed_count := failed;
     warning := if (0 <? failed)%nat
                then Some (str_of_nat failed ++ " queries failed")
                else None |}.

(** [ResearchOrchestrator.research_parallel(queries, depth)] *)
Definition research_parallel `{Builtins} `{Service} `{WebSearch.Tool}
    `{Synthesizer} (queries : list string) (depth : string)
    : M ResearchOrchestrator ParallelOutcome :=
  fun self =>
    let (results, self') := gather queries depth self in
    (Ok (summarize results), self').

End Orchestrator.

(* ================================================================= *)
(** ** Vocabulary of the properties *)

Module Props.
Import PyStr.

(** A payload between fence markers, with and without the language tag. *)
Definition fence_json (P : string) : string :=
  "```json" ++ nl ++ P ++ nl ++ "```".

Definition fence_plain (P : string) : string :=
  "```" ++ nl ++ P ++ nl ++ "```".

(** Clean-up followed by decoding, as the [try] blocks start. *)
Definition extract `{Builtins} (response : string) : pyres pyval :=
  cleaned <-? Cleanup.clean response ;; loads cleaned.

Definition extract_fence_only `{Builtins} (response : string) : pyres pyval :=
  cleaned <-? Cleanup.clean_fence_only response ;; loads cleaned.

(** The ids listed as dependencies of a task. *)
Definition dependency_ids (t : Planner.ResearchTask) : list pyval :=
  match Py.iter (Planner.dependencies t) with
  | Ok ds => ds
  | Raise _ => []
  end.

(** [d] is the id of one of [tasks]. *)
Definition names_task (tasks : list Planner.ResearchTask) (d : pyval) : bool :=
  existsb (fun t => Py.eqb (Planner.id t) d) tasks.

Definition dependencies_resolved (tasks : list Planner.ResearchTask) : bool :=
  forallb (fun t => forallb (names_task tasks) (dependency_ids t)) tasks.

Definition within_ceiling (complexity : pyval)
    (tasks : list Planner.ResearchTask) : bool :=
  match Planner.max_tasks_of complexity with
  | Ok n => (length tasks <=? n)%nat
  | Raise _ => false
  end.

(** The value an entry of the response gives for [key]. *)
Definition entry_field (key : string) (default : pyval)
    (entry : list (string * pyval)) : pyval :=
  match Py.dict_lookup key entry with
  | Some v => v
  | None => default
  end.


End Props.

(* ================================================================= *)
(** ** Services, tools and texts of the concrete runs *)

Module Runs.
Import PyStr BaseAgent.

(** A service that answers every request with the same text. *)
Definition canned (text : string) : Service :=
  {| llm_service := fun _ => Ok text |}.

(** A service that is unreachable. *)
Definition unreachable : Service :=
  {| llm_service := fun _ => Raise ClientError |}.

(** A service that reads the conversation it is sent: it answers
    [tainted] when a message of the request mentions [word], and [clean]
    otherwise. *)
Definition history_reader (word clean tainted : string) : Service :=
  {| llm_service := fun request =>
       if existsb (fun m => contains (msg_content m) word)
            (req_messages request)
       then Ok tainted else Ok clean |}.

(** A service that fails on the requests whose last message mentions
    [word] and answers [text] to the others. *)
Definition failing_on (word text : string) : Service :=
  {| llm_service := fun request =>
       match last (map Some (req_messages request)) None with
       | Some m => if contains (msg_content m) word
                   then Raise ClientError else Ok text
       | None => Ok text
       end |}.

Definition one_result : WebSearch.Tool :=
  {| WebSearch.search := fun _ _ =>
       Ok [ {| WebSearch.title := "Title"; WebSearch.url := "http://x";
               WebSearch.snippet := "Snippet";
               WebSearch.source := "x" |} ] |}.

(** A synthesizer that makes no call and reports the query. *)
Definition echo_synthesizer : Orchestrator.Synthesizer :=
  {| Orchestrator.SynthesizedReport := string;
     Orchestrator.synthesize := fun query _ _ => ret query |}.

(** [{"key": value}] and [{"key": "text"}] as JSON text. *)
Definition obj1 (key value : string) : string :=
  "{" ++ quoted key ++ ": " ++ value ++ "}".

(** A response naming three tasks, the first depending on task 7. *)
Definition three_tasks : string :=
  obj1 "tasks"
    ("[" ++ "{" ++ quoted "id" ++ ": 1, " ++ quoted "dependencies"
         ++ ": [7]}, "
         ++ obj1 "id" "2" ++ ", " ++ obj1 "id" "3" ++ "]").

Definition no_tasks : string := obj1 "tasks" "[]".

Definition extreme_tier : string := obj1 "complexity" (quoted "extreme").

Definition low_score : string := obj1 "credibility_score" "0.2".
Definition high_score : string := obj1 "credibility_score" "0.9".

Definition finding_of (src : string) : Researcher.ResearchFinding :=
  {| Researcher.title := PStr "T"; Researcher.content := PStr "C";
     Researcher.source := PStr src; Researcher.url := PStr "http://x";
     Researcher.relevance := PStr "High";
     Researcher.key_points := PList [PStr "k"] |}.

End Runs.

(* ================================================================= *)
(** ** Vocabulary of the further properties *)

Module MoreProps.

(** The two messages a successful call adds to the history. *)
Definition user_message (prompt : string) : BaseAgent.Message :=
  {| BaseAgent.msg_role := "user"; BaseAgent.msg_content := prompt |}.

Definition assistant_message (content : string) : BaseAgent.Message :=
  {| BaseAgent.msg_role := "assistant"; BaseAgent.msg_content := content |}.

(** The position of a duration estimate among the four ranges. *)
Definition duration_rank (d : string) : nat :=
  if String.eqb d "15-30 seconds" then 1
  else if String.eqb d "30-60 seconds" then 2
  else if String.eqb d "1-2 minutes" then 3
  else if String.eqb d "2-5 minutes" then 4
  else 0.



(** The method [m] leaves the attribute read by [f] as it found it. *)
Definition keeps {S A B : Type} (f : S -> B) (m : M S A) : Prop :=
  forall s, f (snd (m s)) = f s.

(** Every answer of the service is a text that does not decode. *)
Definition never_decodes `{Builtins} `{BaseAgent.Service} : Prop :=
  forall request, exists text,
    BaseAgent.llm_service request = Ok text
    /\ forall cleaned,
         Cleanup.clean text = Ok cleaned -> json_loads cleaned = None.

(** What a search contributes to the collected results. *)
Definition results_of `{WebSearch.Tool} (search_query : pyval)
    : list WebSearch.SearchResult :=
  match WebSearch.search search_query 5 with
  | Ok results => results
  | Raise _ => []
  end.

End MoreProps.

(* ================================================================= *)
(** ** Tools and texts of the further concrete runs *)

Module MoreRuns.
Import PyStr.

(** A tool whose search for [broken] raises and whose other searches
    return one result named after the query. *)
Definition flaky (broken : string) : WebSearch.Tool :=
  {| WebSearch.search := fun q _ =>
       if Py.eq_str q broken then Raise ClientError
       else Ok [ {| WebSearch.title := str_of_text q;
                    WebSearch.url := "http://x";
                    WebSearch.snippet := "Snippet";
                    WebSearch.source := "x" |} ] |}.

(** A tool that finds nothing. *)
Definition finds_nothing : WebSearch.Tool :=
  {| WebSearch.search := fun _ _ => Ok [] |}.

(** A search plan of three queries. *)
Definition three_queries : string :=
  Runs.obj1 "queries"
    ("[" ++ quoted "a" ++ ", " ++ quoted "b" ++ ", " ++ quoted "c" ++ "]").

(** An answer with two findings, the second without title or source. *)
Definition two_findings : string :=
  Runs.obj1 "findings"
    ("[{" ++ quoted "title" ++ ": " ++ quoted "T" ++ ", "
          ++ quoted "source" ++ ": " ++ quoted "s.org" ++ "}, {}]").

Definition a_result : WebSearch.SearchResult :=
  {| WebSearch.title := "T"; WebSearch.url := "u";
     WebSearch.snippet := "s"; WebSearch.source := "x" |}.

End MoreRuns.

(* ================================================================= *)
(** ** synthesizer.py *)

Module Synthesizer.
Import PyStr BaseAgent.

(** [format(x, ".2f")], a built-in the repository does not define. *)
Class FloatFormat : Type := {
  format_2f : Q -> string
}.

Record SynthesizedReport : Type := {
  query : string;
  executive_summary : string;
  key_insights : pyval;
  detailed_analysis : string;
  contradictions : pyval;
  limitations : list string;
  confidence_level : string;
  sources_used : list pyval
}.

(** [validated_findings[i-1].get("overall_credibility", 0)] formatted, when
    validation is present and has an entry of that rank. *)
Definition credibility_note `{FloatFormat} (i : nat)
    (validated_findings : option (list Validator.ValidatedFinding))
    : string :=
  match validated_findings with
  | Some (v :: vs) =>
      if (i <=? length (v :: vs))%nat then
        match nth_error (v :: vs) (i - 1) with
        | Some vf =>
            " [Credibility: "
            ++ format_2f (Validator.overall_credibility vf) ++ "/1.0]"
        | None => EmptyString
        end
      else EmptyString
  | _ => EmptyString
  end.

(** [parts], numbered from [i]. *)
Fixpoint prepare_parts `{Builtins} `{FloatFormat} (i : nat)
    (findings : list Researcher.ResearchFinding)
    (validated_findings : option (list Validator.ValidatedFinding))
    : pyres (list string) :=
  match findings with
  | [] => Ok []
  | finding :: rest =>
      points <-? Py.join_strs ", " (Researcher.key_points finding) ;;
      others <-? prepare_parts (S i) rest validated_findings ;;
      Ok (("[" ++ str_of_nat i ++ "] " ++ py_str (Researcher.title finding)
           ++ credibility_note i validated_findings ++ nl
           ++ "Source: " ++ py_str (Researcher.source finding) ++ nl
           ++ "Content: " ++ py_str (Researcher.content finding) ++ nl
           ++ "Key Points: " ++ points ++ nl) :: others)
  end.

Definition _prepare_findings_text `{Builtins} `{FloatFormat}
    (findings : list Researcher.ResearchFinding)
    (validated_findings : option (list Validator.ValidatedFinding))
    : pyres string :=
  parts <-? prepare_parts 1 findings validated_findings ;;
  Ok (join nl parts).

Definition executive_summary_prompt (query findings_text : string) : string :=
  "
Research Question: " ++ query ++ "

Findings:
" ++ findings_text ++ "

Write a concise 2-3 paragraph executive summary that:
1. Directly answers the research question
2. Highlights the most important points
3. Synthesizes information from all sources
4. Is accessible to a general audience

Do not list findings separately - synthesize them into a cohesive narrative.
".

Definition _generate_executive_summary `{Service} (query findings_text : string)
    : M Agent string :=
  summary <- call_llm (executive_summary_prompt query findings_text) None
               (Some 0.4%Q) (Some 500%Z) ;;
  ret (strip summary).

Definition key_insights_prompt (query findings_text : string) : string :=
  "
Research Question: " ++ query ++ "

Findings:
" ++ findings_text ++ "

Extract 4-6 key insights that emerge from synthesizing these findings.
Each insight should:
- Be substantive and non-obvious
- Draw from multiple findings when possible
- Be clearly stated in 1-2 sentences

Respond in JSON format:
{
    " ++ dq ++ "insights" ++ dq ++ ": [
        " ++ dq ++ "First key insight..." ++ dq ++ ",
        " ++ dq ++ "Second key insight..." ++ dq ++ ",
        " ++ dq ++ "Third key insight..." ++ dq ++ "
    ]
}
".

(** The [try] block of [_extract_key_insights]; its log line takes the
    length of the value found. *)
Definition read_insights `{Builtins} (response : string) : pyres pyval :=
  response <-? Cleanup.clean response ;;
  data <-? loads response ;;
  insights <-? Py.get data "insights" (PList []) ;;
  _ <-? Py.len insights ;;
  Ok insights.

(** The block with its handler [except json.JSONDecodeError]. *)
Definition parse_insights `{Builtins} (response : string) : pyres pyval :=
  try_except (read_insights response) is_JSONDecodeError
    (Ok (PList [PStr "Unable to extract structured insights"])).

Definition _extract_key_insights `{Builtins} `{Service}
    (query findings_text : string) : M Agent pyval :=
  response <- call_llm (key_insights_prompt query findings_text) None
                (Some 0.5%Q) (Some 800%Z) ;;
  lift (parse_insights response).

Definition detailed_analysis_prompt (query insights_text findings_text : string)
    : string :=
  "
Research Question: " ++ query ++ "

Key Insights Identified:
" ++ insights_text ++ "

All Findings:
" ++ findings_text ++ "

Write a detailed analysis (3-4 paragraphs) that:
1. Expands on the key insights with supporting evidence
2. Discusses important nuances and context
3. Compares and contrasts different perspectives
4. Explains implications or significance

Write in clear, professional prose. Cite sources naturally (e.g., " ++ dq ++ "According to Nature.com..." ++ dq ++ ").
".

(** ["\n".join(f"- {insight}" for insight in key_insights)] *)
Definition insights_text `{Builtins} (key_insights : pyval) : pyres string :=
  items <-? Py.iter key_insights ;;
  Ok (join nl (map (fun insight => "- " ++ py_str insight) items)).

Definition _generate_detailed_analysis `{Builtins} `{Service}
    (query findings_text : string) (key_insights : pyval) : M Agent string :=
  listed <- lift (insights_text key_insights) ;;
  analysis <- call_llm (detailed_analysis_prompt query listed findings_text)
                None (Some 0.5%Q) (Some 1500%Z) ;;
  ret (strip analysis).

Definition contradictions_prompt (findings_text : string) : string :=
  "
Findings:
" ++ findings_text ++ "

Analyze these findings for contradictions or disagreements.
Look for:
- Direct contradictions (one source says X, another says not-X)
- Different conclusions from similar evidence
- Conflicting claims about facts or figures

Respond in JSON format:
{
    " ++ dq ++ "contradictions" ++ dq ++ ": [
        " ++ dq ++ "Description of contradiction 1" ++ dq ++ ",
        " ++ dq ++ "Description of contradiction 2" ++ dq ++ "
    ]
}

If there are no significant contradictions, return empty array.
".

(** The [try] block of [_identify_contradictions]. *)
Definition read_contradictions `{Builtins} (response : string)
    : pyres pyval :=
  response <-? Cleanup.clean response ;;
  data <-? loads response ;;
  Py.get data "contradictions" (PList []).

(** The block with its handler [except json.JSONDecodeError]. *)
Definition parse_contradictions `{Builtins} (response : string)
    : pyres pyval :=
  try_except (read_contradictions response) is_JSONDecodeError
    (Ok (PList [])).

Definition _identify_contradictions `{Builtins} `{Service}
    (findings_text : string) : M Agent pyval :=
  response <- call_llm (contradictions_prompt findings_text) None
                (Some 0.3%Q) (Some 500%Z) ;;
  lift (parse_contradictions response).

(** [sum(vf.get("overall_credibility", 0) for vf in validated_findings)
    / len(validated_findings)] on a non-empty list. *)
Definition average_credibility
    (validated_findings : list Validator.ValidatedFinding) : Q :=
  (fold_left Qplus (map Validator.overall_credibility validated_findings) 0
   / inject_Z (Z.of_nat (length validated_findings)))%Q.

(** [x < y] and [x >= y] on floats. *)
Definition Qltb (x y : Q) : bool := negb (Qle_bool y x).
Definition Qgeb (x y : Q) : bool := Qle_bool y x.

Definition _identify_limitations
    (findings : list Researcher.ResearchFinding)
    (validated_findings : option (list Validator.ValidatedFinding))
    : pyres (list string) :=
  let limitations :=
    if (length findings <? 3)%nat
    then ["Limited number of sources consulted"] else [] in
  let limitations :=
    match validated_findings with
    | Some (v :: vs) =>
        if Qltb (average_credibility (v :: vs)) 0.6
        then (limitations ++ ["Some sources have lower credibility scores"])%list
        else limitations
    | _ => limitations
    end in
  let sources := map Researcher.source findings in
  unique <-? Py.list_of_set sources ;;
  if Qltb (inject_Z (Z.of_nat (length unique)))
          (inject_Z (Z.of_nat (length sources)) * 0.5)
  then Ok (limitations ++ ["Limited source diversity"])%list
  else Ok limitations.

Definition _assess_confidence
    (findings : list Researcher.ResearchFinding)
    (validated_findings : option (list Validator.ValidatedFinding))
    : string :=
  match findings with
  | [] => "Low"
  | _ :: _ =>
      let score := 0 in
      let score :=
        if (4 <=? length findings)%nat then score + 2
        else if (2 <=? length findings)%nat then score + 1
        else score in
      let score :=
        match validated_findings with
        | Some (v :: vs) =>
            let avg_cred := average_credibility (v :: vs) in
            if Qgeb avg_cred 0.7 then score + 2
            else if Qgeb avg_cred 0.5 then score + 1
            else score
        | _ => score + 1
        end in
      if (3 <=? score)%nat then "High"
      else if (2 <=? score)%nat then "Medium"
      else "Low"
  end.

(** [SynthesizerAgent.synthesize(query, findings, validated_findings)] *)
Definition synthesize `{Builtins} `{FloatFormat} `{Service} (query : string)
    (findings : list Researcher.ResearchFinding)
    (validated_findings : option (list Validator.ValidatedFinding))
    : M Agent SynthesizedReport :=
  findings_text <- lift (_prepare_findings_text findings validated_findings) ;;
  exec_summary <- _generate_executive_summary query findings_text ;;
  insights <- _extract_key_insights query findings_text ;;
  analysis <- _generate_detailed_analysis query findings_text insights ;;
  found <- _identify_contradictions findings_text ;;
  limits <- lift (_identify_limitations findings validated_findings) ;;
  let confidence := _assess_confidence findings validated_findings in
  sources <- lift (Py.list_of_set (map Researcher.source findings)) ;;
  ret {| query := query;
         executive_summary := exec_summary;
         key_insights := insights;
         detailed_analysis := analysis;
         contradictions := found;
         limitations := limits;
         confidence_level := confidence;
         sources_used := sources |}.

(** The synthesizer as the orchestrator uses it. *)
Definition as_collaborator `{Builtins} `{FloatFormat} `{Service}
    : Orchestrator.Synthesizer :=
  {| Orchestrator.SynthesizedReport := SynthesizedReport;
     Orchestrator.synthesize := synthesize |}.

End Synthesizer.

(* ================================================================= *)
(** ** base_agent.py: the tool decision of [ToolUseAgent] *)

Module ToolUse.
Import PyStr BaseAgent.

(** [getattr(tool, "description", ...)] of the tool registered under a
    name: [None] when the tool has no such attribute. *)
Class ToolInfo : Type := {
  description : string -> option string
}.

(** [Agent.get_tool_descriptions()] *)
Definition get_tool_descriptions `{ToolInfo} (self : Agent) : string :=
  match tools self with
  | [] => "No tools available."
  | registered =>
      join nl
        (map (fun tool_name =>
                "- " ++ tool_name ++ ": "
                ++ match description tool_name with
                   | Some desc => desc
                   | None => "Tool: " ++ tool_name
                   end)
             registered)
  end.

(** Truth value of a Python value. *)
Definition truthy (v : pyval) : bool :=
  match v with
  | PNone => false
  | PBool b => b
  | PInt z => negb (z =? 0)%Z
  | PFloat q => negb (Qeq_bool q 0)
  | PStr s => negb (String.eqb s EmptyString)
  | PList l => match l with [] => false | _ :: _ => true end
  | PDict d => match d with [] => false | _ :: _ => true end
  end.

(** [v[key]] for a string key. *)
Definition getitem (v : pyval) (key : string) : pyres pyval :=
  match v with
  | PDict d =>
      match Py.dict_lookup key d with
      | Some x => Ok x
      | None => Raise KeyError
      end
  | _ => Raise TypeError
  end.

Definition decide_tool_use_prompt `{Builtins} (task tool_descriptions : string)
    (context : pyval) : string :=
  "
Task: " ++ task ++ "

Available tools:
" ++ tool_descriptions ++ "

Context: " ++ json_dumps context ++ "

Based on this task, decide if you need to use any tools.

Respond in JSON format:
{
    " ++ dq ++ "use_tool" ++ dq ++ ": true/false,
    " ++ dq ++ "tool" ++ dq ++ ": " ++ dq ++ "tool_name" ++ dq ++ " (if use_tool is true),
    " ++ dq ++ "arguments" ++ dq ++ ": {" ++ dq ++ "arg1" ++ dq ++ ": " ++ dq ++ "value1" ++ dq ++ "} (if use_tool is true),
    " ++ dq ++ "reasoning" ++ dq ++ ": " ++ dq ++ "why you chose this tool or why no tool is needed" ++ dq ++ "
}

If multiple tools are needed, pick the most important one first.
".

(** The [try] block of [decide_tool_use]; the log line of its first
    branch reads [decision['tool']]. *)
Definition read_decision `{Builtins} (response : string)
    : pyres (option pyval) :=
  response <-? Cleanup.clean_fence_only response ;;
  decision <-? loads response ;;
  use_tool <-? Py.get decision "use_tool" PNone ;;
  if truthy use_tool then
    _ <-? getitem decision "tool" ;;
    Ok (Some decision)
  else Ok None.

(** The block with its handler [except json.JSONDecodeError]. *)
Definition parse_decision `{Builtins} (response : string)
    : pyres (option pyval) :=
  try_except (read_decision response) is_JSONDecodeError (Ok None).

(** [ToolUseAgent.decide_tool_use(task, context)] *)
Definition decide_tool_use `{Builtins} `{Service} `{ToolInfo}
    (task : string) (context : pyval) : M Agent (option pyval) :=
  fun self =>
    match tools self with
    | [] => (Ok None, self)
    | _ :: _ =>
        (response <- call_llm
                       (decide_tool_use_prompt task
                          (get_tool_descriptions self) context)
                       None (Some 0.3%Q) (Some 500%Z) ;;
         lift (parse_decision response)) self
    end.

End ToolUse.

(* ================================================================= *)
(** ** The [to_dict] methods of the data classes *)

Module ToDict.

(** [ResearchTask.to_dict()] *)
Definition task (t : Planner.ResearchTask) : pyval :=
  PDict [("id", Planner.id t);
         ("description", Planner.description t);
         ("agent", Planner.agent t);
         ("tools", Planner.tools t);
         ("dependencies", Planner.dependencies t);
         ("priority", Planner.priority t)].

(** [ResearchFinding.to_dict()] *)
Definition finding (f : Researcher.ResearchFinding) : pyval :=
  PDict [("title", Researcher.title f);
         ("content", Researcher.content f);
         ("source", Researcher.source f);
         ("url", Researcher.url f);
         ("relevance", Researcher.relevance f);
         ("key_points", Researcher.key_points f)].

End ToDict.

(* ================================================================= *)
(** ** Vocabulary and texts for the synthesizer and the tool decision *)

Module SynthesisRuns.
Import PyStr.

Definition few_sources : string := "Limited number of sources consulted".
Definition low_credibility : string :=
  "Some sources have lower credibility scores".
Definition little_diversity : string := "Limited source diversity".

(** The value returned for insights when the answer does not decode. *)
Definition no_insights : pyval :=
  PList [PStr "Unable to extract structured insights"].

(** The nearest integer, ties to the even one. *)
Definition round_half_even (q : Q) : Z :=
  let n := Qnum q in
  let d := Z.pos (Qden q) in
  let f := (n / d)%Z in
  match (2 * (n mod d) ?= d)%Z with
  | Lt => f
  | Gt => (f + 1)%Z
  | Eq => if Z.even f then f else (f + 1)%Z
  end.

(** [format(x, ".2f")] of an exact rational. *)
Definition two_decimals : Synthesizer.FloatFormat :=
  {| Synthesizer.format_2f := fun q =>
       let h := Z.abs (round_half_even (q * 100)%Q) in
       (if Qle_bool 0 q then EmptyString else "-")
       ++ str_of_nat (Z.to_nat (h / 100)) ++ "."
       ++ str_of_nat (Z.to_nat ((h mod 100) / 10))
       ++ str_of_nat (Z.to_nat (h mod 10)) |}.

(** A finding with the given source and one key point. *)
Definition from_source (s : string) : Researcher.ResearchFinding :=
  {| Researcher.title := PStr "T"; Researcher.content := PStr "C";
     Researcher.source := PStr s; Researcher.url := PStr "u";
     Researcher.relevance := PStr "High";
     Researcher.key_points := PList [PStr "p"] |}.

(** An agent of the base class with one registered tool. *)
Definition with_tool (key : option string) : BaseAgent.Agent :=
  {| BaseAgent.name := "Demo Agent"; BaseAgent.role := "You are helpful.";
     BaseAgent.model := "claude-haiku-4-5-20251001";
     BaseAgent.temperature := 0.7; BaseAgent.max_tokens := 2000;
     BaseAgent.api_key := key; BaseAgent.conversation_history := [];
     BaseAgent.tools := ["web_search"] |}.

(** No registered tool has a [description] attribute. *)
Definition undescribed : ToolUse.ToolInfo :=
  {| ToolUse.description := fun _ => None |}.

(** A decision to use a tool that names no tool. *)
Definition nameless_decision : string :=
  Runs.obj1 "use_tool" "true".

End SynthesisRuns.

(* ================================================================= *)
(** * Properties *)

Import PyStr.

(** ** The string methods and the decoder on small inputs *)

Example string_methods_examples :
  split "a```b```c" "```" = ["a"; "b"; "c"]
  /\ split "```json x" "```json" = [""; " x"]
  /\ split "aaa" "aa" = [""; "a"]
  /\ strip ("  ab c" ++ nl ++ " ") = "ab c"
  /\ find "ab{c}d}" "{" = 2%Z /\ rfind "ab{c}d}" "}" = 6%Z
  /\ find "abc" "{" = (-1)%Z /\ rfind "abc" "}" = (-1)%Z
  /\ slice "ab{c}d}x" 2 7 = "{c}d}"
  /\ Py.list_slice_to [1; 2; 3] 2 = [1; 2]
  /\ Py.list_slice_to [1; 2; 3] (-1) = [1; 2].
Proof. vm_compute. repeat split. Qed.

Example decoder_examples :
  Json.decode ("{" ++ quoted "tasks" ++ ": [ {" ++ quoted "id" ++ ": 1, "
               ++ quoted "x" ++ ":0.85} , true, null ] }  ")
  = Some (PDict [("tasks", PList [PDict [("id", PInt 1);
                                         ("x", PFloat 0.85)];
                                  PBool true; PNone])])
  /\ Json.decode "{} x" = None
  /\ Json.decode "01" = None
  /\ Json.decode "[1,]" = None
  /\ Json.decode ("{" ++ quoted "a") = None
  /\ Cleanup.clean ("Here: {" ++ quoted "a" ++ ": 1} ok")
     = Ok ("{" ++ quoted "a" ++ ": 1}")
  /\ Cleanup.clean ("```json" ++ nl ++ "{}" ++ nl ++ "```") = Ok "{}".
Proof. vm_compute. repeat split. Qed.

(** ** Facts about the string methods *)

(** Case analysis on the character tests of a hypothesis. *)
Ltac ascii_cases H :=
  repeat match type of H with
         | context [Ascii.eqb ?a ?b] =>
             destruct (Ascii.eqb_spec a b) as [?e|?e];
             [try discriminate|]; cbn in H; try discriminate H
         end.

Section StringFacts.
#[local] Arguments Ascii.eqb : simpl never.

Lemma rev_to_string_app (cur : list ascii) (acc s : string) :
  rev_to_string cur acc ++ s = rev_to_string cur (acc ++ s).
Proof.
  revert acc; induction cur as [|c cur IH]; intros acc; simpl; auto.
Qed.

Lemma append_empty_r (s : string) : s ++ "" = s.
Proof. induction s; simpl; congruence. Qed.

Lemma append_assoc (a b c : string) : (a ++ b) ++ c = a ++ (b ++ c).
Proof. induction a; simpl; congruence. Qed.

Lemma find_lower_bound (s sub : string) : (-1 <= find s sub)%Z.
Proof.
  induction s as [|c s IH]; cbn [find].
  - destruct (startswith "" sub); lia.
  - destruct (startswith (String c s) sub); [lia|].
    destruct (find s sub =? -1)%Z; lia.
Qed.

Lemma find_none_cons (c : ascii) (s sub : string) :
  find (String c s) sub = (-1)%Z ->
  startswith (String c s) sub = false /\ find s sub = (-1)%Z.
Proof.
  cbn [find]. destruct (startswith (String c s) sub); [discriminate|].
  destruct (find s sub =? -1)%Z eqn:E; intros Hf.
  - split; auto. now apply Z.eqb_eq.
  - pose proof (find_lower_bound s sub). lia.
Qed.

Lemma find_none_intro (c : ascii) (s sub : string) :
  startswith (String c s) sub = false -> find s sub = (-1)%Z ->
  find (String c s) sub = (-1)%Z.
Proof. intros Hp Hf. cbn [find]. now rewrite Hp, Hf. Qed.

(** Without an occurrence of the separator there is one piece. *)
Lemma split_go_no_occurrence (sep s : string) (cur : list ascii) :
  find s sep = (-1)%Z ->
  split_go sep 0 cur s = [rev_to_string cur s].
Proof.
  revert cur; induction s as [|c s IH]; intros cur Hf.
  - reflexivity.
  - apply find_none_cons in Hf as [Hp Hf].
    cbn [split_go]. rewrite Hp. rewrite (IH _ Hf). reflexivity.
Qed.

Lemma split_no_occurrence (s sep : string) :
  find s sep = (-1)%Z -> split s sep = [s].
Proof. intros Hf. unfold split. now rewrite split_go_no_occurrence. Qed.

Lemma split_go_nonempty (sep s : string) (k : nat) (cur : list ascii) :
  split_go sep k cur s <> [].
Proof.
  revert k cur; induction s as [|c s IH]; intros k cur; cbn [split_go].
  - discriminate.
  - destruct k; [|apply IH].
    destruct (startswith (String c s) sep); [discriminate|apply IH].
Qed.

(** A fence cannot begin inside [x] when [x] is followed by a line feed
    unless it lies in [x]. *)
Lemma fence_before_nl (x y : string) :
  startswith (x ++ nl ++ y) "```" = true -> startswith x "```" = true.
Proof.
  destruct x as [|c1 [|c2 [|c3 x]]]; cbn; intros Hp; ascii_cases Hp.
  subst. reflexivity.
Qed.

Lemma json_fence_before_nl (x y : string) :
  startswith (x ++ nl ++ y) "```json" = true -> startswith x "```" = true.
Proof.
  destruct x as [|c1 [|c2 [|c3 x]]]; cbn; intros Hp; ascii_cases Hp.
  subst. reflexivity.
Qed.


Lemma lstrip_app (a b' : string) (c : ascii) :
  isspace c = false ->
  lstrip (a ++ String c b') = lstrip a ++ String c b'.
Proof.
  intros Hc. induction a as [|x a IH]; cbn [lstrip append].
  - now rewrite Hc.
  - destruct (isspace x); auto.
Qed.

Lemma rstrip_app_space (x y : string) :
  rstrip y = "" -> rstrip (x ++ y) = rstrip x.
Proof.
  intros Hy. induction x as [|c x IH]; cbn [rstrip append]; auto.
  now rewrite IH.
Qed.

Lemma rstrip_end_nonspace (x : string) (c : ascii) :
  isspace c = false -> rstrip (x ++ String c "") = x ++ String c "".
Proof.
  intros Hc. induction x as [|d x IH]; cbn [rstrip append].
  - now rewrite Hc.
  - rewrite IH. destruct x; reflexivity.
Qed.

Lemma find_none_before_nl (P : string) :
  find P "```" = (-1)%Z -> find (P ++ nl) "```" = (-1)%Z.
Proof.
  induction P as [|c P IH]; intros Hf.
  - reflexivity.
  - apply find_none_cons in Hf as [Hp Hf].
    change (String c P ++ nl) with (String c (P ++ nl)).
    apply find_none_intro; auto.
    destruct (startswith (String c (P ++ nl)) "```") eqn:E; auto.
    change (String c (P ++ nl)) with (String c P ++ nl ++ "") in E.
    apply fence_before_nl in E. congruence.
Qed.

Lemma find_json_fence_none (P : string) :
  find P "```" = (-1)%Z -> find (P ++ nl ++ "```") "```json" = (-1)%Z.
Proof.
  induction P as [|c P IH]; intros Hf.
  - reflexivity.
  - apply find_none_cons in Hf as [Hp Hf].
    change (String c P ++ nl ++ "```") with (String c (P ++ nl ++ "```")).
    apply find_none_intro; auto.
    destruct (startswith (String c (P ++ nl ++ "```")) "```json") eqn:E; auto.
    change (String c (P ++ nl ++ "```")) with (String c P ++ nl ++ "```") in E.
    apply json_fence_before_nl in E. congruence.
Qed.

(** Splitting at the closing fence. *)
Lemma split_go_closing_fence (P : string) (cur : list ascii) :
  find P "```" = (-1)%Z ->
  split_go "```" 0 cur (P ++ nl ++ "```")
  = [rev_to_string cur (P ++ nl); ""].
Proof.
  revert cur; induction P as [|c P IH]; intros cur Hf.
  - reflexivity.
  - apply find_none_cons in Hf as [Hp Hf].
    change (String c P ++ nl ++ "```") with (String c (P ++ nl ++ "```")).
    cbn [split_go].
    destruct (startswith (String c (P ++ nl ++ "```")) "```") eqn:E.
    + change (String c (P ++ nl ++ "```")) with (String c P ++ nl ++ "```")
        in E.
      apply fence_before_nl in E. congruence.
    + rewrite (IH _ Hf). reflexivity.
Qed.

Lemma find_brace_after (a b : string) :
  find a "{" = (-1)%Z ->
  find (a ++ String "{" b) "{" = Z.of_nat (String.length a).
Proof.
  induction a as [|c a IH]; intros Hf.
  - reflexivity.
  - apply find_none_cons in Hf as [Hp Hf].
    change (String c a ++ String "{" b) with (String c (a ++ String "{" b)).
    cbn [find String.length].
    assert (Hq : startswith (String c (a ++ String "{" b)) "{" = false).
    { cbn in Hp |- *. exact Hp. }
    rewrite Hq, (IH Hf).
    destruct (Z.eqb_spec (Z.of_nat (String.length a)) (-1)); lia.
Qed.

Lemma rfind_brace_end (x : string) :
  rfind (x ++ "}") "}" = Z.of_nat (String.length x).
Proof.
  induction x as [|c x IH].
  - reflexivity.
  - change (String c x ++ "}") with (String c (x ++ "}")).
    cbn [rfind String.length]. rewrite IH.
    destruct (Z.eqb_spec (Z.of_nat (String.length x)) (-1)); lia.
Qed.

Lemma substring_all (s : string) : substring 0 (String.length s) s = s.
Proof. induction s; cbn; congruence. Qed.

Lemma substring_skip (a b : string) (n : nat) :
  substring (String.length a) n (a ++ b) = substring 0 n b.
Proof. induction a; cbn; auto. Qed.

Lemma slice_suffix (a b : string) :
  slice (a ++ b) (Z.of_nat (String.length a))
        (Z.of_nat (String.length a) + Z.of_nat (String.length b)) = b.
Proof.
  unfold slice. rewrite Nat2Z.id.
  replace (Z.to_nat _) with (String.length b) by lia.
  now rewrite substring_skip, substring_all.
Qed.

Lemma length_append (a b : string) :
  String.length (a ++ b) = String.length a + String.length b.
Proof. induction a; cbn; auto. Qed.

End StringFacts.

(* ================================================================= *)
(** ** The clean-up of a response *)

Section CleanupFacts.
Import Props.
#[local] Arguments Ascii.eqb : simpl never.

Lemma rstrip_app_kept (x y : string) :
  y <> "" -> rstrip y = y -> rstrip (x ++ y) = x ++ y.
Proof.
  intros Hne Hy. induction x as [|c x IH]; cbn [rstrip append]; auto.
  rewrite IH. destruct x; cbn; auto. destruct y; congruence.
Qed.

Lemma find_lstrip_none (s sub : string) :
  find s sub = (-1)%Z -> find (lstrip s) sub = (-1)%Z.
Proof.
  induction s as [|c s IH]; intros Hf; cbn [lstrip]; auto.
  destruct (isspace c); auto.
  apply find_none_cons in Hf as [_ Hf]. auto.
Qed.

(** A fence cannot begin in [x] followed by a character other than a
    backquote, unless it lies in [x]. *)
Lemma fence_before_char (x y : string) (c : ascii) :
  Ascii.eqb "`" c = false ->
  startswith (x ++ String c y) "```" = true -> startswith x "```" = true.
Proof.
  intros Hc.
  destruct x as [|c1 [|c2 [|c3 x]]]; cbn; intros Hp; ascii_cases Hp;
    subst; rewrite ?Hc in Hp; try discriminate Hp.
  reflexivity.
Qed.

Lemma startswith_longer (s p q : string) :
  startswith s (p ++ q) = true -> startswith s p = true.
Proof.
  revert s; induction p as [|a p IH]; intros s; cbn; auto.
  destruct s; auto. destruct (Ascii.eqb a a0); cbn; auto.
Qed.

Lemma strip_object (body : string) :
  strip ("{" ++ body ++ "}") = "{" ++ body ++ "}".
Proof.
  unfold strip.
  change ("{" ++ body ++ "}") with (("{" ++ body) ++ "}").
  now rewrite rstrip_end_nonspace.
Qed.

Lemma strip_between_newlines (body : string) :
  strip (nl ++ ("{" ++ body ++ "}") ++ nl) = "{" ++ body ++ "}".
Proof.
  unfold strip.
  replace (nl ++ ("{" ++ body ++ "}") ++ nl)
    with (((nl ++ "{" ++ body) ++ "}") ++ nl).
  2:{ cbn. now rewrite !append_assoc. }
  rewrite rstrip_app_space by reflexivity.
  rewrite rstrip_end_nonspace by reflexivity.
  reflexivity.
Qed.

Lemma slice_braces_object (body : string) :
  Cleanup.slice_braces ("{" ++ body ++ "}") = "{" ++ body ++ "}".
Proof. reflexivity. Qed.

Lemma find_after_nl (P : string) :
  find P "```" = (-1)%Z -> find (nl ++ P) "```" = (-1)%Z.
Proof. intros Hf. apply find_none_intro; auto. Qed.

(** What the fence removal leaves of a fenced payload. *)
Lemma strip_fence_json (P : string) :
  find P "```" = (-1)%Z ->
  Cleanup.strip_fence (fence_json P) = Ok (strip (nl ++ P ++ nl)).
Proof.
  intros Hf. unfold Cleanup.strip_fence, fence_json.
  change (startswith ("```json" ++ nl ++ P ++ nl ++ "```") "```json")
    with true. cbn match.
  change (split ("```json" ++ nl ++ P ++ nl ++ "```") "```json")
    with ("" :: split ((nl ++ P) ++ nl ++ "```") "```json").
  rewrite split_no_occurrence
    by (apply find_json_fence_none, find_after_nl, Hf).
  cbn [item nth_error pbind]. unfold split.
  rewrite split_go_closing_fence by (apply find_after_nl, Hf).
  cbn [item nth_error pbind rev_to_string].
  now rewrite append_assoc.
Qed.

Lemma strip_fence_plain (P : string) :
  find P "```" = (-1)%Z ->
  Cleanup.strip_fence (fence_plain P) = Ok (strip (nl ++ P ++ nl)).
Proof.
  intros Hf. unfold Cleanup.strip_fence, fence_plain.
  change (startswith ("```" ++ nl ++ P ++ nl ++ "```") "```json")
    with false.
  change (startswith ("```" ++ nl ++ P ++ nl ++ "```") "```") with true.
  cbn match.
  change (split ("```" ++ nl ++ P ++ nl ++ "```") "```")
    with ("" :: split_go "```" 0 [] ((nl ++ P) ++ nl ++ "```")).
  rewrite split_go_closing_fence by (apply find_after_nl, Hf).
  cbn [item nth_error pbind rev_to_string].
  rewrite split_no_occurrence.
  2:{ change ((nl ++ P) ++ nl) with (nl ++ P ++ nl).
      apply find_after_nl, find_none_before_nl, Hf. }
  cbn [item nth_error pbind]. now rewrite append_assoc.
Qed.

Lemma strip_fenced (wrap : string -> string) (x : string) :
  (forall P, exists y, wrap P = String "`" (y ++ "`")) ->
  strip (wrap x) = wrap x.
Proof.
  intros Hw. destruct (Hw x) as [y ->]. unfold strip.
  change (String "`" (y ++ "`")) with (String "`" y ++ "`").
  now rewrite rstrip_end_nonspace.
Qed.

Lemma fence_json_shape (P : string) :
  exists y, fence_json P = String "`" (y ++ "`").
Proof.
  exists ("``json" ++ nl ++ P ++ nl ++ "``"). unfold fence_json. cbn.
  now rewrite !append_assoc.
Qed.

Lemma fence_plain_shape (P : string) :
  exists y, fence_plain P = String "`" (y ++ "`").
Proof.
  exists ("``" ++ nl ++ P ++ nl ++ "``"). unfold fence_plain. cbn.
  now rewrite !append_assoc.
Qed.

Lemma clean_fenced_object (body : string) :
  let P := "{" ++ body ++ "}" in
  find P "```" = (-1)%Z ->
  Cleanup.clean (fence_json P) = Ok P
  /\ Cleanup.clean (fence_plain P) = Ok P
  /\ Cleanup.clean_fence_only (fence_json P) = Ok P
  /\ Cleanup.clean_fence_only (fence_plain P) = Ok P.
Proof.
  intros P Hf. unfold Cleanup.clean, Cleanup.clean_fence_only.
  rewrite (strip_fenced fence_json P fence_json_shape).
  rewrite (strip_fenced fence_plain P fence_plain_shape).
  rewrite strip_fence_json, strip_fence_plain by exact Hf.
  unfold P. rewrite strip_between_newlines. cbn [pbind].
  rewrite slice_braces_object. auto.
Qed.

Lemma clean_after_prose (prose body : string) :
  let P := "{" ++ body ++ "}" in
  find prose "{" = (-1)%Z ->
  startswith (lstrip prose) "```" = false ->
  Cleanup.clean (prose ++ P) = Ok P.
Proof.
  intros P Hb Hfence. unfold Cleanup.clean, strip.
  replace (prose ++ P) with ((prose ++ "{" ++ body) ++ "}")
    by (unfold P; cbn; now rewrite !append_assoc).
  rewrite rstrip_end_nonspace by reflexivity.
  replace ((prose ++ "{" ++ body) ++ "}") with (prose ++ String "{" (body ++ "}"))
    by (cbn; now rewrite !append_assoc).
  rewrite lstrip_app by reflexivity.
  apply find_lstrip_none in Hb.
  set (p := lstrip prose) in *.
  unfold Cleanup.strip_fence.
  assert (H3 : startswith (p ++ String "{" (body ++ "}")) "```" = false).
  { destruct (startswith (p ++ String "{" (body ++ "}")) "```") eqn:E; auto.
    apply fence_before_char in E; [congruence|reflexivity]. }
  assert (H7 : startswith (p ++ String "{" (body ++ "}")) "```json" = false).
  { destruct (startswith (p ++ String "{" (body ++ "}")) "```json") eqn:E; auto.
    apply (startswith_longer _ "```" "json") in E. congruence. }
  rewrite H7, H3. cbn [pbind]. f_equal.
  unfold Cleanup.slice_braces.
  destruct p as [|d p'].
  - reflexivity.
  - apply find_none_cons in Hb as Hd. destruct Hd as [Hd _].
    assert (Hs : startswith (String d p' ++ String "{" (body ++ "}")) "{"
                 = false) by (cbn in Hd |- *; exact Hd).
    rewrite Hs. cbn [negb].
    rewrite find_brace_after by exact Hb.
    assert (Hr : rfind (String d p' ++ String "{" (body ++ "}")) "}"
                 = Z.of_nat (String.length (String d p' ++ "{" ++ body))).
    { rewrite <- rfind_brace_end. f_equal. cbn. now rewrite !append_assoc. }
    rewrite Hr, length_append.
    set (n := String.length (String d p')).
    replace ((Z.of_nat n =? -1)%Z) with false by (symmetry; apply Z.eqb_neq; lia).
    replace ((Z.of_nat (n + String.length ("{" ++ body)) + 1 >? Z.of_nat n)%Z)
      with true by (symmetry; apply Z.gtb_lt; lia).
    cbn [negb andb].
    replace (Z.of_nat (n + String.length ("{" ++ body)) + 1)%Z
      with (Z.of_nat n + Z.of_nat (String.length (String "{" (body ++ "}"))))%Z.
    + apply slice_suffix.
    + cbn [String.length append]. rewrite length_append. cbn. lia.
Qed.

End CleanupFacts.

Section CleanupTotal.

Lemma item_head_split (s sep : string) :
  exists x, item (split s sep) 0 = Ok x.
Proof.
  unfold split. pose proof (split_go_nonempty sep s 0 []) as Hne.
  destruct (split_go sep 0 [] s) as [|x l]; [congruence|].
  now exists x.
Qed.

Lemma item_second_split (s sep : string) :
  sep <> "" -> startswith s sep = true ->
  exists x, item (split s sep) 1 = Ok x.
Proof.
  intros Hsep Hp. unfold split. destruct s as [|c s].
  - destruct sep; [congruence|discriminate].
  - cbn [split_go]. rewrite Hp.
    pose proof (split_go_nonempty sep s (String.length sep - 1) []) as Hne.
    destruct (split_go sep (String.length sep - 1) [] s) as [|x l];
      [congruence|].
    now exists x.
Qed.

(** The clean-up never raises: the two indexings are always in range. *)
Lemma strip_fence_never_raises (response : string) :
  exists cleaned, Cleanup.strip_fence response = Ok cleaned.
Proof.
  unfold Cleanup.strip_fence.
  destruct (startswith response "```json") eqn:E7.
  - destruct (item_second_split response "```json") as [a ->];
      [discriminate|exact E7|].
    cbn [pbind]. destruct (item_head_split a "```") as [b ->].
    cbn [pbind]. eauto.
  - destruct (startswith response "```") eqn:E3; [|eauto].
    destruct (item_second_split response "```") as [a ->];
      [discriminate|exact E3|].
    cbn [pbind]. destruct (item_head_split a "```") as [b ->].
    cbn [pbind]. eauto.
Qed.

Lemma clean_never_raises (response : string) :
  exists cleaned, Cleanup.clean response = Ok cleaned.
Proof.
  unfold Cleanup.clean.
  destruct (strip_fence_never_raises (strip response)) as [c ->].
  cbn [pbind]. eauto.
Qed.

End CleanupTotal.

(* ================================================================= *)
(** ** Extraction of wrapped payloads *)

Section Extraction.
Import Props Runs.
Context `{B : Builtins}.

(** C2, as amended: for an object payload [P], written from its opening
    brace to its closing brace and containing no fence marker, cleaning and
    decoding [P] wrapped in fence markers (with or without the [json] tag)
    gives what decoding [P] gives, at the call sites with brace slicing and
    at those without; and with brace slicing, so does [P] prefixed with
    prose that contains no opening brace and does not begin with a fence
    marker. *)
Theorem extraction_of_wrapped_object (body prose : string) :
  let P := "{" ++ body ++ "}" in
  find P "```" = (-1)%Z ->
  extract (fence_json P) = loads P
  /\ extract (fence_plain P) = loads P
  /\ extract_fence_only (fence_json P) = loads P
  /\ extract_fence_only (fence_plain P) = loads P
  /\ (find prose "{" = (-1)%Z ->
      startswith (lstrip prose) "```" = false ->
      extract (prose ++ P) = loads P).
Proof.
  intros P Hf. subst P. unfold extract, extract_fence_only.
  destruct (clean_fenced_object body Hf) as (-> & -> & -> & ->).
  repeat split; auto.
  intros Hb Hp. now rewrite (clean_after_prose prose body Hb Hp).
Qed.

End Extraction.

Lemma extraction_of_wrapped_object_witness :
  let P := "{" ++ (quoted "a" ++ ": 1") ++ "}" in
  find P "```" = (-1)%Z
  /\ @Props.extract example_builtins (Props.fence_json P)
     = Ok (PDict [("a", PInt 1)])
  /\ @Props.extract example_builtins ("Here is the answer: " ++ P)
     = Ok (PDict [("a", PInt 1)]).
Proof.
  cbv zeta.
  assert (Hf : find ("{" ++ (quoted "a" ++ ": 1") ++ "}") "```" = (-1)%Z)
    by reflexivity.
  pose proof (@extraction_of_wrapped_object example_builtins
                (quoted "a" ++ ": 1") "Here is the answer: " Hf)
    as (H1 & _ & _ & _ & H5).
  split; [exact Hf|]. split.
  - rewrite H1. reflexivity.
  - rewrite H5; reflexivity.
Defined.

(** C2, as stated, fails: a payload that decodes on its own and holds a
    fence marker inside a string is cut at that marker once it is wrapped;
    prose with a brace moves the slice; and without brace slicing any prose
    makes decoding fail. *)
Lemma extraction_not_idempotent :
  let P1 := Runs.obj1 "a" (quoted "```") in
  let P2 := Runs.obj1 "a" "1" in
  @loads example_builtins P1 = Ok (PDict [("a", PStr "```")])
  /\ @Props.extract example_builtins (Props.fence_json P1)
     = Raise JSONDecodeError
  /\ @loads example_builtins P2 = Ok (PDict [("a", PInt 1)])
  /\ @Props.extract example_builtins ("Use {braces}: " ++ P2)
     = Raise JSONDecodeError
  /\ @Props.extract_fence_only example_builtins ("Result: " ++ P2)
     = Raise JSONDecodeError.
Proof. vm_compute. repeat split. Qed.

(* ================================================================= *)
(** ** The planner *)

Section PlannerFacts.
Import Props BaseAgent Planner.
Context `{B : Builtins} `{S : Service}.

Lemma make_task_of_dict (entry : list (string * pyval))
    (tasks : list ResearchTask) :
  make_task (PDict entry) tasks
  = Ok {| id := entry_field "id" (PInt (Z.of_nat (length tasks) + 1)) entry;
          description := entry_field "description" (PStr "") entry;
          agent := entry_field "agent" (PStr "researcher") entry;
          tools := entry_field "tools" (PList []) entry;
          dependencies := entry_field "dependencies" (PList []) entry;
          priority := entry_field "priority" (PStr "medium") entry |}.
Proof. reflexivity. Qed.

(** The loop adds one task per entry and copies its dependency list. *)
Lemma collect_tasks_of_dicts (entries : list (list (string * pyval))) :
  forall acc, exists tasks,
    collect_tasks (map PDict entries) acc = Ok (acc ++ tasks)%list
    /\ length tasks = length entries
    /\ map dependencies tasks
       = map (entry_field "dependencies" (PList [])) entries.
Proof.
  induction entries as [|e entries IH]; intros acc.
  - exists []. cbn. now rewrite app_nil_r.
  - cbn [map collect_tasks]. rewrite make_task_of_dict. cbn [pbind].
    match goal with
    | |- context [collect_tasks _ (acc ++ [?t])%list] =>
        destruct (IH (acc ++ [t])%list) as (tasks & Heq & Hlen & Hdeps);
        exists (t :: tasks)
    end.
    rewrite Heq, <- app_assoc. cbn [app].
    split; [reflexivity|]. cbn [length map dependencies].
    now rewrite Hlen, Hdeps.
Qed.

(** [_generate_tasks] once the tier is known and the service has
    answered. *)
Lemma generate_tasks_answered (query : string) (complexity : pyval)
    (n : nat) (self self' : Agent) (response : string) :
  max_tasks_of complexity = Ok n ->
  call_llm (generate_tasks_prompt query complexity n) None
    (Some 0.3%Q) (Some 1000%Z) self = (Ok response, self') ->
  _generate_tasks query complexity self = (parse_tasks query response, self').
Proof.
  intros Hn Hcall. unfold _generate_tasks, bind, lift.
  now rewrite Hn, Hcall.
Qed.

(** C1, as amended: when the response decodes to an object whose task
    list holds the entries [entries], [_generate_tasks] returns one task
    per entry, in order, and each task's dependency list is the entry's
    [dependencies] value as it stands: no id is dropped, and the number of
    tasks is the number of entries whatever the tier's ceiling. *)
Theorem generate_tasks_keeps_entries (query : string) (complexity : pyval)
    (n : nat) (self self' : Agent) (response cleaned : string)
    (data : list (string * pyval)) (entries : list (list (string * pyval))) :
  max_tasks_of complexity = Ok n ->
  call_llm (generate_tasks_prompt query complexity n) None
    (Some 0.3%Q) (Some 1000%Z) self = (Ok response, self') ->
  Cleanup.clean response = Ok cleaned ->
  json_loads cleaned = Some (PDict data) ->
  Py.dict_lookup "tasks" data = Some (PList (map PDict entries)) ->
  exists tasks,
    _generate_tasks query complexity self = (Ok tasks, self')
    /\ length tasks = length entries
    /\ map dependencies tasks
       = map (entry_field "dependencies" (PList [])) entries.
Proof.
  intros Hn Hcall Hclean Hload Htasks.
  rewrite (generate_tasks_answered _ _ _ _ _ _ Hn Hcall).
  unfold parse_tasks, read_tasks, loads. rewrite Hclean. cbn [pbind].
  rewrite Hload. cbn [pbind Py.get]. rewrite Htasks. cbn [pbind Py.iter].
  destruct (collect_tasks_of_dicts entries []) as (tasks & -> & Hlen & Hdeps).
  exists tasks. cbn [app try_except]. auto.
Qed.

(** C5, as amended: when the response does not decode, [_generate_tasks]
    returns exactly the fallback task (the whole query, the research role,
    no dependencies); when it decodes to an object whose task list is empty
    or absent, it returns the empty list. *)
Theorem generate_tasks_fallback (query : string) (complexity : pyval)
    (n : nat) (self self' : Agent) (response cleaned : string) :
  max_tasks_of complexity = Ok n ->
  call_llm (generate_tasks_prompt query complexity n) None
    (Some 0.3%Q) (Some 1000%Z) self = (Ok response, self') ->
  Cleanup.clean response = Ok cleaned ->
  (json_loads cleaned = None ->
   _generate_tasks query complexity self = (Ok [fallback_task query], self')
   /\ description (fallback_task query) = PStr ("Research: " ++ query)
   /\ agent (fallback_task query) = PStr "researcher"
   /\ dependencies (fallback_task query) = PList [])
  /\ (forall data,
        json_loads cleaned = Some (PDict data) ->
        entry_field "tasks" (PList []) data = PList [] ->
        _generate_tasks query complexity self = (Ok [], self')).
Proof.
  intros Hn Hcall Hclean.
  rewrite (generate_tasks_answered _ _ _ _ _ _ Hn Hcall).
  unfold parse_tasks, read_tasks, loads. rewrite Hclean. cbn [pbind].
  split.
  - intros ->. cbn. auto.
  - intros data -> Hempty. cbn [pbind Py.get].
    unfold entry_field in Hempty. rewrite Hempty. reflexivity.
Qed.

Lemma max_tasks_unknown_tier (tier : string) :
  tier <> "simple" -> tier <> "moderate" -> tier <> "complex" ->
  max_tasks_of (PStr tier) = Raise KeyError.
Proof.
  intros H1 H2 H3. unfold max_tasks_of, Py.eq_str. cbn [Py.hashable negb].
  apply String.eqb_neq in H1, H2, H3. now rewrite H1, H2, H3.
Qed.

(** C10: a decoded response hands its [complexity] value to the caller
    unchecked; with a tier string outside simple, moderate and complex the
    ceiling lookup of [_generate_tasks] raises [KeyError] before any call,
    and [plan] ends with that exception. *)
Theorem plan_raises_on_unknown_tier (query : string) (self self1 : Agent)
    (response cleaned : string) (data : list (string * pyval))
    (tier : string) :
  call_llm (assess_complexity_prompt query) None (Some 0.2%Q) (Some 300%Z)
    self = (Ok response, self1) ->
  Cleanup.clean response = Ok cleaned ->
  json_loads cleaned = Some (PDict data) ->
  Py.dict_lookup "complexity" data = Some (PStr tier) ->
  tier <> "simple" -> tier <> "moderate" -> tier <> "complex" ->
  _assess_complexity query self = (Ok (PStr tier), self1)
  /\ (forall a, _generate_tasks query (PStr tier) a = (Raise KeyError, a))
  /\ plan query self = (Raise KeyError, self1).
Proof.
  intros Hcall Hclean Hload Hkey H1 H2 H3.
  assert (Ha : _assess_complexity query self = (Ok (PStr tier), self1)).
  { unfold _assess_complexity, bind, lift. rewrite Hcall.
    unfold parse_complexity, read_complexity, loads.
    rewrite Hclean. cbn [pbind]. rewrite Hload. cbn [pbind Py.get].
    now rewrite Hkey. }
  assert (Hg : forall a,
             _generate_tasks query (PStr tier) a = (Raise KeyError, a)).
  { intros a. unfold _generate_tasks, bind, lift.
    now rewrite (max_tasks_unknown_tier _ H1 H2 H3). }
  repeat split; auto.
  unfold plan, bind. now rewrite Ha, Hg.
Qed.

End PlannerFacts.

Lemma generate_tasks_keeps_entries_witness :
  exists self' tasks,
    @Planner._generate_tasks example_builtins (Runs.canned Runs.three_tasks)
      "q" (PStr "simple") (Planner.PlannerAgent (Some "key"))
    = (Ok tasks, self')
    /\ length tasks = 3
    /\ map Planner.dependencies tasks = [PList [PInt 7]; PList []; PList []].
Proof.
  eexists.
  eapply (@generate_tasks_keeps_entries example_builtins
            (Runs.canned Runs.three_tasks) "q" (PStr "simple") 2
            (Planner.PlannerAgent (Some "key")) _ Runs.three_tasks
            Runs.three_tasks _
            [ [("id", PInt 1); ("dependencies", PList [PInt 7])];
              [("id", PInt 2)]; [("id", PInt 3)] ]).
  - reflexivity.
  - vm_compute. reflexivity.
  - vm_compute. reflexivity.
  - vm_compute. reflexivity.
  - vm_compute. reflexivity.
Defined.

(** C1, as stated, fails: for the tier simple the service names three
    tasks, the first depending on a task 7; the Plan keeps the three tasks
    and the dependency on 7, which names none of them. *)
Lemma generate_tasks_invalid_plan :
  exists tasks self',
    @Planner._generate_tasks example_builtins (Runs.canned Runs.three_tasks)
      "q" (PStr "simple") (Planner.PlannerAgent (Some "key"))
    = (Ok tasks, self')
    /\ length tasks = 3
    /\ Props.dependencies_resolved tasks = false
    /\ Props.within_ceiling (PStr "simple") tasks = false.
Proof.
  eexists. eexists. split; [vm_compute; reflexivity|].
  vm_compute. auto.
Qed.

Lemma generate_tasks_fallback_witness :
  exists self',
    @Planner._generate_tasks example_builtins (Runs.canned "no plan, sorry")
      "q" (PStr "moderate") (Planner.PlannerAgent (Some "key"))
    = (Ok [Planner.fallback_task "q"], self').
Proof.
  eexists.
  eapply (@generate_tasks_fallback example_builtins
            (Runs.canned "no plan, sorry") "q" (PStr "moderate") 4
            (Planner.PlannerAgent (Some "key")) _ "no plan, sorry"
            "no plan, sorry").
  - reflexivity.
  - vm_compute. reflexivity.
  - vm_compute. reflexivity.
  - vm_compute. reflexivity.
Defined.

(** C5, as stated, fails: the service answers with an empty task list, and
    the Planner returns a Plan without tasks. *)
Lemma plan_can_be_empty :
  exists p self',
    @Planner.plan example_builtins (Runs.canned Runs.no_tasks) "q"
      (Planner.PlannerAgent (Some "key")) = (Ok p, self')
    /\ Planner.tasks p = [].
Proof. eexists. eexists. split; vm_compute; reflexivity. Qed.

Lemma plan_raises_on_unknown_tier_witness :
  exists self1,
    @Planner.plan example_builtins (Runs.canned Runs.extreme_tier) "q"
      (Planner.PlannerAgent (Some "key")) = (Raise KeyError, self1).
Proof.
  eexists.
  eapply (@plan_raises_on_unknown_tier example_builtins
            (Runs.canned Runs.extreme_tier) "q"
            (Planner.PlannerAgent (Some "key")) _ Runs.extreme_tier
            Runs.extreme_tier [("complexity", PStr "extreme")] "extreme").
  - vm_compute. reflexivity.
  - vm_compute. reflexivity.
  - vm_compute. reflexivity.
  - reflexivity.
  - discriminate.
  - discriminate.
  - discriminate.
Defined.

(* ================================================================= *)
(** ** The researcher *)

Section ResearcherFacts.
Import Props BaseAgent Researcher.
Context `{B : Builtins}.

(** C7: with no raw result [_extract_findings] returns the empty list and
    leaves the agent as it was, whatever the service is (so also when the
    service is unreachable): no call is made.  With raw results, when the
    [try] block fails on the response, the method returns the empty list
    and raises nothing. *)
Theorem extract_findings_empty_or_failed :
  (forall (S : Service) (query : string) (self : ResearcherAgent),
      _extract_findings query [] self = (Ok [], self))
  /\ (forall (S : Service) (query : string)
        (result : WebSearch.SearchResult)
        (others : list WebSearch.SearchResult)
        (self self' : ResearcherAgent) (response : string) (e : exn),
        zoom base set_base
          (call_llm
             (extract_findings_prompt query
                (PyStr.join PyStr.nl (format_results 1 (result :: others))))
             None (Some 0.3%Q) (Some 2000%Z)) self = (Ok response, self') ->
        read_findings response = Raise e ->
        _extract_findings query (result :: others) self = (Ok [], self')).
Proof.
  split.
  - reflexivity.
  - intros S query result others self self' response e Hcall Hread.
    unfold _extract_findings, bind, lift. rewrite Hcall.
    unfold parse_findings. rewrite Hread.
    destruct e; reflexivity.
Qed.

(** Failing to decode is one way for the block to fail. *)
Lemma read_findings_not_json (response cleaned : string) :
  Cleanup.clean response = Ok cleaned ->
  json_loads cleaned = None ->
  read_findings response = Raise JSONDecodeError.
Proof.
  intros Hc Hl. unfold read_findings, loads. now rewrite Hc; cbn; rewrite Hl.
Qed.


End ResearcherFacts.

Lemma extract_findings_empty_or_failed_witness :
  @Researcher._extract_findings example_builtins Runs.unreachable "q" []
    (Researcher.new (Some "key") 3)
  = (Ok [], Researcher.new (Some "key") 3)
  /\ exists self',
       @Researcher._extract_findings example_builtins
         (Runs.canned "I found nothing") "q"
         [ {| WebSearch.title := "T"; WebSearch.url := "u";
              WebSearch.snippet := "s"; WebSearch.source := "x" |} ]
         (Researcher.new (Some "key") 3)
       = (Ok [], self').
Proof.
  destruct (@extract_findings_empty_or_failed example_builtins) as [H0 H1].
  split.
  - apply H0.
  - eexists.
    eapply (H1 (Runs.canned "I found nothing") "q" _ [] _ _
              "I found nothing" JSONDecodeError).
    + vm_compute. reflexivity.
    + vm_compute. reflexivity.
Defined.


(* ================================================================= *)
(** ** The validator *)

Section ValidatorFacts.
Import Props BaseAgent Validator.
Context `{B : Builtins} `{S : Service}.


(** A response that does not decode makes both blocks fail with the
    decoding error. *)
Lemma read_validation_not_json (src : pyval) (response cleaned : string) :
  Cleanup.clean response = Ok cleaned ->
  json_loads cleaned = None ->
  read_source_evaluation src response = Raise JSONDecodeError
  /\ read_content_validation response = Raise JSONDecodeError.
Proof.
  intros Hc Hl. unfold read_source_evaluation, read_content_validation, loads.
  rewrite Hc. cbn [pbind]. now rewrite Hl.
Qed.

(** The loop of [validate_findings] on a list in two parts. *)
Lemma validate_loop_app (xs ys : list Researcher.ResearchFinding) :
  forall acc self,
    validate_loop (xs ++ ys) acc self
    = match validate_loop xs acc self with
      | (Ok acc', self') => validate_loop ys acc' self'
      | (Raise e, self') => (Raise e, self')
      end.
Proof.
  induction xs as [|x xs IH]; intros acc self.
  - reflexivity.
  - cbn [app validate_loop]. unfold bind.
    destruct (validate_finding x self) as [[v|e] self1]; auto.
Qed.

(** The loop only adds records, one per finding. *)
Lemma validate_loop_extends (xs : list Researcher.ResearchFinding) :
  forall acc self out self',
    validate_loop xs acc self = (Ok out, self') ->
    exists new, out = (acc ++ new)%list /\ length new = length xs.
Proof.
  induction xs as [|x xs IH]; intros acc self out self' Hrun.
  - cbn in Hrun. injection Hrun as <- _. exists []. now rewrite app_nil_r.
  - cbn [validate_loop] in Hrun. unfold bind in Hrun.
    destruct (validate_finding x self) as [[v|e] self1]; [|discriminate].
    apply IH in Hrun as (new & -> & Hlen).
    exists (v :: new). rewrite <- app_assoc. cbn. auto.
Qed.

(** The record of the finding that follows [pre], in a run that
    completes. *)
Lemma validate_findings_nth (pre rest : list Researcher.ResearchFinding)
    (f : Researcher.ResearchFinding) (self self' : Agent)
    (out : list ValidatedFinding) :
  validate_findings (pre ++ f :: rest) self = (Ok out, self') ->
  exists done mid v after,
    validate_findings pre self = (Ok done, mid)
    /\ validate_finding f mid = (Ok v, after)
    /\ nth_error out (length pre) = Some v.
Proof.
  unfold validate_findings. rewrite validate_loop_app. intros Hrun.
  destruct (validate_loop pre [] self) as [[done|e] mid] eqn:Hpre;
    [|discriminate].
  cbn [validate_loop] in Hrun. unfold bind in Hrun.
  destruct (validate_finding f mid) as [[v|e] after] eqn:Hf; [|discriminate].
  exists done, mid, v, after. repeat split; auto.
  apply validate_loop_extends in Hpre as (new & -> & Hlen).
  apply validate_loop_extends in Hrun as (new' & -> & _).
  cbn [app]. rewrite <- app_assoc, nth_error_app2 by lia.
  rewrite Hlen, Nat.sub_diag. reflexivity.
Qed.

(** C8, as amended: two runs of [validate_findings] from the same agent
    state, on lists that agree up to and including Finding i and differ
    after it, give Finding i the same validation record.  (The findings
    before it do count: their prompts and answers are in the conversation
    history that [call_llm] sends along.) *)
Theorem validation_ignores_later_findings
    (pre rest1 rest2 : list Researcher.ResearchFinding)
    (f : Researcher.ResearchFinding) (self self1 self2 : Agent)
    (out1 out2 : list ValidatedFinding) :
  validate_findings (pre ++ f :: rest1) self = (Ok out1, self1) ->
  validate_findings (pre ++ f :: rest2) self = (Ok out2, self2) ->
  exists v,
    nth_error out1 (length pre) = Some v
    /\ nth_error out2 (length pre) = Some v
    /\ original_finding v = f.
Proof.
  intros H1 H2.
  apply validate_findings_nth in H1 as (d1 & m1 & v1 & a1 & Hp1 & Hf1 & Hn1).
  apply validate_findings_nth in H2 as (d2 & m2 & v2 & a2 & Hp2 & Hf2 & Hn2).
  rewrite Hp1 in Hp2. injection Hp2 as <- <-.
  rewrite Hf1 in Hf2. injection Hf2 as <- <-.
  exists v1. repeat split; auto.
  unfold validate_finding, bind, ret in Hf1.
  destruct (_evaluate_source _ _ m1) as [[se|e] s1]; [|discriminate].
  destruct (_validate_content _ _ _ s1) as [[cv|e] s2]; [|discriminate].
  injection Hf1 as <- _. reflexivity.
Qed.

End ValidatorFacts.


Lemma validation_ignores_later_findings_witness :
  exists v out1 out2,
    fst (@Validator.validate_findings example_builtins
           (Runs.history_reader "bad.org" Runs.high_score Runs.low_score)
           [Runs.finding_of "a.org"; Runs.finding_of "good.org"]
           (Validator.ValidatorAgent (Some "key"))) = Ok out1
    /\ fst (@Validator.validate_findings example_builtins
              (Runs.history_reader "bad.org" Runs.high_score Runs.low_score)
              [Runs.finding_of "a.org"; Runs.finding_of "bad.org";
               Runs.finding_of "c.org"]
              (Validator.ValidatorAgent (Some "key"))) = Ok out2
    /\ nth_error out1 0 = Some v
    /\ nth_error out2 0 = Some v.
Proof.
  pose (svc := Runs.history_reader "bad.org" Runs.high_score Runs.low_score).
  pose (self := Validator.ValidatorAgent (Some "key")).
  pose (run1 := @Validator.validate_findings example_builtins svc
                  ([] ++ Runs.finding_of "a.org"
                      :: [Runs.finding_of "good.org"]) self).
  pose (run2 := @Validator.validate_findings example_builtins svc
                  ([] ++ Runs.finding_of "a.org"
                      :: [Runs.finding_of "bad.org"; Runs.finding_of "c.org"])
                  self).
  assert (H1 : exists out1, run1 = (Ok out1, snd run1))
    by (eexists; vm_compute; reflexivity).
  assert (H2 : exists out2, run2 = (Ok out2, snd run2))
    by (eexists; vm_compute; reflexivity).
  destruct H1 as [out1 H1], H2 as [out2 H2].
  destruct (@validation_ignores_later_findings example_builtins svc
              [] [Runs.finding_of "good.org"]
              [Runs.finding_of "bad.org"; Runs.finding_of "c.org"]
              (Runs.finding_of "a.org") self _ _ out1 out2 H1 H2)
    as (v & Hv1 & Hv2 & _).
  exists v, out1, out2.
  change (fst run1 = Ok out1 /\ fst run2 = Ok out2
          /\ nth_error out1 0 = Some v /\ nth_error out2 0 = Some v).
  rewrite H1, H2. auto.
Defined.

(** C8, as stated, fails: with a service that reads the conversation it is
    sent, the Finding in second place gets one record after a first Finding
    from good.org and another after a first Finding from bad.org, though it
    is the same Finding in both runs. *)
Lemma validation_depends_on_earlier_findings :
  exists out1 out2 v1 v2,
    fst (@Validator.validate_findings example_builtins
           (Runs.history_reader "bad.org" Runs.high_score Runs.low_score)
           [Runs.finding_of "good.org"; Runs.finding_of "a.org"]
           (Validator.ValidatorAgent (Some "key"))) = Ok out1
    /\ fst (@Validator.validate_findings example_builtins
              (Runs.history_reader "bad.org" Runs.high_score Runs.low_score)
              [Runs.finding_of "bad.org"; Runs.finding_of "a.org"]
              (Validator.ValidatorAgent (Some "key"))) = Ok out2
    /\ nth_error out1 1 = Some v1
    /\ nth_error out2 1 = Some v2
    /\ Validator.original_finding v1 = Runs.finding_of "a.org"
    /\ Validator.original_finding v2 = Runs.finding_of "a.org"
    /\ Validator.credibility_score (Validator.source_evaluation v1) = 0.9%Q
    /\ Validator.credibility_score (Validator.source_evaluation v2) = 0.2%Q
    /\ v1 <> v2.
Proof.
  do 4 eexists.
  split; [vm_compute; reflexivity|].
  split; [vm_compute; reflexivity|].
  split; [reflexivity|]. split; [reflexivity|].
  split; [reflexivity|]. split; [reflexivity|].
  split; [reflexivity|]. split; [reflexivity|].
  intros Heq.
  apply (f_equal (fun v => Validator.credibility_score
                             (Validator.source_evaluation v))) in Heq.
  vm_compute in Heq. discriminate Heq.
Qed.

(* ================================================================= *)
(** ** The orchestrator *)

Section OrchestratorFacts.
Import Props BaseAgent Orchestrator.
Context `{B : Builtins} `{S : Service} `{T : WebSearch.Tool}
        `{Y : Synthesizer}.




(** What [research] does with [depth]: the steps run on an orchestrator
    whose researcher has [max_searches] 1 for quick and 3 otherwise. *)
Lemma research_adjusts_depth (query depth : string)
    (self : ResearchOrchestrator) :
  research query depth self
  = run_steps query depth
      (set_researcher
         (Researcher.set_max_searches
            (if String.eqb depth "quick" then 1%Z else 3%Z)
            (researcher self))
         self).
Proof. reflexivity. Qed.

(** C6 at the failing input: an orchestrator built with [max_searches=2]
    and asked for a comprehensive run hands its researcher
    [max_searches = 3]; a quick run hands it 1. *)
Theorem comprehensive_ignores_configured_max_searches
    (key : option string) (validation : bool) (query : string) :
  let self := __init__ key validation 2 in
  Researcher.max_searches (researcher self) = 2%Z
  /\ (exists self1,
        research query "comprehensive" self
        = run_steps query "comprehensive" self1
        /\ Researcher.max_searches (researcher self1) = 3%Z)
  /\ (exists self1,
        research query "quick" self = run_steps query "quick" self1
        /\ Researcher.max_searches (researcher self1) = 1%Z).
Proof.
  intros self. split; [reflexivity|]. split.
  - eexists. split; [apply research_adjusts_depth|reflexivity].
  - eexists. split; [apply research_adjusts_depth|reflexivity].
Qed.

End OrchestratorFacts.

(** Scenario B: five queries, the run of one of them fails at the service;
    four results come back, one failure is counted, nothing is raised. *)
Example five_queries_one_failure :
  exists out self',
    @Orchestrator.research_parallel example_builtins
      (Runs.failing_on "tides" "{}") Runs.one_result Runs.echo_synthesizer
      ["What is AI?"; "What is ML?"; "Why are there tides?";
       "What is Rust?"; "What is Rocq?"]
      "quick" (Orchestrator.__init__ (Some "key") false 3)
    = (Ok out, self')
    /\ map (@Orchestrator.query Runs.echo_synthesizer)
           (Orchestrator.valid_results out)
       = ["What is AI?"; "What is ML?"; "What is Rust?"; "What is Rocq?"]
    /\ Orchestrator.failed_count out = 1
    /\ Orchestrator.warning out = Some "1 queries failed".
Proof.
  eexists. eexists. split; [vm_compute; reflexivity|].
  vm_compute. auto.
Qed.

(** With [max_searches=2] configured, a comprehensive run whose search
    plan names three queries runs the three searches. *)
Example comprehensive_runs_three_searches :
  exists r self',
    @Orchestrator.research example_builtins
      (Runs.canned (Runs.obj1 "queries" "[1, 2, 3]")) Runs.one_result
      Runs.echo_synthesizer "q" "comprehensive"
      (Orchestrator.__init__ (Some "key") false 2) = (Ok r, self')
    /\ Researcher.num_results
         (Researcher.metadata (Orchestrator.research_result r)) = 3.
Proof. eexists. eexists. split; vm_compute; reflexivity. Qed.

(* ================================================================= *)
(** * Further properties of the modelled code *)

(** ** The clean-up: range of the indexings, fixed points, prose *)

Section CleanupMore.
#[local] Arguments Ascii.eqb : simpl never.

(** X1: the clean-up never raises.  Whatever the response, the indexings
    [[1]] and [[0]] of the fence removal are in range, at the call sites
    with brace slicing and at those without. *)
Theorem cleanup_never_raises (response : string) :
  (exists cleaned, Cleanup.clean response = Ok cleaned)
  /\ (exists cleaned, Cleanup.clean_fence_only response = Ok cleaned).
Proof.
  split.
  - apply clean_never_raises.
  - unfold Cleanup.clean_fence_only. apply strip_fence_never_raises.
Qed.

Lemma lstrip_idem (s : string) : lstrip (lstrip s) = lstrip s.
Proof.
  induction s as [|c s IH]; cbn [lstrip]; auto.
  destruct (isspace c) eqn:E; auto. cbn [lstrip]. now rewrite E.
Qed.

Lemma rstrip_idem (s : string) : rstrip (rstrip s) = rstrip s.
Proof.
  induction s as [|c s IH]; cbn [rstrip]; auto.
  destruct (rstrip s) as [|d r] eqn:E.
  - destruct (isspace c) eqn:Ec; cbn [rstrip]; auto. now rewrite Ec.
  - cbn [rstrip]. cbn [rstrip] in IH. now rewrite IH.
Qed.

Lemma rstrip_lstrip (x : string) :
  rstrip x = x -> rstrip (lstrip x) = lstrip x.
Proof.
  induction x as [|c x IH]; intros Hx; cbn [lstrip]; auto.
  destruct (isspace c) eqn:Ec; auto.
  apply IH. cbn [rstrip] in Hx.
  destruct (rstrip x) as [|d r] eqn:E.
  - rewrite Ec in Hx. discriminate.
  - now injection Hx.
Qed.

Lemma strip_idem (s : string) : strip (strip s) = strip s.
Proof.
  unfold strip.
  rewrite (rstrip_lstrip (rstrip s)) by apply rstrip_idem.
  apply lstrip_idem.
Qed.

Lemma startswith_app (a b p : string) :
  startswith a p = true -> startswith (a ++ b) p = true.
Proof.
  revert a; induction p as [|x p IH]; intros a; cbn; auto.
  destruct a as [|c a]; [discriminate|]. cbn.
  destruct (Ascii.eqb x c); cbn; auto.
Qed.

Lemma find_empty_pattern (s : string) : find s "" = 0%Z.
Proof. destruct s; reflexivity. Qed.

Lemma find_prefix_none (a b sep : string) :
  find (a ++ b) sep = (-1)%Z -> find a sep = (-1)%Z.
Proof.
  induction a as [|c a IH]; intros Hf.
  - destruct sep as [|x sep]; [|reflexivity].
    rewrite find_empty_pattern in Hf. discriminate.
  - change (String c a ++ b) with (String c (a ++ b)) in Hf.
    apply find_none_cons in Hf as [Hp Hf].
    apply find_none_intro; auto.
    destruct (startswith (String c a) sep) eqn:E; auto.
    apply (startswith_app _ b) in E.
    change (String c a ++ b) with (String c (a ++ b)) in E. congruence.
Qed.

Lemma rstrip_is_prefix (s : string) : exists w, s = rstrip s ++ w.
Proof.
  induction s as [|c s [w IH]]; [now exists ""|].
  cbn [rstrip]. destruct (rstrip s) as [|d r] eqn:E.
  - destruct (isspace c).
    + now exists (String c s).
    + exists s. reflexivity.
  - exists w. cbn in IH |- *. now rewrite <- IH.
Qed.

Lemma find_strip_none (s sep : string) :
  find s sep = (-1)%Z -> find (strip s) sep = (-1)%Z.
Proof.
  intros Hf. unfold strip. apply find_lstrip_none.
  destruct (rstrip_is_prefix s) as [w Hw]. rewrite Hw in Hf.
  now apply find_prefix_none in Hf.
Qed.

Lemma find_none_not_startswith (s sep : string) :
  find s sep = (-1)%Z -> startswith s sep = false.
Proof.
  destruct s as [|c s]; cbn [find];
    destruct (startswith _ sep); auto; discriminate.
Qed.

(** The first piece of a split holds no occurrence of the separator. *)
Lemma split_go_first_piece (sep s : string) :
  sep <> "" ->
  forall cur, exists piece rest others,
    split_go sep 0 cur s = rev_to_string cur piece :: others
    /\ s = piece ++ rest
    /\ find piece sep = (-1)%Z.
Proof.
  intros Hsep. induction s as [|c s IH]; intros cur.
  - exists "", "", []. repeat split.
    destruct sep; [congruence|reflexivity].
  - cbn [split_go]. destruct (startswith (String c s) sep) eqn:E.
    + exists "", (String c s), (split_go sep (String.length sep - 1) [] s).
      repeat split. destruct sep; [congruence|reflexivity].
    + destruct (IH (c :: cur)) as (piece & rest & others & Hs & Hp & Hf).
      exists (String c piece), rest, others. repeat split.
      * exact Hs.
      * cbn. now rewrite <- Hp.
      * apply find_none_intro; auto.
        destruct (startswith (String c piece) sep) eqn:E'; auto.
        apply (startswith_app _ rest) in E'.
        change (String c piece ++ rest) with (String c (piece ++ rest)) in E'.
        rewrite <- Hp in E'. congruence.
Qed.

Lemma item_head_no_separator (a sep b : string) :
  sep <> "" -> item (split a sep) 0 = Ok b -> find b sep = (-1)%Z.
Proof.
  intros Hsep. unfold split.
  destruct (split_go_first_piece sep a Hsep []) as (piece & rest & others & -> & _ & Hf).
  cbn. intros H. injection H as <-. exact Hf.
Qed.

(** Where [find] and [rfind] point. *)
Lemma find_brace_split (s : string) :
  find s "{" <> (-1)%Z ->
  exists a b, s = a ++ String "{" b
              /\ find s "{" = Z.of_nat (String.length a).
Proof.
  induction s as [|c s IH]; [cbn; congruence|].
  cbn [find]. destruct (startswith (String c s) "{") eqn:E.
  - intros _. exists "", s. split; auto.
    cbn in E. rewrite andb_true_r in E.
    apply Ascii.eqb_eq in E. now subst.
  - destruct (Z.eqb_spec (find s "{") (-1)); [congruence|]. intros _.
    destruct (IH n) as (a & b & -> & Hi).
    exists (String c a), b. split; auto.
    rewrite Hi. cbn [String.length]. lia.
Qed.

Lemma rfind_brace_split (s : string) :
  rfind s "}" <> (-1)%Z ->
  exists a b, s = a ++ String "}" b
              /\ rfind s "}" = Z.of_nat (String.length a).
Proof.
  induction s as [|c s IH]; [cbn; congruence|].
  cbn [rfind]. destruct (Z.eqb_spec (rfind s "}") (-1)) as [Hn|Hn].
  - destruct (startswith (String c s) "}") eqn:E; [|congruence].
    intros _. exists "", s. split; auto.
    cbn in E. rewrite andb_true_r in E.
    apply Ascii.eqb_eq in E. now subst.
  - intros _. destruct (IH Hn) as (a & b & -> & Hi).
    exists (String c a), b. split; auto.
    rewrite Hi. cbn [String.length]. lia.
Qed.

Lemma append_overlap (a1 x a2 y : string) :
  a1 ++ x = a2 ++ y -> String.length a1 <= String.length a2 ->
  exists m, a2 = a1 ++ m /\ x = m ++ y.
Proof.
  revert a2; induction a1 as [|c a1 IH]; intros a2 Heq Hlen.
  - exists a2. auto.
  - destruct a2 as [|d a2]; [cbn in Hlen; lia|].
    cbn in Heq. injection Heq as -> Heq.
    destruct (IH a2 Heq) as (m & -> & ->); [cbn in Hlen; lia|].
    now exists m.
Qed.

Lemma substring_prefix (u v : string) :
  substring 0 (String.length u) (u ++ v) = u.
Proof. induction u; cbn; [destruct v; reflexivity|congruence]. Qed.

(** The slice between the first opening and the last closing brace is an
    object text. *)
Lemma slice_is_object (y : string) :
  find y "{" <> (-1)%Z ->
  (rfind y "}" + 1 > find y "{")%Z ->
  exists body,
    slice y (find y "{") (rfind y "}" + 1) = "{" ++ body ++ "}".
Proof.
  intros Hs Hgt.
  destruct (find_brace_split y Hs) as (a1 & b1 & Hy1 & Hi1).
  assert (Hr : rfind y "}" <> (-1)%Z) by lia.
  destruct (rfind_brace_split y Hr) as (a2 & b2 & Hy2 & Hi2).
  rewrite Hi1, Hi2 in *.
  assert (Hle : String.length a1 <= String.length a2) by lia.
  destruct (append_overlap a1 (String "{" b1) a2 (String "}" b2)) as (m & Ha2 & Hx);
    [congruence|exact Hle|].
  destruct m as [|d m]; [cbn in Hx; discriminate|].
  cbn in Hx. injection Hx as <- Hb1.
  exists m. subst a2 b1.
  unfold slice. rewrite Nat2Z.id.
  rewrite Hy1, substring_skip.
  replace (Z.to_nat _) with (String.length ("{" ++ m ++ "}")).
  - replace (String "{" (m ++ String "}" b2)) with (("{" ++ m ++ "}") ++ b2)
      by (cbn; now rewrite append_assoc).
    apply substring_prefix.
  - cbn [String.length append]. rewrite !length_append.
    cbn [String.length]. lia.
Qed.

Lemma clean_object (body : string) :
  Cleanup.clean ("{" ++ body ++ "}") = Ok ("{" ++ body ++ "}").
Proof.
  unfold Cleanup.clean. rewrite strip_object. reflexivity.
Qed.

(** A trimmed text that does not open with a fence is cleaned to its
    brace slice, and that slice is cleaned to itself. *)
Lemma clean_unfenced (y : string) :
  strip y = y -> startswith y "```" = false ->
  Cleanup.clean y = Ok (Cleanup.slice_braces y)
  /\ Cleanup.clean (Cleanup.slice_braces y) = Ok (Cleanup.slice_braces y).
Proof.
  intros Hy Hf.
  assert (H7 : startswith y "```json" = false).
  { destruct (startswith y "```json") eqn:E; auto.
    apply (startswith_longer _ "```" "json") in E. congruence. }
  assert (Hc : Cleanup.clean y = Ok (Cleanup.slice_braces y)).
  { unfold Cleanup.clean, Cleanup.strip_fence. now rewrite Hy, H7, Hf. }
  split; [exact Hc|].
  unfold Cleanup.slice_braces.
  destruct (startswith y "{") eqn:Eb; cbn [negb].
  - rewrite Hc. unfold Cleanup.slice_braces. now rewrite Eb.
  - destruct (Z.eqb_spec (find y "{") (-1)) as [Hn|Hn]; cbn [negb andb].
    + rewrite Hc. unfold Cleanup.slice_braces. rewrite Eb. cbn [negb].
      rewrite Hn. reflexivity.
    + destruct (Z.gtb_spec (rfind y "}" + 1) (find y "{")) as [Hgt|Hle].
      * destruct (slice_is_object y Hn) as [body ->]; [lia|].
        apply clean_object.
      * rewrite Hc. unfold Cleanup.slice_braces. rewrite Eb. cbn [negb].
        destruct (Z.eqb_spec (find y "{") (-1)); [congruence|].
        destruct (Z.gtb_spec (rfind y "}" + 1) (find y "{")); [lia|].
        reflexivity.
Qed.

(** X2: the clean-up is idempotent.  The text it returns is already clean:
    cleaning it again returns it unchanged, so a second pass (or a caller
    that cleans an already cleaned text) changes nothing. *)
Theorem clean_idempotent (response cleaned : string) :
  Cleanup.clean response = Ok cleaned ->
  Cleanup.clean cleaned = Ok cleaned.
Proof.
  unfold Cleanup.clean at 1. unfold Cleanup.strip_fence.
  set (r := strip response).
  assert (piece_ok : forall a b,
             item (split a "```") 0 = Ok b ->
             Ok (Cleanup.slice_braces (strip b)) = Ok cleaned ->
             Cleanup.clean cleaned = Ok cleaned).
  { intros a b Hb Hc. injection Hc as <-.
    apply item_head_no_separator in Hb; [|discriminate].
    apply clean_unfenced.
    - apply strip_idem.
    - apply find_none_not_startswith, find_strip_none, Hb. }
  destruct (startswith r "```json") eqn:E7.
  - destruct (item (split r "```json") 1) as [a|e]; [|discriminate].
    cbn [pbind].
    destruct (item (split a "```") 0) as [b|e] eqn:Hb; [|discriminate].
    cbn [pbind]. eauto.
  - destruct (startswith r "```") eqn:E3.
    + destruct (item (split r "```") 1) as [a|e]; [|discriminate].
      cbn [pbind].
      destruct (item (split a "```") 0) as [b|e] eqn:Hb; [|discriminate].
      cbn [pbind]. eauto.
    + cbn [pbind]. intros Hc. injection Hc as <-.
      apply clean_unfenced; [apply strip_idem|exact E3].
Qed.

End CleanupMore.

Lemma clean_idempotent_witness :
  Cleanup.clean ("Sure, here it is: {x} - done") = Ok "{x}"
  /\ Cleanup.clean "{x}" = Ok "{x}".
Proof.
  assert (H : Cleanup.clean ("Sure, here it is: {x} - done") = Ok "{x}")
    by reflexivity.
  split; [exact H|]. exact (clean_idempotent _ _ H).
Defined.

Section CleanupProse.
#[local] Arguments Ascii.eqb : simpl never.

Lemma rstrip_after_nonspace (x t : string) (c : ascii) :
  isspace c = false ->
  rstrip (x ++ String c t) = x ++ String c (rstrip t).
Proof.
  intros Hc. induction x as [|e x IH]; cbn [rstrip append].
  - destruct (rstrip t); [now rewrite Hc|reflexivity].
  - rewrite IH. destruct x; reflexivity.
Qed.

Lemma rfind_none_of_find_none (t : string) :
  find t "}" = (-1)%Z -> rfind t "}" = (-1)%Z.
Proof.
  induction t as [|c t IH]; intros Hf; [reflexivity|].
  apply find_none_cons in Hf as [Hp Hf].
  cbn [rfind]. now rewrite (IH Hf), Hp.
Qed.

Lemma rfind_last_brace (x t : string) :
  find t "}" = (-1)%Z ->
  rfind (x ++ String "}" t) "}" = Z.of_nat (String.length x).
Proof.
  intros Hf. induction x as [|c x IH].
  - cbn [append rfind String.length].
    now rewrite (rfind_none_of_find_none t Hf).
  - change (String c x ++ String "}" t) with (String c (x ++ String "}" t)).
    cbn [rfind String.length]. rewrite IH.
    destruct (Z.eqb_spec (Z.of_nat (String.length x)) (-1)); lia.
Qed.

Lemma slice_middle (a b c : string) :
  slice (a ++ b ++ c) (Z.of_nat (String.length a))
        (Z.of_nat (String.length a) + Z.of_nat (String.length b)) = b.
Proof.
  unfold slice. rewrite Nat2Z.id.
  replace (Z.to_nat _) with (String.length b) by lia.
  now rewrite substring_skip, substring_prefix.
Qed.

(** X3: an object found between prose is recovered, and an object that
    opens the response is only trimmed.  With text before the object (no
    opening brace in it, not starting with a fence) and text after it (no
    closing brace in it), the clean-up returns the object alone; but when
    the trimmed response starts with the brace, nothing is sliced and the
    text after the object stays in the result. *)
Theorem clean_object_in_prose (prose body trailing : string) :
  let P := "{" ++ body ++ "}" in
  (find prose "{" = (-1)%Z ->
   lstrip prose <> "" ->
   startswith (lstrip prose) "```" = false ->
   find trailing "}" = (-1)%Z ->
   Cleanup.clean (prose ++ P ++ trailing) = Ok P)
  /\ (forall response,
        startswith (strip response) "{" = true ->
        Cleanup.clean response = Ok (strip response)).
Proof.
  cbv zeta. split.
  - intros Hb Hne Hfence Ht.
    unfold Cleanup.clean, strip.
    replace (prose ++ ("{" ++ body ++ "}") ++ trailing)
      with ((prose ++ "{" ++ body) ++ String "}" trailing)
      by (cbn; now rewrite !append_assoc).
    rewrite rstrip_after_nonspace by reflexivity.
    assert (Ht' : find (rstrip trailing) "}" = (-1)%Z).
    { destruct (rstrip_is_prefix trailing) as [w Hw]. rewrite Hw in Ht.
      now apply find_prefix_none in Ht. }
    set (t := rstrip trailing) in *.
    replace ((prose ++ "{" ++ body) ++ String "}" t)
      with (prose ++ String "{" (body ++ String "}" t))
      by (cbn; now rewrite !append_assoc).
    rewrite lstrip_app by reflexivity.
    apply find_lstrip_none in Hb.
    destruct (lstrip prose) as [|d p'] eqn:Ep; [congruence|].
    set (p := String d p') in *.
    set (y := p ++ String "{" (body ++ String "}" t)).
    assert (H3 : startswith y "```" = false).
    { destruct (startswith y "```") eqn:E; auto.
      apply fence_before_char in E; [congruence|reflexivity]. }
    assert (H7 : startswith y "```json" = false).
    { destruct (startswith y "```json") eqn:E; auto.
      apply (startswith_longer _ "```" "json") in E. congruence. }
    unfold Cleanup.strip_fence. rewrite H7, H3. cbn [pbind]. f_equal.
    unfold Cleanup.slice_braces.
    assert (Hs : startswith y "{" = false).
    { apply find_none_cons in Hb as [Hd _]. unfold y, p. cbn in Hd |- *.
      exact Hd. }
    rewrite Hs. cbn [negb].
    assert (Hfind : find y "{" = Z.of_nat (String.length p))
      by (apply find_brace_after; exact Hb).
    assert (Hrfind : rfind y "}"
                     = Z.of_nat (String.length (p ++ "{" ++ body))).
    { unfold y.
      replace (p ++ String "{" (body ++ String "}" t))
        with ((p ++ "{" ++ body) ++ String "}" t)
        by (cbn; now rewrite !append_assoc).
      now apply rfind_last_brace. }
    rewrite Hfind, Hrfind, length_append.
    set (n := String.length p).
    replace ((Z.of_nat n =? -1)%Z) with false
      by (symmetry; apply Z.eqb_neq; lia).
    replace ((Z.of_nat (n + String.length ("{" ++ body)) + 1 >? Z.of_nat n)%Z)
      with true by (symmetry; apply Z.gtb_lt; lia).
    cbn [negb andb].
    replace (Z.of_nat (n + String.length ("{" ++ body)) + 1)%Z
      with (Z.of_nat n + Z.of_nat (String.length ("{" ++ body ++ "}")))%Z.
    + unfold y.
      replace (p ++ String "{" (body ++ String "}" t))
        with (p ++ ("{" ++ body ++ "}") ++ t)
        by (cbn; now rewrite !append_assoc).
      apply slice_middle.
    + cbn [String.length append]. rewrite length_append. cbn. lia.
  - intros response Hb.
    unfold Cleanup.clean, Cleanup.strip_fence.
    set (r := strip response) in *.
    destruct r as [|c r']; [discriminate|].
    cbn in Hb. rewrite andb_true_r in Hb. apply Ascii.eqb_eq in Hb. subst c.
    reflexivity.
Qed.

End CleanupProse.

Lemma clean_object_in_prose_witness :
  Cleanup.clean ("Answer: " ++ ("{" ++ "x" ++ "}") ++ " Hope this helps.")
  = Ok "{x}"
  /\ Cleanup.clean " {x} Hope this helps. " = Ok "{x} Hope this helps.".
Proof.
  destruct (clean_object_in_prose "Answer: " "x" " Hope this helps.")
    as [H1 H2].
  split.
  - apply H1; [reflexivity|discriminate|reflexivity|reflexivity].
  - apply (H2 " {x} Hope this helps. "). reflexivity.
Defined.

(* ================================================================= *)
(** ** base_agent.py: one call of the service *)

Section CallFacts.
Import BaseAgent MoreProps.
Context `{Svc : Service}.

Lemma last10_length {A} (l : list A) : length (last10 l) <= 10.
Proof. unfold last10. rewrite length_skipn. lia. Qed.

(** [call_llm] with a key: the request it sends and what it does with the
    answer. *)
Lemma call_llm_with_key (prompt : string) (system_prompt : option string)
    (temperature_arg : option Q) (max_tokens_arg : option Z) (self : Agent)
    (c : ascii) (key : string) :
  api_key self = Some (String c key) ->
  exists request,
    req_messages request
    = (last10 (conversation_history self) ++ [user_message prompt])%list
    /\ req_system request
       = match system_prompt with Some sp => sp | None => role self end
    /\ call_llm prompt system_prompt temperature_arg max_tokens_arg self
       = match llm_service request with
         | Ok content =>
             (Ok content,
              append_history self
                [user_message prompt; assistant_message content])
         | Raise e => (Raise e, self)
         end.
Proof.
  intros Hkey. unfold call_llm. rewrite Hkey.
  eexists. split; [|split; [|reflexivity]].
  - cbn [req_messages]. destruct (conversation_history self); reflexivity.
  - reflexivity.
Qed.

(** X4: one call of the service.  Without a key [call_llm] raises
    [ValueError] and leaves the agent unchanged.  With a key it sends at
    most the last ten messages of the history followed by the prompt; a
    successful call appends exactly the prompt and the answer to the
    history, a failed call leaves the history as it was. *)
Theorem call_llm_effects (prompt : string) (system_prompt : option string)
    (temperature_arg : option Q) (max_tokens_arg : option Z) (self : Agent) :
  (api_key self = None \/ api_key self = Some "" ->
   call_llm prompt system_prompt temperature_arg max_tokens_arg self
   = (Raise ValueError, self))
  /\ (forall c key,
        api_key self = Some (String c key) ->
        exists request,
          length (req_messages request) <= 11
          /\ last (req_messages request) (user_message "")
             = user_message prompt
          /\ (forall content,
                llm_service request = Ok content ->
                exists self',
                  call_llm prompt system_prompt temperature_arg
                    max_tokens_arg self = (Ok content, self')
                  /\ conversation_history self'
                     = (conversation_history self
                        ++ [user_message prompt;
                            assistant_message content])%list)
          /\ (forall e,
                llm_service request = Raise e ->
                call_llm prompt system_prompt temperature_arg
                  max_tokens_arg self = (Raise e, self))).
Proof.
  split.
  - intros [H|H]; unfold call_llm; now rewrite H.
  - intros c key Hkey.
    destruct (call_llm_with_key prompt system_prompt temperature_arg
                max_tokens_arg self c key Hkey)
      as (request & Hm & _ & Hcall).
    exists request. rewrite Hm. split; [|split; [|split]].
    + rewrite length_app. cbn [length].
      pose proof (last10_length (conversation_history self)). lia.
    + apply last_last.
    + intros content Hs. rewrite Hs in Hcall. eexists. split; [exact Hcall|].
      reflexivity.
    + intros e Hs. now rewrite Hs in Hcall.
Qed.

(** A successful call adds two messages and changes nothing else. *)
Lemma call_llm_ok_state (prompt : string) (system_prompt : option string)
    (temperature_arg : option Q) (max_tokens_arg : option Z)
    (self self' : Agent) (content : string) :
  call_llm prompt system_prompt temperature_arg max_tokens_arg self
  = (Ok content, self') ->
  self' = append_history self
            [user_message prompt; assistant_message content].
Proof.
  unfold call_llm. destruct (api_key self) as [[|c key]|]; try discriminate.
  destruct (llm_service _) as [t|e]; [|discriminate].
  intros H. now injection H as <- <-.
Qed.

Lemma call_llm_ok_history (prompt : string) (system_prompt : option string)
    (temperature_arg : option Q) (max_tokens_arg : option Z)
    (self self' : Agent) (content : string) :
  call_llm prompt system_prompt temperature_arg max_tokens_arg self
  = (Ok content, self') ->
  length (conversation_history self')
  = length (conversation_history self) + 2
  /\ api_key self' = api_key self.
Proof.
  intros H. apply call_llm_ok_state in H. subst self'.
  split; [|reflexivity].
  cbn. rewrite length_app. cbn. lia.
Qed.

(** A service that always answers makes every call with a key succeed. *)
Lemma call_llm_answered (prompt : string) (system_prompt : option string)
    (temperature_arg : option Q) (max_tokens_arg : option Z) (self : Agent)
    (c : ascii) (key : string) (P : string -> Prop) :
  api_key self = Some (String c key) ->
  (forall request, exists text, llm_service request = Ok text /\ P text) ->
  exists text,
    P text
    /\ call_llm prompt system_prompt temperature_arg max_tokens_arg self
       = (Ok text,
          append_history self [user_message prompt; assistant_message text]).
Proof.
  intros Hkey Hsvc.
  destruct (call_llm_with_key prompt system_prompt temperature_arg
              max_tokens_arg self c key Hkey) as (request & _ & _ & Hcall).
  destruct (Hsvc request) as (text & Hs & HP). rewrite Hs in Hcall.
  exists text. auto.
Qed.

End CallFacts.

Lemma call_llm_effects_witness :
  @BaseAgent.call_llm (Runs.canned "hello") "Hi" None None None
    (Planner.PlannerAgent None)
  = (Raise ValueError, Planner.PlannerAgent None)
  /\ exists self',
       @BaseAgent.call_llm (Runs.canned "hello") "Hi" None None None
         (Planner.PlannerAgent (Some "key")) = (Ok "hello", self')
       /\ BaseAgent.conversation_history self'
          = [MoreProps.user_message "Hi";
             MoreProps.assistant_message "hello"].
Proof.
  split.
  - apply (@call_llm_effects (Runs.canned "hello")). now left.
  - destruct (@call_llm_effects (Runs.canned "hello") "Hi" None None None
                (Planner.PlannerAgent (Some "key"))) as [_ H].
    destruct (H "k"%char "ey" eq_refl) as (request & _ & _ & Hok & _).
    destruct (Hok "hello" eq_refl) as (self' & Hcall & Hhist).
    exists self'. split; [exact Hcall|exact Hhist].
Defined.

(* ================================================================= *)
(** ** planner.py: defaults, derived fields, duration *)

Section PlannerMore.
Import Props MoreProps BaseAgent Planner.
Context `{B : Builtins} `{Svc : Service}.

Lemma assess_complexity_answered (query : string) (self self' : Agent)
    (response : string) :
  call_llm (assess_complexity_prompt query) None (Some 0.2%Q) (Some 300%Z)
    self = (Ok response, self') ->
  _assess_complexity query self = (parse_complexity response, self').
Proof.
  intros Hcall. unfold _assess_complexity, bind, lift. now rewrite Hcall.
Qed.

(** X5: the complexity tier defaults to moderate.  When the response does
    not decode, or decodes to an object without a [complexity] entry,
    [_assess_complexity] returns moderate. *)
Theorem assess_complexity_defaults (query : string) (self self' : Agent)
    (response cleaned : string) :
  call_llm (assess_complexity_prompt query) None (Some 0.2%Q) (Some 300%Z)
    self = (Ok response, self') ->
  Cleanup.clean response = Ok cleaned ->
  json_loads cleaned = None
  \/ (exists data, json_loads cleaned = Some (PDict data)
                   /\ Py.dict_lookup "complexity" data = None) ->
  _assess_complexity query self = (Ok (PStr "moderate"), self').
Proof.
  intros Hcall Hclean Hcase.
  rewrite (assess_complexity_answered _ _ _ _ Hcall).
  unfold parse_complexity, read_complexity, loads. rewrite Hclean.
  cbn [pbind]. destruct Hcase as [->|(data & -> & Hk)].
  - reflexivity.
  - cbn [pbind Py.get]. now rewrite Hk.
Qed.

Lemma parse_undecodable (query text : string) :
  (forall cleaned, Cleanup.clean text = Ok cleaned ->
                   json_loads cleaned = None) ->
  parse_complexity text = Ok (PStr "moderate")
  /\ parse_tasks query text = Ok [fallback_task query].
Proof.
  intros Hu. destruct (clean_never_raises text) as [cleaned Hc].
  pose proof (Hu cleaned Hc) as Hl.
  unfold parse_complexity, read_complexity, parse_tasks, read_tasks, loads.
  rewrite Hc. cbn [pbind]. now rewrite Hl.
Qed.

(** X6: a Plan from answers that never decode.  With a key and a service
    whose answers never decode, [plan] makes two calls and returns the
    Plan of tier moderate whose only task is the fallback task, estimated
    at 30-60 seconds, needing the researcher and the web search. *)
Theorem plan_from_undecodable_answers (query : string) (self : Agent)
    (c : ascii) (key : string) :
  api_key self = Some (String c key) ->
  never_decodes ->
  exists self',
    plan query self
    = (Ok {| query := query;
             complexity := PStr "moderate";
             tasks := [fallback_task query];
             estimated_duration := "30-60 seconds";
             agents_needed := [PStr "researcher"];
             tools_needed := [PStr "web_search"] |}, self')
    /\ length (conversation_history self')
       = length (conversation_history self) + 4.
Proof.
  intros Hkey Hsvc.
  destruct (call_llm_answered (assess_complexity_prompt query) None
              (Some 0.2%Q) (Some 300%Z) self c key _ Hkey Hsvc)
    as (t1 & Hu1 & Hcall1).
  set (s1 := append_history self _) in Hcall1.
  assert (Hkey1 : api_key s1 = Some (String c key)) by exact Hkey.
  destruct (call_llm_answered
              (generate_tasks_prompt query (PStr "moderate") 4) None
              (Some 0.3%Q) (Some 1000%Z) s1 c key _ Hkey1 Hsvc)
    as (t2 & Hu2 & Hcall2).
  eexists. split.
  - unfold plan, bind.
    rewrite (assess_complexity_answered _ _ _ _ Hcall1).
    destruct (parse_undecodable query t1 Hu1) as [-> _].
    rewrite (generate_tasks_answered query (PStr "moderate") 4 _ _ _
               eq_refl Hcall2).
    destruct (parse_undecodable query t2 Hu2) as [_ ->].
    reflexivity.
  - cbn. rewrite !length_app. cbn. lia.
Qed.











End PlannerMore.

Lemma assess_complexity_defaults_witness :
  exists self',
    @Planner._assess_complexity example_builtins
      (Runs.canned "Hard to say.") "q" (Planner.PlannerAgent (Some "key"))
    = (Ok (PStr "moderate"), self').
Proof.
  eexists.
  eapply (@assess_complexity_defaults example_builtins
            (Runs.canned "Hard to say.") "q" _ _ "Hard to say."
            "Hard to say.").
  - vm_compute. reflexivity.
  - vm_compute. reflexivity.
  - left. reflexivity.
Defined.

Lemma canned_never_decodes :
  @MoreProps.never_decodes example_builtins (Runs.canned "Hard to say.").
Proof.
  intros request. exists "Hard to say.". split; [reflexivity|].
  intros cleaned Hc. vm_compute in Hc. injection Hc as <-. reflexivity.
Qed.

Lemma plan_from_undecodable_answers_witness :
  exists self',
    @Planner.plan example_builtins (Runs.canned "Hard to say.") "q"
      (Planner.PlannerAgent (Some "key"))
    = (Ok {| Planner.query := "q";
             Planner.complexity := PStr "moderate";
             Planner.tasks := [Planner.fallback_task "q"];
             Planner.estimated_duration := "30-60 seconds";
             Planner.agents_needed := [PStr "researcher"];
             Planner.tools_needed := [PStr "web_search"] |}, self')
    /\ length (BaseAgent.conversation_history self') = 4.
Proof.
  apply (@plan_from_undecodable_answers example_builtins
           (Runs.canned "Hard to say.") "q"
           (Planner.PlannerAgent (Some "key")) "k"%char "ey" eq_refl
           canned_never_decodes).
Defined.


Section DurationFacts.
Import MoreProps Planner.

Lemma base_time_cases (c : pyval) :
  Py.hashable c = true ->
  base_time c = Ok 15 \/ base_time c = Ok 30 \/ base_time c = Ok 60.
Proof.
  intros Hh. unfold base_time. rewrite Hh. cbn [negb].
  destruct (Py.eq_str c "simple"); auto.
  destruct (Py.eq_str c "moderate"); auto.
  destruct (Py.eq_str c "complex"); auto.
Qed.

Ltac duration_cases :=
  unfold _estimate_duration; cbn [pbind];
  repeat match goal with
         | |- context [(?a <? ?b)%nat] => destruct (Nat.ltb_spec a b)
         | H : context [(?a <? ?b)%nat] |- _ => destruct (Nat.ltb_spec a b)
         end.

(** X8: the duration estimate.  For a hashable tier the estimate is one of
    the four ranges; it never moves to a shorter range when tasks are
    added, nor from simple to moderate to complex; and a tier it does not
    know is estimated as moderate. *)
Theorem estimate_duration_monotone :
  (forall tasks c,
      Py.hashable c = true ->
      exists d, _estimate_duration tasks c = Ok d
                /\ 1 <= duration_rank d /\ duration_rank d <= 4)
  /\ (forall tasks1 tasks2 c d1 d2,
        length tasks1 <= length tasks2 ->
        _estimate_duration tasks1 c = Ok d1 ->
        _estimate_duration tasks2 c = Ok d2 ->
        duration_rank d1 <= duration_rank d2)
  /\ (forall tasks d1 d2 d3,
        _estimate_duration tasks (PStr "simple") = Ok d1 ->
        _estimate_duration tasks (PStr "moderate") = Ok d2 ->
        _estimate_duration tasks (PStr "complex") = Ok d3 ->
        duration_rank d1 <= duration_rank d2
        /\ duration_rank d2 <= duration_rank d3)
  /\ (forall tasks tier,
        tier <> "simple" -> tier <> "moderate" -> tier <> "complex" ->
        _estimate_duration tasks (PStr tier)
        = _estimate_duration tasks (PStr "moderate")).
Proof.
  split; [|split; [|split]].
  - intros tasks c Hh. unfold _estimate_duration.
    destruct (base_time_cases c Hh) as [-> |[-> | ->]]; duration_cases;
      eexists; (split; [reflexivity|]); cbn; lia.
  - intros tasks1 tasks2 c d1 d2 Hlen. unfold _estimate_duration.
    destruct (base_time c) as [b|e]; [|discriminate]. cbn [pbind].
    intros H1 H2.
    repeat match goal with
           | H : context [(?a <? ?b)%nat] |- _ =>
               destruct (Nat.ltb_spec a b)
           end;
      injection H1 as <-; injection H2 as <-; cbn; lia.
  - intros tasks d1 d2 d3. unfold _estimate_duration.
    change (base_time (PStr "simple")) with (@Ok nat 15).
    change (base_time (PStr "moderate")) with (@Ok nat 30).
    change (base_time (PStr "complex")) with (@Ok nat 60).
    cbn [pbind]. intros H1 H2 H3.
    repeat match goal with
           | H : context [(?a <? ?b)%nat] |- _ =>
               destruct (Nat.ltb_spec a b)
           end;
      injection H1 as <-; injection H2 as <-; injection H3 as <-;
      cbn; lia.
  - intros tasks tier H1 H2 H3. unfold _estimate_duration, base_time.
    cbn [Py.hashable negb Py.eq_str].
    apply String.eqb_neq in H1, H2, H3. now rewrite H1, H2, H3.
Qed.

End DurationFacts.

Lemma estimate_duration_monotone_witness :
  Planner._estimate_duration [] (PStr "simple") = Ok "15-30 seconds"
  /\ Planner._estimate_duration [Planner.fallback_task "q"] (PStr "simple")
     = Ok "15-30 seconds"
  /\ MoreProps.duration_rank "15-30 seconds"
     <= MoreProps.duration_rank "15-30 seconds"
  /\ Planner._estimate_duration [] (PStr "extreme")
     = Planner._estimate_duration [] (PStr "moderate").
Proof.
  destruct estimate_duration_monotone as (_ & Hmono & _ & Hunknown).
  split; [reflexivity|]. split; [reflexivity|]. split.
  - apply (Hmono [] [Planner.fallback_task "q"] (PStr "simple"));
      [cbn; lia|reflexivity|reflexivity].
  - apply Hunknown; discriminate.
Defined.

(* ================================================================= *)
(** ** Answers that decode to something else than expected *)

Section OddAnswers.
Import Props MoreProps.
Context `{B : Builtins}.

Lemma get_of_non_object (v : pyval) (key : string) (default : pyval) :
  (forall data, v <> PDict data) ->
  Py.get v key default = Raise AttributeError.
Proof. intros Hv. destruct v; try reflexivity. now destruct (Hv d). Qed.

(** X9: an answer that decodes to a value other than an object (an array,
    a string, a number).  The [try] blocks of the planner and of the
    validator then raise [AttributeError], which their handlers do not
    catch; the block of [_extract_findings] returns the empty list. *)
Theorem non_object_answer (response cleaned : string) (v : pyval) :
  Cleanup.clean response = Ok cleaned ->
  json_loads cleaned = Some v ->
  (forall data, v <> PDict data) ->
  Planner.parse_complexity response = Raise AttributeError
  /\ (forall query, Planner.parse_tasks query response = Raise AttributeError)
  /\ (forall src,
        Validator.parse_source_evaluation src response
        = Raise AttributeError)
  /\ Validator.parse_content_validation response = Raise AttributeError
  /\ Researcher.parse_findings response = Ok [].
Proof.
  intros Hc Hl Hv.
  unfold Planner.parse_complexity, Planner.read_complexity,
    Planner.parse_tasks, Planner.read_tasks,
    Validator.parse_source_evaluation, Validator.read_source_evaluation,
    Validator.parse_content_validation, Validator.read_content_validation,
    Researcher.parse_findings, Researcher.read_findings, loads.
  rewrite Hc. cbn [pbind]. rewrite Hl. cbn [pbind].
  rewrite !(get_of_non_object v) by exact Hv.
  repeat split.
  destruct (Py.contains_str v "findings") as [[|]|e]; cbn;
    try reflexivity; now destruct e.
Qed.

(** The same answer at [_plan_searches], whose clean-up has no brace
    slicing. *)
Lemma non_object_search_plan (query response cleaned : string) (v : pyval)
    (n : Z) :
  Cleanup.clean_fence_only response = Ok cleaned ->
  json_loads cleaned = Some v ->
  (forall data, v <> PDict data) ->
  Researcher.parse_searches query response n = Raise AttributeError.
Proof.
  intros Hc Hl Hv.
  unfold Researcher.parse_searches, Researcher.read_searches, loads.
  rewrite Hc. cbn [pbind]. rewrite Hl. cbn [pbind].
  now rewrite (get_of_non_object v) by exact Hv.
Qed.

(** X10: the credibility score is taken as it comes.  A numeric score is
    stored whatever its range; a score that is [null], a list or an object
    makes [float] raise [TypeError], which the handler for
    [(JSONDecodeError, ValueError)] does not catch, in [_evaluate_source]
    as in [_validate_content]. *)
Theorem score_taken_as_is (src : pyval) (response cleaned : string)
    (data : list (string * pyval)) :
  Cleanup.clean response = Ok cleaned ->
  json_loads cleaned = Some (PDict data) ->
  (forall q,
      Py.dict_lookup "credibility_score" data = Some (PFloat q) ->
      (exists ev, Validator.parse_source_evaluation src response = Ok ev
                  /\ Validator.credibility_score ev = q)
      /\ (exists r, Validator.parse_content_validation response = Ok r
                    /\ Validator.content_score r = q))
  /\ (forall raw,
        Py.dict_lookup "credibility_score" data = Some raw ->
        raw = PNone \/ (exists l, raw = PList l) \/ (exists d, raw = PDict d) ->
        Validator.parse_source_evaluation src response = Raise TypeError
        /\ Validator.parse_content_validation response = Raise TypeError).
Proof.
  intros Hc Hl.
  unfold Validator.parse_source_evaluation, Validator.read_source_evaluation,
    Validator.parse_content_validation, Validator.read_content_validation,
    loads.
  rewrite Hc. cbn [pbind]. rewrite Hl. cbn [pbind Py.get].
  split.
  - intros q ->. cbn. split; eexists; split; reflexivity.
  - intros raw -> [->|[[l ->]|[d ->]]]; cbn; auto.
Qed.

End OddAnswers.

Lemma non_object_answer_witness :
  @Planner.parse_tasks example_builtins "q" "[1, 2]" = Raise AttributeError
  /\ @Researcher.parse_findings example_builtins "[1, 2]" = Ok [].
Proof.
  destruct (@non_object_answer example_builtins "[1, 2]" "[1, 2]"
              (PList [PInt 1; PInt 2]))
    as (_ & Ht & _ & _ & Hf).
  - reflexivity.
  - reflexivity.
  - discriminate.
  - split; [apply Ht|exact Hf].
Defined.

Lemma score_taken_as_is_witness :
  (exists ev,
      @Validator.parse_source_evaluation example_builtins (PStr "x")
        (Runs.obj1 "credibility_score" "7.5") = Ok ev
      /\ Validator.credibility_score ev = 7.5%Q)
  /\ @Validator.parse_source_evaluation example_builtins (PStr "x")
       (Runs.obj1 "credibility_score" "null") = Raise TypeError.
Proof.
  split.
  - destruct (@score_taken_as_is example_builtins (PStr "x")
                (Runs.obj1 "credibility_score" "7.5")
                (Runs.obj1 "credibility_score" "7.5")
                [("credibility_score", PFloat 7.5)] eq_refl eq_refl)
      as [H _].
    destruct (H 7.5%Q eq_refl) as [Hs _]. exact Hs.
  - destruct (@score_taken_as_is example_builtins (PStr "x")
                (Runs.obj1 "credibility_score" "null")
                (Runs.obj1 "credibility_score" "null")
                [("credibility_score", PNone)] eq_refl eq_refl)
      as [_ H].
    destruct (H PNone eq_refl) as [Hs _]; [now left|exact Hs].
Defined.

(* ================================================================= *)
(** ** researcher.py: search plan, search loop, findings, summary *)

Section ResearcherMore.
Import Props MoreProps BaseAgent Researcher.
Context `{B : Builtins} `{Svc : Service} `{T : WebSearch.Tool}.

Lemma zoom_base_max_searches {A} (m : M Agent A) (self self' : ResearcherAgent)
    (r : pyres A) :
  zoom base set_base m self = (r, self') ->
  max_searches self' = max_searches self.
Proof.
  unfold zoom. destruct (m (base self)) as [x a]. intros H.
  injection H as _ <-. reflexivity.
Qed.

Lemma plan_searches_answered (query : string) (context : pyval)
    (self self' : ResearcherAgent) (response : string) :
  zoom base set_base
    (call_llm (plan_searches_prompt query context) None (Some 0.3%Q)
       (Some 500%Z)) self = (Ok response, self') ->
  _plan_searches query context self
  = (parse_searches query response (max_searches self), self').
Proof.
  intros Hcall. unfold _plan_searches, bind. rewrite Hcall.
  now rewrite (zoom_base_max_searches _ _ _ _ Hcall).
Qed.

Lemma list_slice_to_nonneg {A} (l : list A) (n : Z) :
  (0 <= n)%Z ->
  Py.list_slice_to l n = firstn (Z.to_nat n) l
  /\ (Z.of_nat (length (Py.list_slice_to l n)) <= n)%Z.
Proof.
  intros Hn. unfold Py.list_slice_to.
  destruct (Z.ltb_spec n 0); [lia|]. split; [reflexivity|].
  rewrite length_firstn. lia.
Qed.

(** X11: the search plan.  When the response does not decode,
    [_plan_searches] returns the query itself, alone, whatever
    [max_searches] is.  When it decodes to an object, the listed queries
    (or the query itself when none is listed) are cut to the first
    [max_searches] of them, for [max_searches >= 0]. *)
Theorem plan_searches_bounds (query : string) (context : pyval)
    (self self' : ResearcherAgent) (response cleaned : string) :
  zoom base set_base
    (call_llm (plan_searches_prompt query context) None (Some 0.3%Q)
       (Some 500%Z)) self = (Ok response, self') ->
  Cleanup.clean_fence_only response = Ok cleaned ->
  (json_loads cleaned = None ->
   _plan_searches query context self = (Ok (PList [PStr query]), self'))
  /\ (forall data listed,
        json_loads cleaned = Some (PDict data) ->
        entry_field "queries" (PList [PStr query]) data = PList listed ->
        (0 <= max_searches self)%Z ->
        _plan_searches query context self
        = (Ok (PList (firstn (Z.to_nat (max_searches self)) listed)), self')
        /\ (Z.of_nat (length (firstn (Z.to_nat (max_searches self)) listed))
            <= max_searches self)%Z).
Proof.
  intros Hcall Hclean.
  rewrite (plan_searches_answered _ _ _ _ _ Hcall).
  unfold parse_searches, read_searches, loads. rewrite Hclean.
  cbn [pbind]. split.
  - intros ->. reflexivity.
  - intros data listed -> Hq Hn. cbn [pbind Py.get].
    unfold entry_field in Hq. rewrite Hq. cbn [Py.slice_to pbind try_except].
    destruct (list_slice_to_nonneg listed _ Hn) as [Heq Hlen].
    rewrite Heq in *. auto.
Qed.

(** The search loop in closed form. *)
Lemma run_searches_closed (has_tool : bool) (queries : list pyval) :
  forall collected,
    run_searches has_tool queries collected
    = (collected
       ++ if has_tool then concat (map results_of queries) else [])%list.
Proof.
  induction queries as [|q queries IH]; intros collected;
    cbn [run_searches map concat].
  - destruct has_tool; now rewrite app_nil_r.
  - destruct has_tool.
    + unfold results_of at 1.
      destruct (WebSearch.search q 5) as [results|e]; rewrite IH.
      * now rewrite app_assoc.
      * reflexivity.
    + rewrite IH. reflexivity.
Qed.

(** X12: a failing search is skipped and nothing else.  The results
    collected by the search loop are those of the searches that returned,
    in the order of the queries; a query whose search raises can be taken
    out of the list without changing what is collected, and without the
    tool nothing is collected. *)
Theorem failing_search_is_skipped (before after : list pyval) (q : pyval)
    (e : exn) :
  WebSearch.search q 5 = Raise e ->
  run_searches true (before ++ q :: after) []
  = run_searches true (before ++ after) []
  /\ run_searches true (before ++ q :: after) []
     = (concat (map results_of before) ++ concat (map results_of after))%list
  /\ run_searches false (before ++ q :: after) [] = [].
Proof.
  intros Hq. rewrite !run_searches_closed. cbn [app].
  rewrite !map_app, !concat_app. cbn [map concat].
  assert (Hr : results_of q = []) by (unfold results_of; now rewrite Hq).
  rewrite Hr. cbn [app]. repeat split.
Qed.

(** X13: research without search results.  When the planned searches
    collect nothing, [research] calls the service for the search plan only
    and returns no finding, the fixed summary, confidence Low and no
    source. *)
Theorem research_without_results (query : string)
    (context : list (string * pyval)) (self self1 : ResearcherAgent)
    (search_queries sliced : pyval) (selected : list pyval) (planned : nat) :
  _plan_searches query (PDict context) self = (Ok search_queries, self1) ->
  Py.len search_queries = Ok planned ->
  Py.slice_to search_queries (max_searches self1) = Ok sliced ->
  Py.iter sliced = Ok selected ->
  run_searches (existsb (String.eqb "web_search") (tools (base self1)))
    selected [] = [] ->
  research query context self
  = (Ok {| Researcher.query := query;
           findings := [];
           summary := "No findings available to summarize.";
           sources := [];
           confidence := "Low";
           metadata := {| num_searches := planned;
                          num_results := 0;
                          num_findings := 0 |} |}, self1).
Proof.
  intros Hplan Hlen Hslice Hiter Hrun.
  unfold research, bind, lift, ret. rewrite Hplan, Hlen, Hslice.
  cbn [pbind]. rewrite Hiter, Hrun. reflexivity.
Qed.


Lemma make_finding_of_dict (entry : list (string * pyval)) :
  make_finding (PDict entry)
  = Ok {| title := entry_field "title" (PStr "Untitled") entry;
          content := entry_field "content" (PStr "") entry;
          source := entry_field "source" (PStr "Unknown") entry;
          url := entry_field "url" (PStr "") entry;
          relevance := entry_field "relevance" (PStr "Medium") entry;
          key_points := entry_field "key_points" (PList []) entry |}.
Proof. reflexivity. Qed.

Lemma pmap_make_finding (entries : list (list (string * pyval))) :
  exists found,
    pmap make_finding (map PDict entries) = Ok found
    /\ length found = length entries
    /\ map title found = map (entry_field "title" (PStr "Untitled")) entries
    /\ map source found = map (entry_field "source" (PStr "Unknown")) entries
    /\ map relevance found
       = map (entry_field "relevance" (PStr "Medium")) entries.
Proof.
  induction entries as [|e entries (found & Hf & Hl & Ht & Hs & Hr)].
  - exists []. repeat split.
  - eexists (_ :: found). cbn [map pmap]. rewrite make_finding_of_dict.
    cbn [pbind]. rewrite Hf. cbn [pbind].
    split; [reflexivity|]. cbn [length map title source relevance].
    now rewrite Hl, Ht, Hs, Hr.
Qed.

(** X15: the findings of a decoded answer.  When the response decodes to
    an object whose [findings] lists objects, [_extract_findings] returns
    one finding per entry, in order, a missing title being Untitled, a
    missing source Unknown and a missing relevance Medium; when the object
    has no [findings] entry it returns the empty list. *)
Theorem extract_findings_of_entries (query : string)
    (result : WebSearch.SearchResult) (others : list WebSearch.SearchResult)
    (self self' : ResearcherAgent) (response cleaned : string)
    (data : list (string * pyval)) :
  zoom base set_base
    (call_llm
       (extract_findings_prompt query
          (PyStr.join PyStr.nl (format_results 1 (result :: others))))
       None (Some 0.3%Q) (Some 2000%Z)) self = (Ok response, self') ->
  Cleanup.clean response = Ok cleaned ->
  json_loads cleaned = Some (PDict data) ->
  (Py.dict_lookup "findings" data = None ->
   _extract_findings query (result :: others) self = (Ok [], self'))
  /\ (forall entries,
        Py.dict_lookup "findings" data = Some (PList (map PDict entries)) ->
        exists found,
          _extract_findings query (result :: others) self = (Ok found, self')
          /\ length found = length entries
          /\ map title found
             = map (entry_field "title" (PStr "Untitled")) entries
          /\ map source found
             = map (entry_field "source" (PStr "Unknown")) entries
          /\ map relevance found
             = map (entry_field "relevance" (PStr "Medium")) entries).
Proof.
  intros Hcall Hclean Hload.
  unfold _extract_findings, bind, lift. rewrite Hcall.
  unfold parse_findings, read_findings, loads. rewrite Hclean.
  cbn [pbind]. rewrite Hload. cbn [pbind Py.contains_str Py.get].
  split.
  - intros ->. reflexivity.
  - intros entries ->. cbn [negb pbind Py.iter].
    destruct (pmap_make_finding entries) as (found & -> & Hrest).
    exists found. split; [reflexivity|exact Hrest].
Qed.

(** X16: the summary.  Without findings [_generate_summary] returns the
    fixed sentence and makes no call, whatever the service; with findings,
    a first finding whose key points cannot be joined makes it raise
    [TypeError] before any call. *)
Theorem generate_summary_edges (query : string) (self : ResearcherAgent) :
  _generate_summary query [] self
  = (Ok "No findings available to summarize.", self)
  /\ (forall finding rest,
        Py.join_strs ", " (key_points finding) = Raise TypeError ->
        _generate_summary query (finding :: rest) self
        = (Raise TypeError, self)).
Proof.
  split; [reflexivity|].
  intros finding rest Hk. unfold _generate_summary, bind, lift.
  cbn [format_findings]. now rewrite Hk.
Qed.

End ResearcherMore.

Lemma plan_searches_bounds_witness :
  exists self',
    @Researcher._plan_searches example_builtins
      (Runs.canned MoreRuns.three_queries) "q" (PDict [])
      (Researcher.new (Some "key") 2)
    = (Ok (PList [PStr "a"; PStr "b"]), self').
Proof.
  eexists.
  refine (proj1 (proj2 (@plan_searches_bounds example_builtins
                          (Runs.canned MoreRuns.three_queries) "q" (PDict [])
                          (Researcher.new (Some "key") 2) _
                          MoreRuns.three_queries MoreRuns.three_queries _ _)
                   [("queries", PList [PStr "a"; PStr "b"; PStr "c"])]
                   [PStr "a"; PStr "b"; PStr "c"] _ _ _)).
  - vm_compute. reflexivity.
  - vm_compute. reflexivity.
  - vm_compute. reflexivity.
  - vm_compute. reflexivity.
  - vm_compute. discriminate.
Defined.

Lemma failing_search_is_skipped_witness :
  @Researcher.run_searches (MoreRuns.flaky "b") true
    ([PStr "a"] ++ PStr "b" :: [PStr "c"]) []
  = @Researcher.run_searches (MoreRuns.flaky "b") true
      ([PStr "a"] ++ [PStr "c"]) [].
Proof.
  apply (@failing_search_is_skipped (MoreRuns.flaky "b") [PStr "a"]
           [PStr "c"] (PStr "b") ClientError).
  reflexivity.
Defined.

Lemma research_without_results_witness :
  exists self1,
    @Researcher.research example_builtins (Runs.canned "{}")
      MoreRuns.finds_nothing "What is AI?" []
      (Researcher.register_tool "web_search" (Researcher.new (Some "key") 3))
    = (Ok {| Researcher.query := "What is AI?";
             Researcher.findings := [];
             Researcher.summary := "No findings available to summarize.";
             Researcher.sources := [];
             Researcher.confidence := "Low";
             Researcher.metadata :=
               {| Researcher.num_searches := 1;
                  Researcher.num_results := 0;
                  Researcher.num_findings := 0 |} |}, self1)
    /\ length (BaseAgent.conversation_history (Researcher.base self1)) = 2.
Proof.
  eexists. split.
  - eapply (@research_without_results example_builtins (Runs.canned "{}")
              MoreRuns.finds_nothing "What is AI?" [] _ _
              (PList [PStr "What is AI?"]) (PList [PStr "What is AI?"])
              [PStr "What is AI?"] 1).
    + vm_compute. reflexivity.
    + reflexivity.
    + reflexivity.
    + reflexivity.
    + reflexivity.
  - reflexivity.
Defined.


Lemma extract_findings_of_entries_witness :
  exists self' found,
    @Researcher._extract_findings example_builtins
      (Runs.canned MoreRuns.two_findings) "q" [MoreRuns.a_result]
      (Researcher.new (Some "key") 3) = (Ok found, self')
    /\ length found = 2
    /\ map Researcher.title found = [PStr "T"; PStr "Untitled"]
    /\ map Researcher.source found = [PStr "s.org"; PStr "Unknown"]
    /\ map Researcher.relevance found = [PStr "Medium"; PStr "Medium"].
Proof.
  eexists.
  refine (proj2 (@extract_findings_of_entries example_builtins
                   (Runs.canned MoreRuns.two_findings) "q" MoreRuns.a_result
                   [] (Researcher.new (Some "key") 3) _
                   MoreRuns.two_findings MoreRuns.two_findings
                   [("findings",
                     PList [PDict [("title", PStr "T");
                                   ("source", PStr "s.org")];
                            PDict []])]
                   _ _ _)
            [ [("title", PStr "T"); ("source", PStr "s.org")]; [] ] _).
  - vm_compute. reflexivity.
  - vm_compute. reflexivity.
  - vm_compute. reflexivity.
  - reflexivity.
Defined.

Lemma generate_summary_edges_witness :
  @Researcher._generate_summary example_builtins Runs.unreachable "q"
    [ {| Researcher.title := PStr "T"; Researcher.content := PStr "C";
         Researcher.source := PStr "s"; Researcher.url := PStr "u";
         Researcher.relevance := PStr "High";
         Researcher.key_points := PList [PInt 1; PInt 2] |} ]
    (Researcher.new (Some "key") 3)
  = (Raise TypeError, Researcher.new (Some "key") 3).
Proof.
  destruct (@generate_summary_edges example_builtins Runs.unreachable "q"
              (Researcher.new (Some "key") 3)) as [_ H].
  apply H. reflexivity.
Defined.

(* ================================================================= *)
(** ** validator.py: the records of a run *)

Section ValidatorMore.
Import Props MoreProps BaseAgent Validator.
Context `{B : Builtins} `{Svc : Service}.

Lemma parse_source_evaluation_source (src : pyval) (response : string)
    (ev : SourceEvaluation) :
  parse_source_evaluation src response = Ok ev -> source ev = src.
Proof.
  unfold parse_source_evaluation, try_except, read_source_evaluation.
  destruct (Cleanup.clean response) as [c|e]; cbn [pbind].
  2:{ destruct (is_ValueError e); intros H; [now injection H as <-|discriminate]. }
  destruct (loads c) as [data|e]; cbn [pbind].
  2:{ destruct (is_ValueError e); intros H; [now injection H as <-|discriminate]. }
  repeat match goal with
         | |- context [pbind ?r _] =>
             destruct r as [?x|?e]; cbn [pbind];
             [|destruct (is_ValueError e); intros H;
               [now injection H as <-|discriminate]]
         end.
  intros H. now injection H as <-.
Qed.

Lemma evaluate_source_ok (src url : pyval) (self self' : Agent)
    (ev : SourceEvaluation) :
  _evaluate_source src url self = (Ok ev, self') ->
  source ev = src
  /\ length (conversation_history self')
     = length (conversation_history self) + 2
  /\ api_key self' = api_key self.
Proof.
  unfold _evaluate_source, bind, lift.
  destruct (call_llm _ None (Some 0.1%Q) (Some 500%Z) self)
    as [[response|e] s1] eqn:Hcall; [|discriminate].
  intros H. injection H as Hp <-.
  split; [eapply parse_source_evaluation_source, Hp|].
  eapply call_llm_ok_history, Hcall.
Qed.

Lemma validate_content_ok (content key_points src : pyval)
    (self self' : Agent) (r : ValidationResult) :
  _validate_content content key_points src self = (Ok r, self') ->
  length (conversation_history self')
  = length (conversation_history self) + 2
  /\ api_key self' = api_key self.
Proof.
  unfold _validate_content, bind, lift.
  destruct (key_points_text key_points) as [points|e]; [|discriminate].
  destruct (call_llm _ None (Some 0.1%Q) (Some 500%Z) self)
    as [[response|e] s1] eqn:Hcall; [|discriminate].
  intros H. injection H as _ <-.
  eapply call_llm_ok_history, Hcall.
Qed.

(** What one pass of the loop yields. *)
Lemma validate_finding_ok (finding : Researcher.ResearchFinding)
    (self self' : Agent) (v : ValidatedFinding) :
  validate_finding finding self = (Ok v, self') ->
  original_finding v = finding
  /\ source (source_evaluation v) = Researcher.source finding
  /\ overall_credibility v
     = (credibility_score (source_evaluation v) * 0.6
        + content_score (content_validation v) * 0.4)%Q
  /\ length (conversation_history self')
     = length (conversation_history self) + 4
  /\ api_key self' = api_key self.
Proof.
  unfold validate_finding, bind, ret.
  destruct (_evaluate_source _ _ self) as [[ev|e] s1] eqn:H1; [|discriminate].
  destruct (_validate_content _ _ _ s1) as [[cv|e] s2] eqn:H2;
    [|discriminate].
  intros H. injection H as <- <-.
  apply evaluate_source_ok in H1 as (Hs & Hh1 & Hk1).
  apply validate_content_ok in H2 as (Hh2 & Hk2).
  cbn. repeat split; auto; try lia; congruence.
Qed.

Lemma validate_loop_records (findings : list Researcher.ResearchFinding) :
  forall acc self out self',
    validate_loop findings acc self = (Ok out, self') ->
    exists new,
      out = (acc ++ new)%list
      /\ map original_finding new = findings
      /\ Forall (fun v =>
                   source (source_evaluation v)
                   = Researcher.source (original_finding v)
                   /\ overall_credibility v
                      = (credibility_score (source_evaluation v) * 0.6
                         + content_score (content_validation v) * 0.4)%Q)
                new
      /\ length (conversation_history self')
         = length (conversation_history self) + 4 * length findings.
Proof.
  induction findings as [|f findings IH]; intros acc self out self' Hrun.
  - cbn in Hrun. injection Hrun as <- <-. exists [].
    rewrite app_nil_r. repeat split; auto; cbn; lia.
  - cbn [validate_loop] in Hrun. unfold bind in Hrun.
    destruct (validate_finding f self) as [[v|e] s1] eqn:Hf; [|discriminate].
    apply validate_finding_ok in Hf as (Ho & Hs & Hw & Hh & _).
    apply IH in Hrun as (new & -> & Hm & Hall & Hlen).
    exists (v :: new). rewrite <- app_assoc. cbn [app map length].
    repeat split; auto.
    + now rewrite Ho, Hm.
    + constructor; auto. split; [now rewrite Ho|exact Hw].
    + lia.
Qed.

Lemma validate_findings_length
    (findings : list Researcher.ResearchFinding) (self self' : Agent)
    (out : list ValidatedFinding) :
  validate_findings findings self = (Ok out, self') ->
  length out = length findings.
Proof.
  intros Hrun. apply validate_loop_records in Hrun
    as (new & -> & Hm & _ & _).
  cbn [app]. rewrite <- Hm. now rewrite length_map.
Qed.

(** X17: the records of a validation run.  When [validate_findings]
    returns, it returns one record per finding, in the order of the
    findings; each record evaluates the source of its own finding and its
    overall credibility is 0.6 times the source score plus 0.4 times the
    content score. *)
Theorem validate_findings_records
    (findings : list Researcher.ResearchFinding) (self self' : Agent)
    (out : list ValidatedFinding) :
  validate_findings findings self = (Ok out, self') ->
  length out = length findings
  /\ map original_finding out = findings
  /\ Forall (fun v =>
               source (source_evaluation v)
               = Researcher.source (original_finding v)
               /\ overall_credibility v
                  = (credibility_score (source_evaluation v) * 0.6
                     + content_score (content_validation v) * 0.4)%Q)
            out.
Proof.
  intros Hrun. apply validate_loop_records in Hrun
    as (new & -> & Hm & Hall & _).
  cbn [app]. repeat split; auto.
  rewrite <- Hm. now rewrite length_map.
Qed.

(** X18: the cost of a validation run.  A run of [validate_findings] that
    returns has made exactly two calls per finding: the conversation
    history has grown by four messages per finding. *)
Theorem validate_findings_calls
    (findings : list Researcher.ResearchFinding) (self self' : Agent)
    (out : list ValidatedFinding) :
  validate_findings findings self = (Ok out, self') ->
  length (conversation_history self')
  = length (conversation_history self) + 4 * length findings.
Proof.
  intros Hrun. now apply validate_loop_records in Hrun as (_ & _ & _ & _ & H).
Qed.

Lemma parse_validation_undecodable (src : pyval) (text : string) :
  (forall cleaned, Cleanup.clean text = Ok cleaned ->
                   json_loads cleaned = None) ->
  parse_source_evaluation src text = Ok (default_source_evaluation src)
  /\ parse_content_validation text = Ok default_content_validation.
Proof.
  intros Hu. destruct (clean_never_raises text) as [cleaned Hc].
  pose proof (Hu cleaned Hc) as Hl.
  unfold parse_source_evaluation, read_source_evaluation,
    parse_content_validation, read_content_validation, loads.
  rewrite Hc. cbn [pbind]. now rewrite Hl.
Qed.

Lemma validate_finding_undecodable (finding : Researcher.ResearchFinding)
    (points : string) (self : Agent) (c : ascii) (key : string) :
  api_key self = Some (String c key) ->
  never_decodes ->
  key_points_text (Researcher.key_points finding) = Ok points ->
  exists self',
    validate_finding finding self
    = (Ok {| original_finding := finding;
             source_evaluation :=
               default_source_evaluation (Researcher.source finding);
             content_validation := default_content_validation;
             overall_credibility := (0.3 * 0.6 + 0.5 * 0.4)%Q |}, self')
    /\ api_key self' = Some (String c key).
Proof.
  intros Hkey Hsvc Hpoints.
  destruct (call_llm_answered
              (evaluate_source_prompt (Researcher.source finding)
                 (Researcher.url finding))
              None (Some 0.1%Q) (Some 500%Z) self c key _ Hkey Hsvc)
    as (t1 & Hu1 & Hcall1).
  set (s1 := append_history self _) in Hcall1.
  assert (Hkey1 : api_key s1 = Some (String c key)) by exact Hkey.
  destruct (call_llm_answered
              (validate_content_prompt (Researcher.content finding) points
                 (Researcher.source finding))
              None (Some 0.1%Q) (Some 500%Z) s1 c key _ Hkey1 Hsvc)
    as (t2 & Hu2 & Hcall2).
  eexists. split.
  - unfold validate_finding, _evaluate_source, _validate_content, bind,
      lift, ret.
    rewrite Hcall1.
    destruct (parse_validation_undecodable (Researcher.source finding) t1 Hu1)
      as [-> _].
    rewrite Hpoints, Hcall2.
    destruct (parse_validation_undecodable (Researcher.source finding) t2 Hu2)
      as [_ ->].
    reflexivity.
  - exact Hkey.
Qed.

Lemma validate_loop_undecodable
    (findings : list Researcher.ResearchFinding) (c : ascii) (key : string) :
  never_decodes ->
  Forall (fun f => exists points,
              key_points_text (Researcher.key_points f) = Ok points)
         findings ->
  forall acc self,
    api_key self = Some (String c key) ->
    exists self',
      validate_loop findings acc self
      = (Ok (acc ++ map (fun f =>
                           {| original_finding := f;
                              source_evaluation :=
                                default_source_evaluation
                                  (Researcher.source f);
                              content_validation :=
                                default_content_validation;
                              overall_credibility :=
                                (0.3 * 0.6 + 0.5 * 0.4)%Q |}) findings)%list,
         self').
Proof.
  intros Hsvc Hall. induction Hall as [|f findings [points Hp] _ IH];
    intros acc self Hkey.
  - exists self. cbn. now rewrite app_nil_r.
  - destruct (validate_finding_undecodable f points self c key Hkey Hsvc Hp)
      as (s1 & Hf & Hkey1).
    cbn [validate_loop map]. unfold bind. rewrite Hf.
    match goal with
    | |- context [validate_loop findings ?a s1] =>
        destruct (IH a s1 Hkey1) as (s2 & ->)
    end.
    exists s2. now rewrite <- app_assoc.
Qed.

(** X19: validation with answers that never decode.  With a key, a
    service whose answers never decode and findings whose key points can
    be listed, [validate_findings] returns for every finding the default
    source evaluation (0.3), the default content validation (0.5) and the
    overall credibility 0.38. *)
Theorem validate_with_undecodable_answers
    (findings : list Researcher.ResearchFinding) (self : Agent)
    (c : ascii) (key : string) :
  api_key self = Some (String c key) ->
  never_decodes ->
  Forall (fun f => exists points,
              key_points_text (Researcher.key_points f) = Ok points)
         findings ->
  exists out self',
    validate_findings findings self = (Ok out, self')
    /\ length out = length findings
    /\ Forall (fun v =>
                 credibility_score (source_evaluation v) = 0.3%Q
                 /\ content_score (content_validation v) = 0.5%Q
                 /\ (overall_credibility v == 0.38)%Q)
              out.
Proof.
  intros Hkey Hsvc Hall.
  destruct (validate_loop_undecodable findings c key Hsvc Hall [] self Hkey)
    as (self' & Hrun).
  eexists. exists self'. split; [exact Hrun|]. cbn [app].
  split; [apply length_map|].
  apply Forall_forall. intros v Hin.
  apply in_map_iff in Hin as (f & <- & _). cbn. repeat split; reflexivity.
Qed.

End ValidatorMore.

Lemma validate_findings_records_witness :
  exists out self',
    @Validator.validate_findings example_builtins
      (Runs.canned Runs.high_score)
      [Runs.finding_of "a.org"; Runs.finding_of "b.org"]
      (Validator.ValidatorAgent (Some "key")) = (Ok out, self')
    /\ length out = 2
    /\ map Validator.original_finding out
       = [Runs.finding_of "a.org"; Runs.finding_of "b.org"]
    /\ length (BaseAgent.conversation_history self') = 8.
Proof.
  pose (run := @Validator.validate_findings example_builtins
                 (Runs.canned Runs.high_score)
                 [Runs.finding_of "a.org"; Runs.finding_of "b.org"]
                 (Validator.ValidatorAgent (Some "key"))).
  assert (H : exists out, run = (Ok out, snd run))
    by (eexists; vm_compute; reflexivity).
  destruct H as [out Hrun].
  destruct (@validate_findings_records example_builtins
              (Runs.canned Runs.high_score) _ _ _ out Hrun)
    as (Hlen & Hmap & _).
  exists out, (snd run). repeat split; auto.
Defined.

Lemma validate_findings_calls_witness :
  exists out self',
    @Validator.validate_findings example_builtins
      (Runs.canned Runs.high_score)
      [Runs.finding_of "a.org"; Runs.finding_of "b.org"]
      (Validator.ValidatorAgent (Some "key")) = (Ok out, self')
    /\ length (BaseAgent.conversation_history self') = 0 + 4 * 2.
Proof.
  pose (run := @Validator.validate_findings example_builtins
                 (Runs.canned Runs.high_score)
                 [Runs.finding_of "a.org"; Runs.finding_of "b.org"]
                 (Validator.ValidatorAgent (Some "key"))).
  assert (H : exists out, run = (Ok out, snd run))
    by (eexists; vm_compute; reflexivity).
  destruct H as [out Hrun].
  exists out, (snd run). split; [exact Hrun|].
  apply (@validate_findings_calls example_builtins
           (Runs.canned Runs.high_score) _ _ _ out Hrun).
Defined.

Lemma validate_with_undecodable_answers_witness :
  exists out self',
    @Validator.validate_findings example_builtins
      (Runs.canned "Hard to say.")
      [Runs.finding_of "a.org"; Runs.finding_of "b.org"]
      (Validator.ValidatorAgent (Some "key")) = (Ok out, self')
    /\ length out = 2
    /\ Forall (fun v =>
                 Validator.credibility_score (Validator.source_evaluation v)
                 = 0.3%Q
                 /\ Validator.content_score (Validator.content_validation v)
                    = 0.5%Q
                 /\ (Validator.overall_credibility v == 0.38)%Q)
              out.
Proof.
  apply (@validate_with_undecodable_answers example_builtins
           (Runs.canned "Hard to say.")
           [Runs.finding_of "a.org"; Runs.finding_of "b.org"]
           (Validator.ValidatorAgent (Some "key")) "k"%char "ey" eq_refl
           canned_never_decodes).
  repeat constructor; eexists; reflexivity.
Defined.

(* ================================================================= *)
(** ** orchestrator.py: validation step, depth setting *)

Section KeepsFacts.
Import MoreProps.

Lemma keeps_ret {S A C} (f : S -> C) (a : A) : keeps f (ret a).
Proof. intros s. reflexivity. Qed.

Lemma keeps_lift {S A C} (f : S -> C) (r : pyres A) : keeps f (lift r).
Proof. intros s. reflexivity. Qed.

Lemma keeps_bind {S A A' C} (f : S -> C) (m : M S A) (k : A -> M S A') :
  keeps f m -> (forall a, keeps f (k a)) -> keeps f (bind m k).
Proof.
  intros Hm Hk s. unfold bind. specialize (Hm s).
  destruct (m s) as [[a|e] s1]; cbn [snd] in *.
  - now rewrite Hk.
  - exact Hm.
Qed.

Lemma keeps_read {S A C} (f : S -> C) (g : S -> pyres A) :
  keeps f (fun s => (g s, s)).
Proof. intros s. reflexivity. Qed.

Lemma keeps_zoom {S T A C} (f : S -> C) (get : S -> T)
    (set : T -> S -> S) (m : M T A) :
  (forall t s, f (set t s) = f s) -> keeps f (zoom get set m).
Proof.
  intros Hset s. unfold zoom. destruct (m (get s)) as [r t]. apply Hset.
Qed.

End KeepsFacts.

Section OrchestratorMore.
Import Props MoreProps BaseAgent Orchestrator.
Context `{B : Builtins} `{Svc : Service} `{T : WebSearch.Tool}
        `{Y : Synthesizer}.

Lemma zoom_base_keeps {A} (m : M Agent A) :
  keeps Researcher.max_searches (zoom Researcher.base Researcher.set_base m).
Proof. apply keeps_zoom. reflexivity. Qed.

(** The researcher never changes its own [max_searches]. *)
Lemma researcher_keeps_max_searches (query : string)
    (context : list (string * pyval)) :
  keeps Researcher.max_searches (Researcher.research query context).
Proof.
  unfold Researcher.research.
  apply keeps_bind.
  { unfold Researcher._plan_searches.
    apply keeps_bind; [apply zoom_base_keeps|].
    intros response. apply keeps_read. }
  intros sq. apply keeps_bind; [apply keeps_lift|]. intros planned.
  apply keeps_bind; [apply keeps_read|]. intros limit.
  apply keeps_bind; [apply keeps_read|]. intros has_tool.
  apply keeps_bind; [apply keeps_lift|]. intros selected.
  apply keeps_bind.
  { unfold Researcher._extract_findings.
    destruct (Researcher.run_searches _ _ _); [apply keeps_ret|].
    apply keeps_bind; [apply zoom_base_keeps|]. intros text. apply keeps_lift. }
  intros findings. apply keeps_bind.
  { unfold Researcher._generate_summary.
    destruct findings; [apply keeps_ret|].
    apply keeps_bind; [apply keeps_lift|]. intros ft.
    apply keeps_bind; [apply zoom_base_keeps|]. intros text. apply keeps_ret. }
  intros summary. apply keeps_bind; [apply keeps_lift|]. intros sources.
  apply keeps_ret.
Qed.

Lemma run_steps_keeps_max_searches (query depth : string) :
  keeps (fun o => Researcher.max_searches (researcher o))
        (run_steps query depth).
Proof.
  unfold run_steps. apply keeps_bind.
  { intros s. unfold zoom.
    pose proof (researcher_keeps_max_searches query [] (researcher s)) as Hk.
    destruct (Researcher.research query [] (researcher s)) as [r t].
    exact Hk. }
  intros rr. apply keeps_bind.
  { intros s. unfold validate_step.
    destruct (use_validation s); [|reflexivity].
    destruct (validator s) as [v|]; [|reflexivity].
    destruct (Researcher.findings rr); [reflexivity|].
    destruct (Validator.validate_findings _ v). reflexivity. }
  intros validated. apply keeps_bind.
  { apply keeps_zoom. reflexivity. }
  intros report. apply keeps_read.
Qed.

(** X20: the depth setting outlives the call.  After [research] has run,
    whether it returned or raised, the researcher's [max_searches] is 1
    for depth quick and 3 for any other depth, whatever the orchestrator
    was built with: the next call starts from this value, not from the
    configured one. *)
Theorem research_leaves_max_searches (query depth : string)
    (self : ResearchOrchestrator) :
  Researcher.max_searches (researcher (snd (research query depth self)))
  = if String.eqb depth "quick" then 1%Z else 3%Z.
Proof.
  rewrite research_adjusts_depth.
  now rewrite (run_steps_keeps_max_searches query depth).
Qed.

Lemma validate_step_skipped (findings : list Researcher.ResearchFinding)
    (self : ResearchOrchestrator) :
  use_validation self = false \/ validator self = None \/ findings = [] ->
  validate_step findings self = (Ok [], self).
Proof.
  unfold validate_step. intros [-> |[-> | ->]]; auto.
  - now destruct (use_validation self).
  - now destruct (use_validation self), (validator self).
Qed.

(** X21: when validation runs.  After the research step, validation is
    skipped when it is disabled or when there is no finding: the validator
    is not called, the synthesizer receives no validation, the result
    carries an empty list of validated findings, and its metadata still
    reports the [use_validation] setting.  When it is enabled, with a
    validator and at least one finding, a run that returns hands the
    synthesizer one record per finding. *)
Theorem validation_step_of_research (query depth : string)
    (self self1 : ResearchOrchestrator) (rr : Researcher.ResearchResult) :
  zoom researcher set_researcher (Researcher.research query []) self
  = (Ok rr, self1) ->
  (use_validation self1 = false \/ Researcher.findings rr = [] ->
   run_steps query depth self
   = match zoom synthesizer set_synthesizer
             (synthesize query (Researcher.findings rr) None) self1 with
     | (Ok report, self2) =>
         (Ok {| query := query;
                research_result := rr;
                validated_findings := [];
                final_report := report;
                metadata :=
                  {| depth := depth;
                     validation_used := use_validation self2;
                     num_findings := length (Researcher.findings rr);
                     num_sources := length (Researcher.sources rr) |} |},
          self2)
     | (Raise e, self2) => (Raise e, self2)
     end)
  /\ (forall v validated v',
        use_validation self1 = true ->
        validator self1 = Some v ->
        Researcher.findings rr <> [] ->
        Validator.validate_findings (Researcher.findings rr) v
        = (Ok validated, v') ->
        length validated = length (Researcher.findings rr)
        /\ run_steps query depth self
           = match zoom synthesizer set_synthesizer
                     (synthesize query (Researcher.findings rr)
                        (Some validated))
                     (set_validator v' self1) with
             | (Ok report, self2) =>
                 (Ok {| query := query;
                        research_result := rr;
                        validated_findings := validated;
                        final_report := report;
                        metadata :=
                          {| depth := depth;
                             validation_used := use_validation self2;
                             num_findings := length (Researcher.findings rr);
                             num_sources := length (Researcher.sources rr) |} |},
                  self2)
             | (Raise e, self2) => (Raise e, self2)
             end).
Proof.
  intros Hres. split.
  - intros Hskip. unfold run_steps, bind. rewrite Hres.
    rewrite validate_step_skipped by tauto.
    destruct (zoom synthesizer set_synthesizer _ self1) as [[report|e] s2];
      reflexivity.
  - intros v validated v' Hon Hv Hne Hval.
    pose proof (validate_findings_length _ _ _ _ Hval) as Hlen.
    split; [exact Hlen|].
    unfold run_steps, bind. rewrite Hres.
    unfold validate_step. rewrite Hon, Hv.
    destruct (Researcher.findings rr) as [|f fs] eqn:Ef; [congruence|].
    rewrite Hval.
    destruct validated as [|x xs]; [cbn in Hlen; discriminate|].
    destruct (zoom synthesizer set_synthesizer _ _) as [[report|e] s2];
      reflexivity.
Qed.

End OrchestratorMore.

Lemma validation_step_of_research_witness :
  exists r self',
    @Orchestrator.research example_builtins (Runs.canned "{}")
      MoreRuns.finds_nothing Runs.echo_synthesizer "q" "quick"
      (Orchestrator.__init__ (Some "key") true 3) = (Ok r, self')
    /\ @Orchestrator.validated_findings Runs.echo_synthesizer r = []
    /\ Orchestrator.validation_used
         (@Orchestrator.metadata Runs.echo_synthesizer r) = true.
Proof.
  pose (self := Orchestrator.set_researcher
                  (Researcher.set_max_searches 1
                     (Orchestrator.researcher
                        (Orchestrator.__init__ (Some "key") true 3)))
                  (Orchestrator.__init__ (Some "key") true 3)).
  pose (step := zoom Orchestrator.researcher Orchestrator.set_researcher
                  (@Researcher.research example_builtins (Runs.canned "{}")
                     MoreRuns.finds_nothing "q" []) self).
  assert (H : exists rr, step = (Ok rr, snd step)
                         /\ Researcher.findings rr = []).
  { eexists. split; [vm_compute; reflexivity|reflexivity]. }
  destruct H as (rr & Hstep & Hnone).
  destruct (@validation_step_of_research example_builtins (Runs.canned "{}")
              MoreRuns.finds_nothing Runs.echo_synthesizer "q" "quick"
              self (snd step) rr Hstep) as [Hskip _].
  specialize (Hskip (or_intror Hnone)).
  change (@Orchestrator.research example_builtins (Runs.canned "{}")
            MoreRuns.finds_nothing Runs.echo_synthesizer "q" "quick"
            (Orchestrator.__init__ (Some "key") true 3))
    with (@Orchestrator.run_steps example_builtins (Runs.canned "{}")
            MoreRuns.finds_nothing Runs.echo_synthesizer "q" "quick" self).
  rewrite Hskip. eexists. eexists. split; [reflexivity|].
  split; reflexivity.
Defined.

(* ================================================================= *)
(** ** The synthesizer *)

Section SynthesizerRules.
Import Synthesizer SynthesisRuns MoreProps.

(** X22: the report's confidence and the number of findings.  Without
    validation [_assess_confidence] depends on the number of findings
    only: High from four findings on, Medium for two or three, Low
    otherwise.  Whatever the validation, at most one finding never gives
    High and four or more findings never give Low. *)
Theorem report_confidence_by_count
    (findings : list Researcher.ResearchFinding)
    (validated : option (list Validator.ValidatedFinding)) :
  (validated = None \/ validated = Some [] ->
   _assess_confidence findings validated
   = if (4 <=? length findings)%nat then "High"
     else if (2 <=? length findings)%nat then "Medium"
     else "Low")
  /\ (length findings <= 1 ->
      _assess_confidence findings validated <> "High")
  /\ (4 <= length findings ->
      _assess_confidence findings validated <> "Low").
Proof.
  split; [|split].
  - intros [-> | ->];
      destruct findings as [|a [|b [|c [|d l]]]]; reflexivity.
  - intros Hn. destruct findings as [|a [|b l]]; [discriminate| |cbn in Hn; lia].
    unfold _assess_confidence. cbn [length Nat.leb].
    destruct validated as [[|v vs]|]; try discriminate.
    destruct (Qgeb _ 0.7); [discriminate|].
    destruct (Qgeb _ 0.5); discriminate.
  - intros Hn.
    destruct findings as [|a [|b [|c [|d l]]]]; cbn in Hn; try lia.
    unfold _assess_confidence. cbn [length Nat.leb].
    destruct validated as [[|v vs]|]; try discriminate.
    destruct (Qgeb _ 0.7); [discriminate|].
    destruct (Qgeb _ 0.5); discriminate.
Qed.

Lemma half_lt (u n : nat) :
  Qltb (inject_Z (Z.of_nat u)) (inject_Z (Z.of_nat n) * 0.5) = true
  <-> 2 * u < n.
Proof.
  unfold Qltb. rewrite negb_true_iff.
  destruct (Qle_bool _ _) eqn:E.
  - apply Qle_bool_iff in E. unfold Qle in E. cbn in E.
    split; [discriminate|]. lia.
  - split; [intros _|reflexivity].
    destruct (Nat.lt_ge_cases (2 * u) n) as [Hl|Hg]; [exact Hl|].
    assert (Hle : (inject_Z (Z.of_nat n) * 0.5 <= inject_Z (Z.of_nat u))%Q).
    { unfold Qle. cbn. lia. }
    apply Qle_bool_iff in Hle. congruence.
Qed.

Lemma in_app_singleton (x y : string) (l : list string) :
  In x (l ++ [y])%list <-> In x l \/ x = y.
Proof.
  rewrite in_app_iff. cbn. intuition congruence.
Qed.

(** X23: the limitations of a report.  When [_identify_limitations]
    returns, the note on the number of sources is present exactly when
    there are fewer than three findings, the note on diversity needs at
    least three findings, so the two never appear together, and the note
    on credibility needs a validation.  It raises [TypeError] exactly when
    a source is a list or an object. *)
Theorem limitations_rules (findings : list Researcher.ResearchFinding)
    (validated : option (list Validator.ValidatedFinding)) :
  (forall limits,
     _identify_limitations findings validated = Ok limits ->
     (In few_sources limits <-> length findings < 3)
     /\ (In little_diversity limits -> 3 <= length findings)
     /\ (In low_credibility limits -> exists v vs, validated = Some (v :: vs)))
  /\ (forall e,
        _identify_limitations findings validated = Raise e <->
        e = TypeError
        /\ forallb Py.hashable (map Researcher.source findings) = false).
Proof.
  unfold _identify_limitations, Py.list_of_set.
  set (sources := map Researcher.source findings).
  assert (Hlen : length sources = length findings)
    by (unfold sources; apply length_map).
  destruct (forallb Py.hashable sources) eqn:Eh; cbn [pbind].
  2: { split; [discriminate|]. intros e. split.
       - intros H. injection H as <-. auto.
       - intros [-> _]. reflexivity. }
  split; [|intros e; split; [|intros [_ H]; discriminate];
           destruct (Qltb _ _); discriminate].
  intros limits Hl.
  set (first := if (length findings <? 3)%nat then [few_sources] else [])
    in Hl.
  set (second := match validated with
                 | Some (v :: vs) =>
                     if Qltb (average_credibility (v :: vs)) 0.6
                     then (first ++ [low_credibility])%list else first
                 | _ => first
                 end) in Hl.
  assert (Hfirst : forall x, In x first ->
                             x = few_sources /\ length findings < 3).
  { intros x. unfold first.
    destruct (Nat.ltb_spec (length findings) 3); cbn; intuition. }
  assert (Hsecond : forall x, In x second ->
            In x first
            \/ (x = low_credibility
                /\ exists v vs, validated = Some (v :: vs))).
  { intros x. unfold second. destruct validated as [[|v vs]|]; auto.
    destruct (Qltb _ 0.6); auto.
    rewrite in_app_singleton. intros [H| ->]; eauto. }
  assert (Hkeep : forall x, In x first -> In x second).
  { intros x Hx. unfold second. destruct validated as [[|v vs]|]; auto.
    destruct (Qltb _ 0.6); auto. apply in_app_singleton. auto. }
  assert (Hfew : In few_sources first <-> length findings < 3).
  { unfold first.
    destruct (Nat.ltb_spec (length findings) 3); cbn; intuition lia. }
  assert (Hthird : forall x, In x limits ->
            In x second
            \/ (x = little_diversity
                /\ 2 * length (Py.dedup sources []) < length sources)).
  { intros x Hx. destruct (Qltb _ _) eqn:Eq in Hl; injection Hl as <-; auto.
    apply half_lt in Eq. apply in_app_singleton in Hx.
    destruct Hx as [Hx| ->]; auto. }
  assert (Hkeep2 : forall x, In x second -> In x limits).
  { intros x Hx. destruct (Qltb _ _) in Hl; injection Hl as <-; auto.
    apply in_app_singleton. auto. }
  assert (Hdiv : 2 * length (Py.dedup sources []) < length sources ->
                 3 <= length findings).
  { rewrite <- Hlen. destruct sources as [|a [|b l]]; cbn; lia. }
  split; [|split].
  - split.
    + intros Hin. apply Hthird in Hin. destruct Hin as [Hin|[Hd _]];
        [|discriminate].
      apply Hsecond in Hin. destruct Hin as [Hin|[Hd _]]; [|discriminate].
      now apply Hfew.
    + intros Hn. apply Hkeep2, Hkeep, Hfew, Hn.
  - intros Hin. apply Hthird in Hin. destruct Hin as [Hin|[_ Hd]]; auto.
    apply Hsecond in Hin. destruct Hin as [Hin|[Hd _]]; [|discriminate].
    apply Hfirst in Hin. destruct Hin as [Hd _]. discriminate.
  - intros Hin. apply Hthird in Hin. destruct Hin as [Hin|[Hd _]];
      [|discriminate].
    apply Hsecond in Hin. destruct Hin as [Hin|[_ Hv]]; auto.
    apply Hfirst in Hin. destruct Hin as [Hd _]. discriminate.
Qed.

End SynthesizerRules.

Lemma report_confidence_by_count_witness :
  Synthesizer._assess_confidence [SynthesisRuns.from_source "a.org"] None
  <> "High".
Proof.
  apply (proj1 (proj2 (report_confidence_by_count
                         [SynthesisRuns.from_source "a.org"] None))).
  cbn. lia.
Defined.

Lemma limitations_rules_witness :
  Synthesizer._identify_limitations
    [SynthesisRuns.from_source "a.org"; SynthesisRuns.from_source "a.org";
     SynthesisRuns.from_source "a.org"] None
  = Ok [SynthesisRuns.little_diversity]
  /\ ~ In SynthesisRuns.few_sources [SynthesisRuns.little_diversity].
Proof.
  split; [vm_compute; reflexivity|].
  intros Hin.
  apply (proj1 (proj1 (limitations_rules
                         [SynthesisRuns.from_source "a.org";
                          SynthesisRuns.from_source "a.org";
                          SynthesisRuns.from_source "a.org"] None)
                 [SynthesisRuns.little_diversity] eq_refl)) in Hin.
  cbn in Hin. lia.
Defined.

Section SynthesizerAnswers.
Import Synthesizer SynthesisRuns MoreProps BaseAgent.
Context `{B : Builtins} `{F : FloatFormat} `{Svc : Service}.

Lemma parse_undecodable_insights (text : string) :
  (forall cleaned, Cleanup.clean text = Ok cleaned ->
                   json_loads cleaned = None) ->
  parse_insights text = Ok no_insights
  /\ parse_contradictions text = Ok (PList []).
Proof.
  intros Hu. destruct (clean_never_raises text) as [cleaned Hc].
  pose proof (Hu cleaned Hc) as Hl.
  unfold parse_insights, read_insights, parse_contradictions,
    read_contradictions, loads.
  rewrite Hc. cbn [pbind]. now rewrite Hl.
Qed.

Lemma limitations_of_hashable_sources
    (findings : list Researcher.ResearchFinding)
    (validated : option (list Validator.ValidatedFinding)) :
  forallb Py.hashable (map Researcher.source findings) = true ->
  exists limits, _identify_limitations findings validated = Ok limits.
Proof.
  intros Hh. unfold _identify_limitations, Py.list_of_set.
  rewrite Hh. cbn [pbind]. destruct (Qltb _ _); eauto.
Qed.

(** X24: what the insights can be.  A value returned by the reading of the
    insights answer always has a length, so the orchestrator can log it:
    an answer that does not decode gives the one-line notice, an object
    without the key gives the empty list, and an object whose insights are
    a number, a truth value or null raises [TypeError], while the same
    mistake in the contradictions answer is returned as it is. *)
Theorem insights_have_a_length (response cleaned : string) :
  Cleanup.clean response = Ok cleaned ->
  (forall v, parse_insights response = Ok v -> exists n, Py.len v = Ok n)
  /\ (json_loads cleaned = None ->
      parse_insights response = Ok no_insights
      /\ parse_contradictions response = Ok (PList []))
  /\ (forall d,
        json_loads cleaned = Some (PDict d) ->
        Py.dict_lookup "insights" d = None ->
        parse_insights response = Ok (PList []))
  /\ (forall d v,
        json_loads cleaned = Some (PDict d) ->
        Py.dict_lookup "insights" d = Some v ->
        Py.dict_lookup "contradictions" d = Some v ->
        Py.len v = Raise TypeError ->
        parse_insights response = Raise TypeError
        /\ parse_contradictions response = Ok v).
Proof.
  intros Hc.
  unfold parse_insights, read_insights, parse_contradictions,
    read_contradictions, loads.
  rewrite Hc. cbn [pbind].
  split; [|split; [|split]].
  - intros v. destruct (json_loads cleaned) as [data|]; cbn.
    + destruct data as [ |b|z|q|s|l|d]; cbn; try discriminate.
      destruct (Py.dict_lookup "insights" d) as [x|]; cbn.
      * destruct x; cbn; try discriminate;
          intros H; injection H as <-; cbn; eauto.
      * intros H. injection H as <-. cbn. eauto.
    + intros H. injection H as <-. cbn. eauto.
  - intros ->. split; reflexivity.
  - intros d -> Hk. cbn. rewrite Hk. reflexivity.
  - intros d v -> Hi Hk Hl. cbn. rewrite Hi, Hk. cbn. rewrite Hl.
    split; reflexivity.
Qed.


(** The run of [synthesize] on answers that never decode. *)
Lemma synthesize_undecodable_run (query : string)
    (findings : list Researcher.ResearchFinding)
    (validated : option (list Validator.ValidatedFinding))
    (self : Agent) (c : ascii) (key text : string) :
  api_key self = Some (String c key) ->
  never_decodes ->
  _prepare_findings_text findings validated = Ok text ->
  forallb Py.hashable (map Researcher.source findings) = true ->
  exists t1 t3 limits self',
    synthesize query findings validated self
    = (Ok {| Synthesizer.query := query;
             executive_summary := PyStr.strip t1;
             key_insights := no_insights;
             detailed_analysis := PyStr.strip t3;
             contradictions := PList [];
             limitations := limits;
             confidence_level := _assess_confidence findings validated;
             sources_used := Py.dedup (map Researcher.source findings) [] |},
       self')
    /\ _identify_limitations findings validated = Ok limits
    /\ api_key self' = api_key self
    /\ length (conversation_history self')
       = length (conversation_history self) + 8.
Proof.
  intros Hkey Hsvc Ht Hh.
  destruct (call_llm_answered (executive_summary_prompt query text) None
              (Some 0.4%Q) (Some 500%Z) self c key _ Hkey Hsvc)
    as (t1 & Hu1 & Hcall1).
  set (s1 := append_history self _) in Hcall1.
  assert (Hkey1 : api_key s1 = Some (String c key)) by exact Hkey.
  destruct (call_llm_answered (key_insights_prompt query text) None
              (Some 0.5%Q) (Some 800%Z) s1 c key _ Hkey1 Hsvc)
    as (t2 & Hu2 & Hcall2).
  set (s2 := append_history s1 _) in Hcall2.
  assert (Hkey2 : api_key s2 = Some (String c key)) by exact Hkey.
  destruct (call_llm_answered
              (detailed_analysis_prompt query
                 ("- " ++ py_str (PStr "Unable to extract structured insights"))
                 text) None
              (Some 0.5%Q) (Some 1500%Z) s2 c key _ Hkey2 Hsvc)
    as (t3 & Hu3 & Hcall3).
  set (s3 := append_history s2 _) in Hcall3.
  assert (Hkey3 : api_key s3 = Some (String c key)) by exact Hkey.
  destruct (call_llm_answered (contradictions_prompt text) None
              (Some 0.3%Q) (Some 500%Z) s3 c key _ Hkey3 Hsvc)
    as (t4 & Hu4 & Hcall4).
  destruct (parse_undecodable_insights t2 Hu2) as [Hins _].
  destruct (parse_undecodable_insights t4 Hu4) as [_ Hcon].
  destruct (limitations_of_hashable_sources findings validated Hh)
    as [limits Hlim].
  exists t1, t3, limits. eexists. split; [|split; [|split]].
  - unfold synthesize, bind, lift, ret. rewrite Ht.
    unfold _generate_executive_summary, bind, ret. rewrite Hcall1.
    unfold _extract_key_insights, bind, lift. rewrite Hcall2, Hins.
    unfold _generate_detailed_analysis, bind, lift, ret.
    cbn [no_insights insights_text Py.iter pbind map PyStr.join].
    rewrite Hcall3.
    unfold _identify_contradictions, bind, lift. rewrite Hcall4, Hcon.
    rewrite Hlim. unfold Py.list_of_set. rewrite Hh. reflexivity.
  - exact Hlim.
  - reflexivity.
  - cbn. rewrite !length_app. cbn. lia.
Qed.


End SynthesizerAnswers.

Lemma insights_have_a_length_witness :
  @Synthesizer.parse_insights example_builtins "Hard to say."
  = Ok SynthesisRuns.no_insights
  /\ @Synthesizer.parse_contradictions example_builtins "Hard to say."
     = Ok (PList []).
Proof.
  apply (proj1 (proj2 (@insights_have_a_length example_builtins
                         "Hard to say." "Hard to say." eq_refl))).
  reflexivity.
Defined.



(* ================================================================= *)
(** ** The orchestrator with its synthesizer *)

Section WholeRun.
Import Synthesizer SynthesisRuns MoreProps BaseAgent.
Context `{B : Builtins} `{F : FloatFormat} `{Svc : Service}
        `{T : WebSearch.Tool}.

(** X27: a run that finds nothing.  When the research step of [research]
    returns no finding and the service's answers never decode, the run
    still returns: validation is skipped and the validator is left
    untouched, the synthesizer makes its four calls on an empty text, and
    the report has confidence Low, the one-line notice as insights, no
    contradiction, no source, and the note on the number of sources as
    its only limitation. *)
Theorem research_that_finds_nothing (query depth : string)
    (self self1 : Orchestrator.ResearchOrchestrator)
    (rr : Researcher.ResearchResult) (c : ascii) (key : string) :
  zoom Orchestrator.researcher Orchestrator.set_researcher
    (Researcher.research query [])
    (snd (Orchestrator.adjust_depth depth self)) = (Ok rr, self1) ->
  Researcher.findings rr = [] ->
  api_key (Orchestrator.synthesizer self) = Some (String c key) ->
  never_decodes ->
  exists result self2,
    @Orchestrator.research B Svc T as_collaborator query depth self
    = (Ok result, self2)
    /\ @Orchestrator.research_result as_collaborator result = rr
    /\ @Orchestrator.validated_findings as_collaborator result = []
    /\ confidence_level (@Orchestrator.final_report as_collaborator result)
       = "Low"
    /\ key_insights (@Orchestrator.final_report as_collaborator result)
       = no_insights
    /\ contradictions (@Orchestrator.final_report as_collaborator result)
       = PList []
    /\ limitations (@Orchestrator.final_report as_collaborator result)
       = [few_sources]
    /\ sources_used (@Orchestrator.final_report as_collaborator result) = []
    /\ Orchestrator.validator self2 = Orchestrator.validator self
    /\ length (conversation_history (Orchestrator.synthesizer self2))
       = length (conversation_history (Orchestrator.synthesizer self)) + 8.
Proof.
  intros Hres Hnone Hkey Hsvc.
  assert (Hsame : Orchestrator.synthesizer self1
                  = Orchestrator.synthesizer self
                  /\ Orchestrator.validator self1
                     = Orchestrator.validator self).
  { unfold zoom in Hres.
    destruct (Researcher.research query [] _) as [r t].
    injection Hres as _ <-. split; reflexivity. }
  destruct Hsame as [Hsyn Hval].
  rewrite <- Hsyn in Hkey.
  destruct (synthesize_undecodable_run query [] None
              (Orchestrator.synthesizer self1) c key "" Hkey Hsvc
              eq_refl eq_refl)
    as (t1 & t3 & limits & a' & Hrun & Hlim & _ & Hlen).
  cbn in Hlim. injection Hlim as <-.
  eexists. eexists. split.
  - unfold Orchestrator.research, bind.
    destruct (Orchestrator.adjust_depth depth self) as [r0 self0] eqn:E0.
    assert (Hr0 : r0 = Ok tt)
      by (unfold Orchestrator.adjust_depth in E0; now injection E0 as <- _).
    subst r0. cbn [snd] in Hres.
    unfold Orchestrator.run_steps, bind. rewrite Hres.
    rewrite validate_step_skipped by (right; right; exact Hnone).
    rewrite Hnone. unfold zoom at 1.
    cbn [Orchestrator.synthesize as_collaborator].
    rewrite Hrun. reflexivity.
  - cbn. rewrite Hval, <- Hsyn. repeat split. exact Hlen.
Qed.

End WholeRun.

Lemma research_that_finds_nothing_witness :
  exists result self2,
    @Orchestrator.research example_builtins (Runs.canned "Hard to say.")
      MoreRuns.finds_nothing
      (@Synthesizer.as_collaborator example_builtins
         SynthesisRuns.two_decimals (Runs.canned "Hard to say."))
      "q" "quick" (Orchestrator.__init__ (Some "key") true 3)
    = (Ok result, self2)
    /\ Synthesizer.confidence_level (Orchestrator.final_report result)
       = "Low"
    /\ Synthesizer.limitations (Orchestrator.final_report result)
       = [SynthesisRuns.few_sources]
    /\ length (BaseAgent.conversation_history
                 (Orchestrator.synthesizer self2)) = 8.
Proof.
  pose (step := zoom Orchestrator.researcher Orchestrator.set_researcher
                  (@Researcher.research example_builtins
                     (Runs.canned "Hard to say.") MoreRuns.finds_nothing
                     "q" [])
                  (snd (Orchestrator.adjust_depth "quick"
                          (Orchestrator.__init__ (Some "key") true 3)))).
  assert (H : exists rr, step = (Ok rr, snd step)
                         /\ Researcher.findings rr = []).
  { eexists. split; [vm_compute; reflexivity|reflexivity]. }
  destruct H as (rr & Hstep & Hnone).
  destruct (@research_that_finds_nothing example_builtins
              SynthesisRuns.two_decimals (Runs.canned "Hard to say.")
              MoreRuns.finds_nothing "q" "quick"
              (Orchestrator.__init__ (Some "key") true 3) (snd step) rr
              "k"%char "ey" Hstep Hnone eq_refl canned_never_decodes)
    as (result & self2 & Hrun & _ & _ & Hc & _ & _ & Hl & _ & _ & Hh).
  exists result, self2. split; [exact Hrun|].
  split; [exact Hc|]. split; [exact Hl|]. exact Hh.
Defined.

(* ================================================================= *)
(** ** The tool decision *)

Section ToolDecision.
Import ToolUse BaseAgent.
Context `{B : Builtins} `{Svc : Service} `{I : ToolInfo}.

(** X28: the outcomes of a tool decision.  Without a registered tool
    [decide_tool_use] returns nothing and does not call the service.  With
    one, an answer that does not decode, or an object whose [use_tool] is
    missing or false, gives nothing; an object with a true [use_tool] and
    a [tool] entry is returned as it is; and an object with a true
    [use_tool] but no [tool] entry raises [KeyError]. *)
Theorem decide_tool_use_outcomes (task : string) (context : pyval)
    (self : Agent) :
  (tools self = [] -> decide_tool_use task context self = (Ok None, self))
  /\ (forall self' response cleaned,
        tools self <> [] ->
        call_llm (decide_tool_use_prompt task (get_tool_descriptions self)
                    context) None (Some 0.3%Q) (Some 500%Z) self
        = (Ok response, self') ->
        Cleanup.clean_fence_only response = Ok cleaned ->
        (json_loads cleaned = None ->
         decide_tool_use task context self = (Ok None, self'))
        /\ (forall d,
              json_loads cleaned = Some (PDict d) ->
              (Py.dict_lookup "use_tool" d = None
               \/ (exists u, Py.dict_lookup "use_tool" d = Some u
                             /\ truthy u = false)) ->
              decide_tool_use task context self = (Ok None, self'))
        /\ (forall d u tool,
              json_loads cleaned = Some (PDict d) ->
              Py.dict_lookup "use_tool" d = Some u ->
              truthy u = true ->
              Py.dict_lookup "tool" d = Some tool ->
              decide_tool_use task context self
              = (Ok (Some (PDict d)), self'))
        /\ (forall d u,
              json_loads cleaned = Some (PDict d) ->
              Py.dict_lookup "use_tool" d = Some u ->
              truthy u = true ->
              Py.dict_lookup "tool" d = None ->
              decide_tool_use task context self
              = (Raise KeyError, self'))).
Proof.
  split.
  - intros Hn. unfold decide_tool_use. now rewrite Hn.
  - intros self' response cleaned Ht Hcall Hc.
    assert (Hrun : decide_tool_use task context self
                   = (parse_decision response, self')).
    { unfold decide_tool_use. destruct (tools self) as [|t ts] eqn:Et;
        [congruence|].
      unfold bind, lift.
      rewrite Hcall. reflexivity. }
    rewrite Hrun.
    unfold parse_decision, read_decision, loads. rewrite Hc. cbn [pbind].
    split; [|split; [|split]].
    + intros ->. reflexivity.
    + intros d -> [Hn|(u & Hu & Hf)]; cbn; rewrite ?Hn, ?Hu; cbn;
        rewrite ?Hf; reflexivity.
    + intros d u tool -> Hu Hy Hk. cbn. rewrite Hu. cbn. rewrite Hy.
      unfold getitem. rewrite Hk. reflexivity.
    + intros d u -> Hu Hy Hk. cbn. rewrite Hu. cbn. rewrite Hy.
      unfold getitem. rewrite Hk. reflexivity.
Qed.

End ToolDecision.

Lemma decide_tool_use_outcomes_witness :
  exists self',
    @ToolUse.decide_tool_use example_builtins
      (Runs.canned SynthesisRuns.nameless_decision) SynthesisRuns.undescribed
      "Find the news" (PDict []) (SynthesisRuns.with_tool (Some "key"))
    = (Raise KeyError, self')
    /\ length (BaseAgent.conversation_history self') = 2.
Proof.
  pose (call := @BaseAgent.call_llm
                  (Runs.canned SynthesisRuns.nameless_decision)
                  (@ToolUse.decide_tool_use_prompt example_builtins
                     "Find the news"
                     (@ToolUse.get_tool_descriptions SynthesisRuns.undescribed
                        (SynthesisRuns.with_tool (Some "key")))
                     (PDict []))
                  None (Some 0.3%Q) (Some 500%Z)
                  (SynthesisRuns.with_tool (Some "key"))).
  assert (Hcall : call = (Ok SynthesisRuns.nameless_decision, snd call))
    by (vm_compute; reflexivity).
  assert (Ht : BaseAgent.tools (SynthesisRuns.with_tool (Some "key")) <> [])
    by discriminate.
  assert (Hc : Cleanup.clean_fence_only SynthesisRuns.nameless_decision
               = Ok SynthesisRuns.nameless_decision)
    by (vm_compute; reflexivity).
  exists (snd call). split; [|reflexivity].
  apply (proj2 (proj2 (proj2
           (proj2 (@decide_tool_use_outcomes example_builtins
                     (Runs.canned SynthesisRuns.nameless_decision)
                     SynthesisRuns.undescribed "Find the news" (PDict [])
                     (SynthesisRuns.with_tool (Some "key")))
              (snd call) SynthesisRuns.nameless_decision
              SynthesisRuns.nameless_decision Ht Hcall Hc)))
           [("use_tool", PBool true)] (PBool true));
    reflexivity.
Defined.

(* ================================================================= *)
(** ** Data classes and their dict forms *)

Section RoundTrips.

(** X29: tasks survive their dict form.  Reading the dict forms of a list
    of tasks, as [_generate_tasks] reads the entries of an answer, gives
    the same tasks back in the same order after those already collected:
    [to_dict] writes all six keys, so no default is used. *)
Theorem tasks_round_trip (tasks collected : list Planner.ResearchTask) :
  Planner.collect_tasks (map ToDict.task tasks) collected
  = Ok (collected ++ tasks)%list.
Proof.
  revert collected.
  induction tasks as [|t tasks IH]; intros collected; cbn [map].
  - cbn. now rewrite app_nil_r.
  - cbn [Planner.collect_tasks].
    assert (Ht : Planner.make_task (ToDict.task t) collected = Ok t)
      by (destruct t; reflexivity).
    rewrite Ht. cbn [pbind]. rewrite IH, <- app_assoc. reflexivity.
Qed.

(** X30: findings survive their dict form.  Reading the dict forms of a
    list of findings, as [_extract_findings] reads the entries of an
    answer, gives the same findings back in the same order. *)
Theorem findings_round_trip (findings : list Researcher.ResearchFinding) :
  pmap Researcher.make_finding (map ToDict.finding findings) = Ok findings.
Proof.
  induction findings as [|f findings IH]; cbn [map pmap]; [reflexivity|].
  assert (Hf : Researcher.make_finding (ToDict.finding f) = Ok f)
    by (destruct f; reflexivity).
  rewrite Hf. cbn [pbind]. rewrite IH. reflexivity.
Qed.

End RoundTrips.
